(** * btrfs sysfs registry (fs/btrfs/sysfs.c): a shallow embedding

    The source file holds two successive designs of the same subsystem.
    The first keeps a [struct completion] in every node and publishes the
    device counters through byte offsets into [struct btrfs_device]; the
    second allocates the directory nodes dynamically, means to free them
    from the release callback (which it registers through the address of
    a function parameter) and has no completion at all.  Both are embedded
    here, in the modules [V1] and [V2], over one model of the kernel's
    kobject reference counting. *)

From Stdlib Require Import ZArith Lia Bool Ascii String.
From Stdlib Require Import Strings.Byte.
From stdpp Require Import base option list strings.

Local Open Scope string_scope.
Local Open Scope Z_scope.

(** ** Machine integers and error numbers *)

Definition EIO : Z := 5.
Definition ENOENT : Z := 2.
Definition ENOMEM : Z := 12.
Definition EEXIST : Z := 17.
Definition EINVAL : Z := 22.

Definition INT_MAX : Z := 2147483647.
Definition INT_MIN : Z := -2147483648.
Definition UINT_MAX : Z := 4294967295.

(** A value stored in a C [int]: reduced modulo 2^32 into
    [INT_MIN .. INT_MAX]. *)
Definition int_wrap (z : Z) : Z := (z + 2147483648) mod 4294967296 - 2147483648.

(** ** C strings

    A C string is modelled by its contents (the bytes before the
    terminating NUL). *)

Definition slash : ascii := "/"%char.
Definition newline : ascii := "010"%char.

(** [strpbrk s "/"] as a split: the bytes before the first separator and
    the bytes after it, or [None] when [s] holds no separator. *)
Fixpoint strpbrk (s : string) (ct : ascii) : option (string * string) :=
  match s with
  | EmptyString => None
  | String c rest =>
      if Ascii.eqb c ct then Some (EmptyString, rest)
      else match strpbrk rest ct with
           | Some (tok, tl) => Some (String c tok, tl)
           | None => None
           end
  end.

(** [strsep(&ptr, "/")]: returns the token and the new value of [ptr].
    A NULL [ptr] gives a NULL token; otherwise the first separator is
    overwritten by NUL and [ptr] moves past it, or becomes NULL when
    there is none. *)
Definition strsep (stringp : option string) (ct : ascii)
  : option string * option string :=
  match stringp with
  | None => (None, None)
  | Some sbegin =>
      match strpbrk sbegin ct with
      | Some (tok, rest) => (Some tok, Some rest)
      | None => (Some sbegin, None)
      end
  end.

(** [strcpy] into a destination of [size] bytes.  The copy writes
    [strlen src + 1] bytes and checks nothing: [None] stands for a write
    past the end of the destination. *)
Definition strcpy (size : nat) (src : string) : option string :=
  if (S (String.length src) <=? size)%nat then Some src else None.

(** ** [sprintf(buf, "%d\n", v)] *)

Definition digit_char (d : Z) : ascii := ascii_of_nat (48 + Z.to_nat d).

(** The digits of a non-negative number, produced least significant
    first and accumulated in front of [acc]. *)
Fixpoint put_dec (fuel : nat) (n : Z) (acc : string) : string :=
  match fuel with
  | O => acc
  | S fuel' =>
      if n <? 10 then String (digit_char n) acc
      else put_dec fuel' (n / 10) (String (digit_char (n mod 10)) acc)
  end.

Definition number (n : Z) : string :=
  put_dec (S (Z.to_nat (Z.log2 n))) n EmptyString.

Definition format_d (v : Z) : string :=
  if v <? 0 then String "-"%char (number (- v)) else number v.

(** Returns the byte count and the text left in [buf]. *)
Definition sprintf_d_nl (v : Z) : Z * string :=
  let text := (format_d v ++ String newline EmptyString)%string in
  (Z.of_nat (String.length text), text).

(** Reading decimal notation: what a digit string denotes.  Only the
    canonical form is accepted: an optional minus sign, then digits with
    no leading zero (a lone "0" is zero), and no "-0". *)

Definition digit_value (c : ascii) : option Z :=
  let n := Z.of_nat (nat_of_ascii c) in
  if (48 <=? n) && (n <=? 57) then Some (n - 48) else None.

Fixpoint digits_value (s : string) (acc : Z) : option Z :=
  match s with
  | EmptyString => Some acc
  | String c rest =>
      match digit_value c with
      | Some d => digits_value rest (10 * acc + d)
      | None => None
      end
  end.

Definition natural_value (s : string) : option Z :=
  match s with
  | EmptyString => None
  | String c rest =>
      if Ascii.eqb c "0"%char
      then (if String.eqb rest EmptyString then Some 0 else None)
      else digits_value s 0
  end.

Definition decimal_value (s : string) : option Z :=
  match s with
  | String c rest =>
      if Ascii.eqb c "-"%char
      then match natural_value rest with
           | Some n => if n =? 0 then None else Some (- n)
           | None => None
           end
      else natural_value s
  | EmptyString => None
  end.

(** ** The kobject core

    [struct kobject], its reference count and the namespace live in
    lib/kobject.c and fs/sysfs, outside this file's source.  The model
    below keeps what sysfs.c relies on: a counted reference, the release
    callback of the node type called when the count reaches zero, and a
    namespace in which a name is taken at most once under one parent. *)

(** A pointer is an address in the object store, or NULL. *)
Abbreviation ptr := (option nat).

Section Kobject.

(** [T] names the node types ([struct kobj_type]) of one design. *)
Context {T : Type}.

Record kobject : Type := mk_kobject {
  name : option string;
  parent : ptr;
  kset : ptr;
  ktype : option T;
  kref : Z;
  state_initialized : bool;
  state_in_sysfs : bool
}.

(** What lives at one address: the embedded kobject, the completion next
    to it ([btrfs_kobj_unregister], [btrfs_device_unregister]; the second
    design has none and leaves it untouched), whether the storage was
    given back with [kfree], and a count of the release callback's runs
    (a ghost field, for stating "exactly once"). *)
Record object : Type := mk_object {
  kobj : kobject;
  unregister : nat;
  freed : bool;
  releases : nat
}.

(** The object store, and the allocator's future: one entry is consumed
    by each allocation, [true] making it fail. *)
Record world : Type := mk_world {
  objs : list object;
  oom : list bool
}.

Definition zero_kobject : kobject :=
  mk_kobject None None None None 0 false false.

Definition zero_object : object := mk_object zero_kobject 0%nat false 0%nat.

Definition with_kobj (k : kobject) (o : object) : object :=
  mk_object k (unregister o) (freed o) (releases o).

Definition with_unregister (n : nat) (o : object) : object :=
  mk_object (kobj o) n (freed o) (releases o).

Definition with_kref (z : Z) (k : kobject) : kobject :=
  mk_kobject (name k) (parent k) (kset k) (ktype k) z
             (state_initialized k) (state_in_sysfs k).

Definition with_kset (p : ptr) (k : kobject) : kobject :=
  mk_kobject (name k) (parent k) p (ktype k) (kref k)
             (state_initialized k) (state_in_sysfs k).

(** Dereferencing: the object at [a], provided it was not freed. *)
Definition deref (w : world) (a : nat) : option object :=
  match objs w !! a with
  | Some o => if freed o then None else Some o
  | None => None
  end.

Definition store (a : nat) (o : object) (w : world) : world :=
  mk_world (<[a := o]> (objs w)) (oom w).

(** One allocation attempt. *)
Definition alloc_attempt (w : world) : bool * world :=
  match oom w with
  | [] => (true, w)
  | fails :: rest => (negb fails, mk_world (objs w) rest)
  end.

(** Modelled from the spec: [kzalloc] (mm/slab), "allocate zeroed
    storage", which may fail. *)
Definition kzalloc (w : world) : ptr * world :=
  let (ok, w1) := alloc_attempt w in
  if ok then (Some (length (objs w1)), mk_world (objs w1 ++ [zero_object]) (oom w1))
  else (None, w1).

(** Modelled from the spec: [kfree], giving the storage at [a] back. *)
Definition kfree (a : nat) (w : world) : option world :=
  match deref w a with
  | Some o => Some (store a (mk_object (kobj o) (unregister o) true (releases o)) w)
  | None => None
  end.

(** Modelled from the spec: the namespace is the set of registered
    nodes; a name is taken under a parent when a node that is in the
    namespace carries it there. *)
Definition entry_at (par : ptr) (nm : string) (o : object) : bool :=
  negb (freed o) && state_in_sysfs (kobj o)
  && bool_decide (parent (kobj o) = par)
  && bool_decide (name (kobj o) = Some nm).

(** Whether some node is registered under [par] with the name [nm]. *)
Definition name_taken (w : world) (par : ptr) (nm : string) : bool :=
  existsb (entry_at par nm) (objs w).

(** The namespace as a whole: for each address, the parent and the name
    under which the node there is registered, if it is. *)
Definition entry_of (o : object) : option (ptr * option string) :=
  if negb (freed o) && state_in_sysfs (kobj o)
  then Some (parent (kobj o), name (kobj o))
  else None.

Definition namespace (w : world) : list (option (ptr * option string)) :=
  entry_of <$> objs w.

(** Modelled from the spec: [kobject_init], arming the reference count
    at one. *)
Definition kobject_init (a : nat) (kt : T) (w : world) : option world :=
  match deref w a with
  | Some o =>
      let k := kobj o in
      Some (store a (with_kobj (mk_kobject (name k) (parent k) (kset k)
                                           (Some kt) 1 true false) o) w)
  | None => None
  end.

(** Modelled from the spec: [kobject_add], registration under [par] (or
    under the node's kset when [par] is NULL) with the given name; it
    fails on allocation failure and on a name collision. *)
Definition kobject_add (a : nat) (par : ptr) (nm : string) (w : world)
  : option (Z * world) :=
  match deref w a with
  | Some o =>
      let (ok, w1) := alloc_attempt w in
      if negb ok then Some (- ENOMEM, w1)
      else
        let k := kobj o in
        let dir := match par with Some _ => par | None => kset k end in
        if name_taken w1 dir nm
        then Some (- EEXIST,
                   store a (with_kobj (mk_kobject (Some nm) None (kset k) (ktype k)
                              (kref k) (state_initialized k) false) o) w1)
        else Some (0,
                   store a (with_kobj (mk_kobject (Some nm) dir (kset k) (ktype k)
                              (kref k) (state_initialized k) true) o) w1)
  | None => None
  end.

(** Modelled from the spec: [kobject_init_and_add], the two in a row. *)
Definition kobject_init_and_add (a : nat) (kt : T) (par : ptr) (nm : string)
    (w : world) : option (Z * world) :=
  match kobject_init a kt w with
  | Some w1 => kobject_add a par nm w1
  | None => None
  end.

(** Modelled from the spec: [kobject_del], leaving the namespace. *)
Definition kobject_del (a : nat) (w : world) : option world :=
  match deref w a with
  | Some o =>
      let k := kobj o in
      Some (store a (with_kobj (mk_kobject (name k) None (kset k) (ktype k)
                                           (kref k) (state_initialized k) false) o) w)
  | None => None
  end.

(** Modelled from the spec: [kobject_get], one more reference.  A NULL
    pointer is accepted and ignored. *)
Definition kobject_get (p : ptr) (w : world) : option world :=
  match p with
  | None => Some w
  | Some a =>
      match deref w a with
      | Some o =>
          Some (store a (with_kobj (with_kref (int_wrap (kref (kobj o) + 1)) (kobj o)) o) w)
      | None => None
      end
  end.

(** The release callback of a node type.  It receives [kobject_put]
    itself (the callback of the second design's device type calls it). *)
Definition release_fn : Type :=
  (ptr -> world -> option world) -> nat -> world -> option world.

Context (release : T -> release_fn).

(** Modelled from the spec: the last reference is gone: leave the
    namespace if still there, then run the node type's release
    callback. *)
Definition kobject_cleanup (put : ptr -> world -> option world) (a : nat)
    (w : world) : option world :=
  match deref w a with
  | Some o =>
      match (if state_in_sysfs (kobj o) then kobject_del a w else Some w) with
      | Some w1 =>
          match ktype (kobj o) with
          | Some t =>
              match deref w1 a with
              | Some o1 =>
                  release t put a
                    (store a (mk_object (kobj o1) (unregister o1) (freed o1)
                                        (S (releases o1))) w1)
              | None => None
              end
          | None => Some w1
          end
      | None => None
      end
  | None => None
  end.

(** Modelled from the spec: [kobject_put], one reference less; the
    cleanup runs when the count reaches zero.  A NULL pointer is accepted
    and ignored.  [fuel] bounds the depth of re-entry through release
    callbacks; [None] is a use of an invalid pointer or exhausted fuel. *)
Fixpoint kobject_put (fuel : nat) (p : ptr) (w : world) : option world :=
  match p with
  | None => Some w
  | Some a =>
      match fuel with
      | O => None
      | S fuel' =>
          match deref w a with
          | Some o =>
              let k := with_kref (int_wrap (kref (kobj o) - 1)) (kobj o) in
              let w1 := store a (with_kobj k o) w in
              if kref k =? 0 then kobject_cleanup (kobject_put fuel') a w1
              else Some w1
          | None => None
          end
      end
  end.

(** Modelled from the spec: the one-shot teardown signal
    ([struct completion]), armed by [init_completion]. *)
Definition init_completion (a : nat) (w : world) : option world :=
  match deref w a with
  | Some o => Some (store a (with_unregister 0%nat o) w)
  | None => None
  end.

(** Modelled from the spec: [complete], signalling it. *)
Definition complete (a : nat) (w : world) : option world :=
  match deref w a with
  | Some o => Some (store a (with_unregister (S (unregister o)) o) w)
  | None => None
  end.

(** Modelled from the spec: [wait_for_completion], consuming one
    signal.  The outer [None] is an invalid pointer, the inner [None] a
    caller that has to sleep because nothing was signalled yet. *)
Definition wait_for_completion (a : nat) (w : world) : option (option world) :=
  match deref w a with
  | Some o =>
      match unregister o with
      | O => Some None
      | S n => Some (Some (store a (with_unregister n o) w))
      end
  | None => None
  end.

End Kobject.

Arguments kobject : clear implicits.
Arguments object : clear implicits.
Arguments world : clear implicits.
Arguments release_fn : clear implicits.

(** The depth of re-entry the designs below need: a put, the release
    callback, and the put that callback may issue. *)
Definition PUT_FUEL : nat := 3.

(** ** Callers that may sleep

    The teardown entry points are straight-line sequences of kobject
    calls, some of which wait.  They are embedded as the list of their
    statements, so that other callers can be interleaved between two
    statements. *)

Inductive stmt : Type :=
| KobjectGet (p : ptr)
| KobjectPut (p : ptr)
| WaitForCompletion (a : nat).

(** What running a caller gives: it returned, it sleeps in front of the
    statements still to run, or it used an invalid pointer. *)
Inductive outcome (W : Type) : Type :=
| Finished (w : W)
| Blocked (w : W) (rest : list stmt)
| Crashed.
Arguments Finished {W} w.
Arguments Blocked {W} w rest.
Arguments Crashed {W}.

Section Callers.

Context {T : Type} (release : T -> release_fn T).

(** One statement: [Some (Some w)] when it ran, [Some None] when the
    caller has to sleep, [None] on an invalid pointer. *)
Definition exec_stmt (s : stmt) (w : world T) : option (option (world T)) :=
  match s with
  | KobjectGet p => Some <$> kobject_get p w
  | KobjectPut p => Some <$> kobject_put release PUT_FUEL p w
  | WaitForCompletion a => wait_for_completion a w
  end.

(** A caller running alone, to its end or to the point where it sleeps. *)
Fixpoint run (prog : list stmt) (w : world T) : outcome (world T) :=
  match prog with
  | [] => Finished w
  | s :: rest =>
      match exec_stmt s w with
      | Some (Some w1) => run rest w1
      | Some None => Blocked w prog
      | None => Crashed
      end
  end.

(** Several callers over one store: each has the statements it still has
    to run. *)
Record system : Type := mk_system {
  shared : world T;
  threads : list (list stmt)
}.

(** The scheduler lets caller [i] run one statement.  A sleeping caller
    stays where it is; [None] is a crash. *)
Definition step (i : nat) (s : system) : option system :=
  match threads s !! i with
  | Some (st :: rest) =>
      match exec_stmt st (shared s) with
      | Some (Some w1) => Some (mk_system w1 (<[i := rest]> (threads s)))
      | Some None => Some s
      | None => None
      end
  | _ => Some s
  end.

Fixpoint run_schedule (sched : list nat) (s : system) : option system :=
  match sched with
  | [] => Some s
  | i :: rest =>
      match step i s with
      | Some s1 => run_schedule rest s1
      | None => None
      end
  end.

(** Caller [i] has returned. *)
Definition returned (i : nat) (s : system) : bool :=
  match threads s !! i with
  | Some [] => true
  | _ => false
  end.

(** The number of callers among [ts] that have not returned yet. *)
Definition in_flight (ts : list (list stmt)) : nat :=
  length (List.filter (fun t => match t with [] => false | _ => true end) ts).

End Callers.

Arguments system : clear implicits.

(** ** Results of a dispatched access *)

(** A dispatched read or write returns a count or a negative error
    number together with the text left in the buffer; calling through a
    NULL function pointer is a result of its own, and so is a read
    outside the backing object. *)
Inductive access : Type :=
| Returned (ret : Z) (buf : string)
| NullCall
| BadAccess.

(** ** Object images *)

(** The value of four bytes starting at [off], least significant byte
    first, as an unsigned number. *)
Definition byte_val (b : byte) : Z := Z.of_N (Byte.to_N b).

Definition load_uint (mem : list byte) (off : nat) : option Z :=
  match mem !! off, mem !! (off + 1)%nat, mem !! (off + 2)%nat, mem !! (off + 3)%nat with
  | Some b0, Some b1, Some b2, Some b3 =>
      Some (byte_val b0 + 256 * byte_val b1 + 65536 * byte_val b2
            + 16777216 * byte_val b3)
  | _, _, _, _ => None
  end.

(** The same four bytes read through an [int *]. *)
Definition load_int (mem : list byte) (off : nat) : option Z :=
  int_wrap <$> load_uint mem off.

(** [struct attribute]: a name and the permission bits. *)
Record attribute : Type := mk_attribute {
  attr_name : string;
  mode : Z
}.

(** 0444 *)
Definition S_IRUGO : Z := 292.
(** 0222 *)
Definition S_IWUGO : Z := 146.

Definition readable (a : attribute) : bool := negb (Z.land (mode a) S_IRUGO =? 0).
Definition writable (a : attribute) : bool := negb (Z.land (mode a) S_IWUGO =? 0).

(** What goes wrong below the level of error numbers. *)
Inductive fault : Type :=
| InvalidPointer
| BufferOverrun
| Asleep.

Definition valid {A : Type} (o : option A) : fault + A :=
  match o with
  | Some a => inr a
  | None => inl InvalidPointer
  end.

(** A caller that runs alone and goes to sleep is never woken. *)
Definition alone {W : Type} (o : outcome W) : fault + W :=
  match o with
  | Finished w => inr w
  | Blocked _ _ => inl Asleep
  | Crashed => inl InvalidPointer
  end.

(** Modelled from the spec: the namespace host resolves the name of an
    access in the attribute set of the node type, by a linear scan for
    the exact name ("Look up attr_name in the node's type descriptor's
    attribute set", "Fails with NotFound if absent"); fs/sysfs is not
    part of this file's source. *)
Fixpoint find_attr {A : Type} (name_of : A -> string) (nm : string)
    (attrs : list A) : option A :=
  match attrs with
  | [] => None
  | a :: rest => if String.eqb (name_of a) nm then Some a else find_attr name_of nm rest
  end.

(** Modelled from the spec: a read and a write as the host issues them,
    [show] and [store] being the [sysfs_ops] of the node type. *)
Definition read_attr {A B : Type} (name_of : A -> string)
    (show : B -> A -> access) (attrs : list A) (kobj : B) (nm : string) : access :=
  match find_attr name_of nm attrs with
  | Some a => show kobj a
  | None => Returned (- ENOENT) ""
  end.

Definition write_attr {A B : Type} (name_of : A -> string)
    (store : B -> A -> string -> Z -> access) (attrs : list A) (kobj : B)
    (nm : string) (buf : string) (len : Z) : access :=
  match find_attr name_of nm attrs with
  | Some a => store kobj a buf len
  | None => Returned (- ENOENT) ""
  end.

(** Modelled from the spec: [kset_create_and_add], creating the
    top-level namespace entry; NULL when the allocation or the
    registration fails. *)
Definition kset_create_and_add {T : Type} (nm : string) (w : world T)
  : ptr * world T :=
  let (p, w1) := kzalloc w in
  match p with
  | Some a =>
      if name_taken w1 None nm then (None, mk_world (take a (objs w1)) (oom w1))
      else (Some a,
            store a (mk_object (mk_kobject (Some nm) None None None 1 true true)
                               0%nat false 0%nat) w1)
  | None => (None, w1)
  end.

(** Modelled from the spec: [kset_unregister], giving back the reference
    [kset_create_and_add] left; when it was the last one the entry
    leaves the namespace and its storage is given back.  A NULL pointer
    is accepted and ignored. *)
Definition kset_unregister {T : Type} (p : ptr) (w : world T) : option (world T) :=
  match p with
  | None => Some w
  | Some a =>
      match deref w a with
      | Some o =>
          let k := with_kref (int_wrap (kref (kobj o) - 1)) (kobj o) in
          let w1 := store a (with_kobj k o) w in
          if kref k =? 0 then
            match kobject_del a w1 with
            | Some w2 => kfree a w2
            | None => None
            end
          else Some w1
      | None => None
      end
  end.

(** * The first design *)

Module V1.

Inductive kobj_type : Type :=
| btrfs_ktype_device_dir
| btrfs_ktype_device.

(** [struct btrfs_kobject]: the kobject and its completion (the [ptr]
    field is never used). *)
Abbreviation btrfs_kobject := (object kobj_type).

(** [struct btrfs_device], as the bytes it occupies. *)
Abbreviation btrfs_device := (list byte).

(** [struct btrfs_kobject_attr].  An accessor is handed the node. *)
Record btrfs_kobject_attr : Type := mk_btrfs_kobject_attr {
  kobj_attr : attribute;
  kobj_show : option (btrfs_kobject -> access);
  kobj_store : option (btrfs_kobject -> string -> Z -> access)
}.

(** [struct btrfs_device_attr].  An accessor is handed the device that
    encloses the kobject ([to_dev_kobj]) and the descriptor's [offset],
    the one field of the descriptor an accessor reads. *)
Record btrfs_device_attr : Type := mk_btrfs_device_attr {
  dev_attr : attribute;
  dev_show : option (btrfs_device -> nat -> access);
  dev_store : option (btrfs_device -> nat -> string -> Z -> access);
  offset : nat
}.

(** [!p] on a function pointer, and calling through one. *)
Definition is_null {F : Type} (f : option F) : bool :=
  match f with
  | Some _ => false
  | None => true
  end.

Definition call {F : Type} (f : option F) (k : F -> access) : access :=
  match f with
  | Some g => k g
  | None => NullCall
  end.

Definition btrfs_kobject_attr_store (kobj : btrfs_kobject)
    (btrfs_attr : btrfs_kobject_attr) (buf : string) (len : Z) : access :=
  if is_null (kobj_store btrfs_attr) then Returned (- EIO) ""
  else call (kobj_store btrfs_attr) (fun f => f kobj buf len).

Definition btrfs_kobject_attr_show (kobj : btrfs_kobject)
    (btrfs_attr : btrfs_kobject_attr) : access :=
  if is_null (kobj_show btrfs_attr) then Returned (- EIO) ""
  else call (kobj_show btrfs_attr) (fun f => f kobj).

Definition btrfs_device_attr_store (kobj : btrfs_device)
    (btrfs_attr : btrfs_device_attr) (buf : string) (len : Z) : access :=
  if is_null (dev_store btrfs_attr) then Returned (- EIO) ""
  else call (dev_store btrfs_attr) (fun f => f kobj (offset btrfs_attr) buf len).

Definition btrfs_device_attr_show (kobj : btrfs_device)
    (btrfs_attr : btrfs_device_attr) : access :=
  if is_null (dev_show btrfs_attr) then Returned (- EIO) ""
  else call (dev_show btrfs_attr) (fun f => f kobj (offset btrfs_attr)).

(** Both release callbacks signal the completion next to the kobject. *)
Definition btrfs_kobject_release : release_fn kobj_type :=
  fun _ kobj w => complete kobj w.

Definition btrfs_device_release : release_fn kobj_type :=
  fun _ kobj w => complete kobj w.

Definition release (t : kobj_type) : release_fn kobj_type :=
  match t with
  | btrfs_ktype_device_dir => btrfs_kobject_release
  | btrfs_ktype_device => btrfs_device_release
  end.

(** The generic accessor: the [int] found [attr->offset] bytes into the
    device is printed with ["%d\n"]. *)
Definition btrfs_device_show (device : btrfs_device) (off : nat) : access :=
  match load_int device off with
  | Some v => let (n, text) := sprintf_d_nl v in Returned n text
  | None => BadAccess
  end.

(** The counters of [struct btrfs_device] that are published. *)
Inductive counter : Type :=
| cnt_write_io_errs
| cnt_read_io_errs
| cnt_flush_io_errs
| cnt_corruption_errs
| cnt_generation_errs.

Section Layout.

(** [offsetof(struct btrfs_device, <counter>.counter)]: the layout of
    the structure is declared in volumes.h. *)
Variable offsetof : counter -> nat.

Definition BTRFS_DEVICE_OFFSET_ATTR (_name : string) (_mode : Z)
    (_show : option (btrfs_device -> nat -> access))
    (_store : option (btrfs_device -> nat -> string -> Z -> access))
    (_elname : counter) : btrfs_device_attr :=
  mk_btrfs_device_attr (mk_attribute _name _mode) _show _store (offsetof _elname).

Definition btrfs_dev_attr_cnt_write_io_errs : btrfs_device_attr :=
  BTRFS_DEVICE_OFFSET_ATTR "cnt_write_io_errs" S_IRUGO (Some btrfs_device_show) None
                           cnt_write_io_errs.
Definition btrfs_dev_attr_cnt_read_io_errs : btrfs_device_attr :=
  BTRFS_DEVICE_OFFSET_ATTR "cnt_read_io_errs" S_IRUGO (Some btrfs_device_show) None
                           cnt_read_io_errs.
Definition btrfs_dev_attr_cnt_flush_io_errs : btrfs_device_attr :=
  BTRFS_DEVICE_OFFSET_ATTR "cnt_flush_io_errs" S_IRUGO (Some btrfs_device_show) None
                           cnt_flush_io_errs.
Definition btrfs_dev_attr_cnt_corruption_errs : btrfs_device_attr :=
  BTRFS_DEVICE_OFFSET_ATTR "cnt_corruption_errs" S_IRUGO (Some btrfs_device_show) None
                           cnt_corruption_errs.
Definition btrfs_dev_attr_cnt_generation_errs : btrfs_device_attr :=
  BTRFS_DEVICE_OFFSET_ATTR "cnt_generation_errs" S_IRUGO (Some btrfs_device_show) None
                           cnt_generation_errs.

Definition btrfs_device_default_attrs : list btrfs_device_attr :=
  [ btrfs_dev_attr_cnt_write_io_errs;
    btrfs_dev_attr_cnt_read_io_errs;
    btrfs_dev_attr_cnt_flush_io_errs;
    btrfs_dev_attr_cnt_corruption_errs;
    btrfs_dev_attr_cnt_generation_errs ].

End Layout.

Definition btrfs_device_dir_default_attrs : list btrfs_kobject_attr := [].

(** The globals: [btrfs_kset], and the static [btrfs_devices] node, which
    sits at a fixed address of the store. *)
Record state : Type := mk_state {
  mem : world kobj_type;
  btrfs_kset : ptr
}.

Definition btrfs_devices : nat := 0%nat.

Definition boot (plan : list bool) : state :=
  mk_state (mk_world [zero_object] plan) None.

Definition btrfs_kobject_init_sysfs (st : state) : fault + (Z * state) :=
  match deref (mem st) btrfs_devices with
  | Some o =>
      let w1 := store btrfs_devices (with_kobj (with_kset (btrfs_kset st) (kobj o)) o)
                      (mem st) in
      match init_completion btrfs_devices w1 with
      | Some w2 =>
          match kobject_init_and_add btrfs_devices btrfs_ktype_device_dir None
                                     "devices" w2 with
          | Some (ret, w3) =>
              if negb (ret =? 0) then
                match kobject_put release PUT_FUEL (Some btrfs_devices) w3 with
                | Some w4 => inr (- EINVAL, mk_state w4 (btrfs_kset st))
                | None => inl InvalidPointer
                end
              else inr (0, mk_state w3 (btrfs_kset st))
          | None => inl InvalidPointer
          end
      | None => inl InvalidPointer
      end
  | None => inl InvalidPointer
  end.

Definition btrfs_init_sysfs (st : state) : fault + (Z * state) :=
  let (p, w1) := kset_create_and_add "btrfs" (mem st) in
  match p with
  | None => inr (- ENOMEM, mk_state w1 None)
  | Some _ => btrfs_kobject_init_sysfs (mk_state w1 p)
  end.

(** [for (ptr = device_name; (curr = strsep(&ptr, "/")) != NULL; prev = curr);]
    The result is the final value of [prev]; [None] when the fuel runs
    out first. *)
Fixpoint last_token (fuel : nat) (ptr0 : option string) (prev : option string)
  : option (option string) :=
  match fuel with
  | O => None
  | S fuel' =>
      match strsep ptr0 slash with
      | (Some curr, ptr1) => last_token fuel' ptr1 (Some curr)
      | (None, _) => Some prev
      end
  end.

(** The name under which a device path is registered: the path is copied
    into [char device_name[64]] and cut at its separators. *)
Definition device_entry_name (dev_name : string) : fault + option string :=
  match strcpy 64 dev_name with
  | Some device_name =>
      match last_token (S (S (String.length device_name))) (Some device_name) None with
      | Some prev => inr prev
      | None => inl InvalidPointer
      end
  | None => inl BufferOverrun
  end.

(** ["%s"] applied to a pointer. *)
Definition percent_s (s : option string) : string :=
  match s with
  | Some t => t
  | None => "(null)"
  end.

Definition btrfs_create_device (device_kobj : nat) (dev_name : string)
    (st : state) : fault + (Z * state) :=
  match device_entry_name dev_name with
  | inr prev =>
      match init_completion device_kobj (mem st) with
      | Some w1 =>
          match kobject_init_and_add device_kobj btrfs_ktype_device
                                     (Some btrfs_devices) (percent_s prev) w1 with
          | Some (ret, w2) =>
              if negb (ret =? 0) then
                match kobject_put release PUT_FUEL (Some device_kobj) w2 with
                | Some w3 => inr (- EINVAL, mk_state w3 (btrfs_kset st))
                | None => inl InvalidPointer
                end
              else inr (0, mk_state w2 (btrfs_kset st))
          | None => inl InvalidPointer
          end
      | None => inl InvalidPointer
      end
  | inl f => inl f
  end.

(** [kobject_put(&btrfs_kobj->kobj);
     wait_for_completion(&btrfs_kobj->btrfs_kobj_unregister);] *)
Definition btrfs_kobject_destroy (btrfs_kobj : nat) : list stmt :=
  [KobjectPut (Some btrfs_kobj); WaitForCompletion btrfs_kobj].

(** [kobject_put(device_kobj);
     wait_for_completion(&device->btrfs_device_unregister);] *)
Definition btrfs_kill_device (device_kobj : nat) : list stmt :=
  [KobjectPut (Some device_kobj); WaitForCompletion device_kobj].

(** [btrfs_kobject_destroy(&btrfs_devices); kset_unregister(btrfs_kset);] *)
Definition btrfs_exit_sysfs (st : state) : fault + state :=
  match alone (run release (btrfs_kobject_destroy btrfs_devices) (mem st)) with
  | inr w1 =>
      match kset_unregister (btrfs_kset st) w1 with
      | Some w2 => inr (mk_state w2 (btrfs_kset st))
      | None => inl InvalidPointer
      end
  | inl f => inl f
  end.

End V1.

(** * The second design *)

Module V2.

(** What the [ktype] pointer of a kobject may point at: one of the five
    static node types of the file, or the [ktype] parameter of
    [btrfs_kobject_create], which that function registers by address.
    As long as the call runs the parameter holds a copy of the node type
    it was given and is not told apart from it; once the call has
    returned it is storage that no longer exists, [dead_ktype]. *)
Inductive kobj_type : Type :=
| btrfs_ktype_info
| btrfs_ktype_health
| btrfs_ktype_devices
| btrfs_ktype_device_dir
| btrfs_ktype_device
| dead_ktype.

(** [struct btrfs_kobject]: the kobject (the [ptr] field is never used). *)
Abbreviation btrfs_kobject := (object kobj_type).

(** The counters of [struct btrfs_device] ([atomic_t], an [int] each). *)
Record btrfs_device : Type := mk_btrfs_device {
  cnt_write_io_errs : Z;
  cnt_read_io_errs : Z;
  cnt_flush_io_errs : Z;
  cnt_corruption_errs : Z;
  cnt_generation_errs : Z
}.

(** [struct btrfs_fs_info], which encloses the kobject of a device node.
    Of it the accessors use the device that [btrfs_find_device] returns
    for the super block copy's device item (volumes.c); NULL when there
    is none. *)
Record btrfs_fs_info : Type := mk_btrfs_fs_info {
  found_device : option btrfs_device
}.

Record btrfs_kobject_attr : Type := mk_btrfs_kobject_attr {
  kobj_attr : attribute;
  kobj_show : option (btrfs_kobject -> access);
  kobj_store : option (btrfs_kobject -> string -> Z -> access)
}.

(** An accessor is handed the [btrfs_fs_info] that encloses the kobject. *)
Record btrfs_device_attr : Type := mk_btrfs_device_attr {
  dev_attr : attribute;
  dev_show : option (btrfs_fs_info -> access);
  dev_store : option (btrfs_fs_info -> string -> Z -> access)
}.

Definition is_null {F : Type} (f : option F) : bool :=
  match f with
  | Some _ => false
  | None => true
  end.

Definition call {F : Type} (f : option F) (k : F -> access) : access :=
  match f with
  | Some g => k g
  | None => NullCall
  end.

Definition btrfs_kobject_attr_store (kobj : btrfs_kobject)
    (btrfs_attr : btrfs_kobject_attr) (buf : string) (len : Z) : access :=
  if is_null (kobj_store btrfs_attr) then Returned (- EIO) ""
  else call (kobj_store btrfs_attr) (fun f => f kobj buf len).

Definition btrfs_kobject_attr_show (kobj : btrfs_kobject)
    (btrfs_attr : btrfs_kobject_attr) : access :=
  if is_null (kobj_show btrfs_attr) then Returned (- EIO) ""
  else call (kobj_show btrfs_attr) (fun f => f kobj).

Definition btrfs_device_attr_store (kobj : btrfs_fs_info)
    (btrfs_attr : btrfs_device_attr) (buf : string) (len : Z) : access :=
  if is_null (dev_store btrfs_attr) then Returned (- EIO) ""
  else call (dev_store btrfs_attr) (fun f => f kobj buf len).

Definition btrfs_device_attr_show (kobj : btrfs_fs_info)
    (btrfs_attr : btrfs_device_attr) : access :=
  if is_null (dev_show btrfs_attr) then Returned (- EIO) ""
  else call (dev_show btrfs_attr) (fun f => f kobj).

(** [kfree(tmp_kobj)] *)
Definition btrfs_kobject_release : release_fn kobj_type :=
  fun _ kobj w => kfree kobj w.

(** [kobject_put(kobj)] *)
Definition btrfs_device_release : release_fn kobj_type :=
  fun kobject_put kobj w => kobject_put (Some kobj) w.

(** [t->release] for each thing a [ktype] pointer may point at.  Through
    the address of a dead parameter there is no callback to read: the
    cleanup uses an invalid pointer. *)
Definition release (t : kobj_type) : release_fn kobj_type :=
  match t with
  | btrfs_ktype_device => btrfs_device_release
  | dead_ktype => fun _ _ _ => None
  | _ => btrfs_kobject_release
  end.

Definition BTRFS_ATTR (_name : string) (_mode : Z)
    (_show : option (btrfs_kobject -> access))
    (_store : option (btrfs_kobject -> string -> Z -> access)) : btrfs_kobject_attr :=
  mk_btrfs_kobject_attr (mk_attribute _name _mode) _show _store.

Definition BTRFS_DEVICE_ATTR (_name : string) (_mode : Z)
    (_show : option (btrfs_fs_info -> access))
    (_store : option (btrfs_fs_info -> string -> Z -> access)) : btrfs_device_attr :=
  mk_btrfs_device_attr (mk_attribute _name _mode) _show _store.

Definition btrfs_attr_num_devices := BTRFS_ATTR "num_devices" S_IRUGO None None.
Definition btrfs_info_default_attrs := [btrfs_attr_num_devices].

Definition btrfs_attr_dummy := BTRFS_ATTR "dummy" S_IRUGO None None.
Definition btrfs_health_default_attrs := [btrfs_attr_dummy].

Definition btrfs_attr_dummy1 := BTRFS_ATTR "dummy1" S_IRUGO None None.
Definition btrfs_devices_default_attrs := [btrfs_attr_dummy1].

Definition btrfs_device_dir_default_attrs : list btrfs_kobject_attr := [].

Definition device_stats (btrfs_kobj : btrfs_fs_info) : option btrfs_device :=
  found_device btrfs_kobj.

(** [sprintf(buf, "%d\n", device-><counter>.counter)] on the device that
    [device_stats] returns. *)
Definition show_counter (field : btrfs_device -> Z) (btrfs_kobj : btrfs_fs_info)
  : access :=
  match device_stats btrfs_kobj with
  | Some device => let (n, text) := sprintf_d_nl (field device) in Returned n text
  | None => BadAccess
  end.

Definition device_write_io_err_show := show_counter cnt_write_io_errs.
Definition device_read_io_err_show := show_counter cnt_read_io_errs.
Definition device_flush_io_err_show := show_counter cnt_flush_io_errs.
Definition device_corruption_err_show := show_counter cnt_corruption_errs.
Definition device_generation_err_show := show_counter cnt_generation_errs.

Definition btrfs_attr_uuid := BTRFS_DEVICE_ATTR "uuid" S_IRUGO None None.
Definition btrfs_attr_label := BTRFS_DEVICE_ATTR "label" S_IRUGO None None.
Definition btrfs_attr_cnt_write_io_errs :=
  BTRFS_DEVICE_ATTR "cnt_write_io_errs" S_IRUGO (Some device_write_io_err_show) None.
Definition btrfs_attr_cnt_read_io_errs :=
  BTRFS_DEVICE_ATTR "cnt_read_io_errs" S_IRUGO (Some device_read_io_err_show) None.
Definition btrfs_attr_cnt_flush_io_errs :=
  BTRFS_DEVICE_ATTR "cnt_flush_io_errs" S_IRUGO (Some device_flush_io_err_show) None.
Definition btrfs_attr_cnt_corruption_errs :=
  BTRFS_DEVICE_ATTR "cnt_corruption_errs" S_IRUGO (Some device_corruption_err_show) None.
Definition btrfs_attr_cnt_generation_errs :=
  BTRFS_DEVICE_ATTR "cnt_generation_errs" S_IRUGO (Some device_generation_err_show) None.

Definition btrfs_device_default_attrs : list btrfs_device_attr :=
  [ btrfs_attr_uuid;
    btrfs_attr_label;
    btrfs_attr_cnt_write_io_errs;
    btrfs_attr_cnt_read_io_errs;
    btrfs_attr_cnt_flush_io_errs;
    btrfs_attr_cnt_corruption_errs;
    btrfs_attr_cnt_generation_errs ].

(** A read and a write of a named attribute of a device node and of a
    directory node, through the [sysfs_ops] of their node types. *)
Definition device_read := read_attr (fun a => attr_name (dev_attr a)) btrfs_device_attr_show.
Definition device_write := write_attr (fun a => attr_name (dev_attr a)) btrfs_device_attr_store.
Definition kobject_read := read_attr (fun a => attr_name (kobj_attr a)) btrfs_kobject_attr_show.
Definition kobject_write := write_attr (fun a => attr_name (kobj_attr a)) btrfs_kobject_attr_store.

(** The globals. *)
Record state : Type := mk_state {
  mem : world kobj_type;
  btrfs_kset : ptr;
  btrfs_devices : ptr;
  btrfs_health : ptr;
  btrfs_info : ptr
}.

Definition with_mem (w : world kobj_type) (st : state) : state :=
  mk_state w (btrfs_kset st) (btrfs_devices st) (btrfs_health st) (btrfs_info st).

Definition boot (plan : list bool) : state :=
  mk_state (mk_world [] plan) None None None None.

(** The end of a call of [btrfs_kobject_create] that returns the node:
    the parameter [ktype] goes out of scope while the kobject keeps its
    address. *)
Definition ktype_out_of_scope (a : nat) (w : world kobj_type) : world kobj_type :=
  match objs w !! a with
  | Some o =>
      let k := kobj o in
      store a (with_kobj (mk_kobject (name k) (parent k) (kset k) (Some dead_ktype)
                                     (kref k) (state_initialized k) (state_in_sysfs k))
                         o) w
  | None => w
  end.

(** The node type is passed by value and registered through [&ktype],
    the address of that parameter.  On the failure path the put runs
    while the parameter is alive and reaches the release callback of the
    copy; a node that is returned is left with the address of the dead
    parameter.  [btrfs_parent] is looked at, but the registration is
    made with a NULL parent. *)
Definition btrfs_kobject_create (nm : string) (kt : kobj_type) (btrfs_parent : ptr)
    (st : state) : fault + (ptr * state) :=
  let (p, w1) := kzalloc (mem st) in
  match p with
  | None => inr (None, with_mem w1 st)
  | Some btrfs_kobj =>
      match deref w1 btrfs_kobj with
      | Some o =>
          let w2 := match btrfs_parent with
                    | Some _ => w1
                    | None => store btrfs_kobj
                                (with_kobj (with_kset (btrfs_kset st) (kobj o)) o) w1
                    end in
          match kobject_init_and_add btrfs_kobj kt None nm w2 with
          | Some (ret, w3) =>
              if negb (ret =? 0) then
                match kobject_put release PUT_FUEL (Some btrfs_kobj) w3 with
                | Some w4 => inr (None, with_mem w4 st)
                | None => inl InvalidPointer
                end
              else inr (Some btrfs_kobj, with_mem (ktype_out_of_scope btrfs_kobj w3) st)
          | None => inl InvalidPointer
          end
      | None => inl InvalidPointer
      end
  end.

(** [kobject_put(&btrfs_kobj->kobj);]  The kobject is the first member,
    so a NULL node gives a NULL kobject. *)
Definition btrfs_kobject_destroy (btrfs_kobj : ptr) : list stmt :=
  [KobjectPut btrfs_kobj].

Definition destroy (btrfs_kobj : ptr) (st : state) : fault + state :=
  match alone (run release (btrfs_kobject_destroy btrfs_kobj) (mem st)) with
  | inr w => inr (with_mem w st)
  | inl f => inl f
  end.

Definition btrfs_static_init_sysfs (st : state) : fault + (Z * state) :=
  match btrfs_kobject_create "devices" btrfs_ktype_device_dir None st with
  | inl f => inl f
  | inr (d, st1) =>
      let st1 := mk_state (mem st1) (btrfs_kset st1) d (btrfs_health st1) (btrfs_info st1) in
      if is_null d then (* btrfs_devices_error *) inr (- EINVAL, st1)
      else
        match btrfs_kobject_create "health" btrfs_ktype_health None st1 with
        | inl f => inl f
        | inr (h, st2) =>
            let st2 := mk_state (mem st2) (btrfs_kset st2) (btrfs_devices st2) h
                                (btrfs_info st2) in
            if is_null h then
              (* btrfs_health_error *)
              match destroy (btrfs_health st2) st2 with
              | inr st3 => inr (- EINVAL, st3)
              | inl f => inl f
              end
            else
              match btrfs_kobject_create "info" btrfs_ktype_info None st2 with
              | inl f => inl f
              | inr (i, st3) =>
                  let st3 := mk_state (mem st3) (btrfs_kset st3) (btrfs_devices st3)
                                      (btrfs_health st3) i in
                  if is_null i then
                    (* btrfs_info_error, falling through to btrfs_health_error *)
                    match destroy (btrfs_info st3) st3 with
                    | inr st4 =>
                        match destroy (btrfs_health st4) st4 with
                        | inr st5 => inr (- EINVAL, st5)
                        | inl f => inl f
                        end
                    | inl f => inl f
                    end
                  else inr (0, st3)
              end
        end
  end.

Definition btrfs_init_sysfs (st : state) : fault + (Z * state) :=
  let (p, w1) := kset_create_and_add "btrfs" (mem st) in
  let st1 := mk_state w1 p (btrfs_devices st) (btrfs_health st) (btrfs_info st) in
  if is_null p then inr (- ENOMEM, st1)
  else btrfs_static_init_sysfs st1.

Definition btrfs_create_device (super_kobj : nat) (label : string) (st : state)
  : fault + (Z * state) :=
  match deref (mem st) super_kobj with
  | Some o =>
      if state_initialized (kobj o) then
        match kobject_get (Some super_kobj) (mem st) with
        | Some w1 => inr (0, with_mem w1 st)
        | None => inl InvalidPointer
        end
      else
        match kobject_init_and_add super_kobj btrfs_ktype_device
                                   (btrfs_devices st) label (mem st) with
        | Some (ret, w1) =>
            if negb (ret =? 0) then
              match kobject_put release PUT_FUEL (Some super_kobj) w1 with
              | Some w2 => inr (- EINVAL, with_mem w2 st)
              | None => inl InvalidPointer
              end
            else inr (0, with_mem w1 st)
        | None => inl InvalidPointer
        end
  | None => inl InvalidPointer
  end.

(** [kobject_put(super_kobj);] *)
Definition btrfs_kill_device (super_kobj : nat) : list stmt :=
  [KobjectPut (Some super_kobj)].

Definition btrfs_exit_sysfs (st : state) : fault + state :=
  match destroy (btrfs_devices st) st with
  | inr st1 =>
      match destroy (btrfs_health st1) st1 with
      | inr st2 =>
          match destroy (btrfs_info st2) st2 with
          | inr st3 =>
              match kset_unregister (btrfs_kset st3) (mem st3) with
              | Some w => inr (with_mem w st3)
              | None => inl InvalidPointer
              end
          | inl f => inl f
          end
      | inl f => inl f
      end
  | inl f => inl f
  end.

End V2.

(** * Statements of the properties under study *)

(** A path component: a string free of separators. *)
Fixpoint no_separator (s : string) : bool :=
  match s with
  | EmptyString => true
  | String c rest => negb (Ascii.eqb c slash) && no_separator rest
  end.

(** A device path: a bare name, or a directory prefix, a separator and a
    name. *)
Definition device_path (dir : option string) (base : string) : string :=
  match dir with
  | Some d => (d ++ String slash base)%string
  | None => base
  end.

(** A device name of 64 bytes, one more than the first design's buffer
    holds with its terminating NUL. *)
Definition long_device_name : string :=
  "ata-ST3000DM001-9YN166_Z1F0XXXX-part1-of-the-btrfs-volume-no-one".

(** Reading a counter attribute as the unsigned value of the field: the
    text is the decimal notation of [u] followed by one newline, and the
    count returned is its length. *)
Definition reads_as (res : access) (u : Z) : Prop :=
  exists body : string,
    res = Returned (Z.of_nat (String.length body) + 1)
                   (body ++ String newline EmptyString)%string
    /\ decimal_value body = Some u.

Definition is_blocked {W : Type} (o : outcome W) : bool :=
  match o with
  | Blocked _ _ => true
  | _ => false
  end.

(** The reading of "kill-device returns without waiting and destroy is
    the operation that blocks", for one design: running kill-device
    alone never leaves the caller asleep, and there is a store in which
    running destroy on a node does. *)
Definition only_destroy_blocks {T : Type} (release : T -> release_fn T)
    (kill destroy : nat -> list stmt) : Prop :=
  (forall w a, is_blocked (run release (kill a) w) = false)
  /\ (exists w a, is_blocked (run release (destroy a) w) = true).

(** The callers of a teardown: the destroying caller first, then [n]
    readers in flight, each of which still has to give back the
    reference the namespace host took for it. *)
Definition teardown (destroy : list stmt) (node : nat) (n : nat) : list (list stmt) :=
  destroy :: replicate n [KobjectPut (Some node)].

(** The host takes one reference for each of [n] readers that enter. *)
Fixpoint enter_readers {T : Type} (n : nat) (node : nat) (w : world T)
  : option (world T) :=
  match n with
  | O => Some w
  | S n' =>
      match kobject_get (Some node) w with
      | Some w1 => enter_readers n' node w1
      | None => None
      end
  end.

(** The ordering asked of a teardown, at one point of an execution: the
    release callback has run at most once; if it has run, no reader is
    in flight; and if the destroying caller is back, it has run. *)
Definition teardown_ordered {T : Type} (node : nat) (s : system T) : Prop :=
  match objs (shared s) !! node with
  | Some o =>
      (releases o <= 1)%nat
      /\ (releases o = 1%nat -> in_flight (tail (threads s)) = 0%nat)
      /\ (returned 0 s = true -> releases o = 1%nat)
  | None => False
  end.

(** What is left of it in the second design, as long as a reference is
    held: the node is live, its release callback has not run, and its
    count is the number of callers, the destroying one included, that
    have not returned. *)
Definition held_by_callers {T : Type} (node : nat) (s : system T) : Prop :=
  match objs (shared s) !! node with
  | Some o =>
      freed o = false
      /\ releases o = 0%nat
      /\ kref (kobj o) = Z.of_nat (in_flight (threads s))
      /\ (0 < in_flight (threads s))%nat
  | None => False
  end.

(** Readers: each has given its reference back or still has to. *)
Definition reader_of (a : nat) (r : list stmt) : Prop :=
  r = [] \/ r = [KobjectPut (Some a)].

(** What holds all along a teardown in the first design, for a node of
    type [t] at [a]: the count is the number of readers in flight, plus
    one as long as the destroying caller has not put its reference; the
    completion is signalled when the count reaches zero and consumed by
    the destroying caller. *)
Definition v1_invariant (a : nat) (t : V1.kobj_type) (s : system V1.kobj_type)
  : Prop :=
  exists o d rs,
    threads s = d :: rs
    /\ deref (shared s) a = Some o
    /\ ktype (kobj o) = Some t
    /\ Forall (reader_of a) rs
    /\ Z.of_nat (in_flight rs) < INT_MAX
    /\ ((d = V1.btrfs_kobject_destroy a
         /\ kref (kobj o) = Z.of_nat (in_flight rs) + 1
         /\ releases o = 0%nat /\ unregister o = 0%nat)
        \/ (d = [WaitForCompletion a]
            /\ kref (kobj o) = Z.of_nat (in_flight rs)
            /\ ((in_flight rs <> 0%nat /\ releases o = 0%nat /\ unregister o = 0%nat)
                \/ (in_flight rs = 0%nat /\ releases o = 1%nat /\ unregister o = 1%nat)))
        \/ (d = [] /\ in_flight rs = 0%nat
            /\ releases o = 1%nat /\ unregister o = 0%nat)).

(** The same for a node that [btrfs_kobject_create] returned, in the
    second design: every caller, the destroying one included, is one
    [kobject_put] away from its return, and the count is the number of
    callers that have not returned, which is not zero. *)
Definition v2_invariant (a : nat) (s : system V2.kobj_type) : Prop :=
  exists o,
    deref (shared s) a = Some o
    /\ ktype (kobj o) = Some V2.dead_ktype
    /\ releases o = 0%nat
    /\ Forall (reader_of a) (threads s)
    /\ kref (kobj o) = Z.of_nat (in_flight (threads s))
    /\ (0 < in_flight (threads s))%nat
    /\ Z.of_nat (in_flight (threads s)) <= INT_MAX.

(** A node that is live, holds one reference and is registered under the
    name [nm] below [par]. *)
Definition registered_as {T : Type} (nm : string) (par : ptr) (o : object T) : Prop :=
  freed o = false /\ kref (kobj o) = 1 /\ name (kobj o) = Some nm
  /\ state_in_sysfs (kobj o) = true /\ parent (kobj o) = par.

(** States used as examples: the second design after its init, with one
    device record of the storage engine at address 0, before and after
    the device was attached as sda1. *)
Definition engine_boot : V2.state :=
  V2.mk_state (mk_world [zero_object] []) None None None None.

Definition state_of (r : fault + (Z * V2.state)) : V2.state :=
  match r with
  | inr (_, st) => st
  | inl _ => engine_boot
  end.

Definition after_init : V2.state :=
  Eval vm_compute in state_of (V2.btrfs_init_sysfs engine_boot).

Definition attached : V2.state :=
  Eval vm_compute in state_of (V2.btrfs_create_device 0 "sda1" after_init).

(** The first design after its init: the static devices node is at
    address 0. *)
Definition v1_after_init : V1.state :=
  Eval vm_compute in
    match V1.btrfs_init_sysfs (V1.boot []) with
    | inr (_, st) => st
    | inl _ => V1.boot []
    end.

(** The second design's init when the allocation of the health node
    fails. *)
Definition init_without_health : V2.state :=
  Eval vm_compute in
    state_of (V2.btrfs_static_init_sysfs (V2.boot [false; false; true])).

(** The first design with a device record of the storage engine at
    address 1, attached as /dev/sda1, and a second reference taken on it
    (a reader in flight). *)
Definition v1_attached : world V1.kobj_type :=
  Eval vm_compute in
    match V1.btrfs_init_sysfs (V1.mk_state (mk_world [zero_object; zero_object] []) None) with
    | inr (_, st) =>
        match V1.btrfs_create_device 1 "/dev/sda1" st with
        | inr (_, st1) => default (V1.mem st1) (enter_readers 1 1 (V1.mem st1))
        | inl _ => V1.mem st
        end
    | inl _ => mk_world [] []
    end.

(** The second design after its init, with one reader in flight on the
    devices node (address 2), and the same after the destroying caller
    ran. *)
Definition one_reader : world V2.kobj_type :=
  Eval vm_compute in
    default (V2.mem after_init) (enter_readers 1 2 (V2.mem after_init)).

Definition destroyed_early : system V2.kobj_type :=
  Eval vm_compute in
    default (mk_system one_reader [])
      (run_schedule V2.release [0%nat]
         (mk_system one_reader (teardown (V2.btrfs_kobject_destroy (Some 2%nat)) 2 1))).

(** The first design after its init, with a device record of the storage
    engine at address 1 that is not attached yet. *)
Definition v1_ready : V1.state :=
  Eval vm_compute in
    match V1.btrfs_init_sysfs (V1.mk_state (mk_world [zero_object; zero_object] []) None) with
    | inr (_, st) => st
    | inl _ => V1.boot []
    end.

(** The same once the device was attached as /dev/sda1. *)
Definition v1_after_create (st : V1.state) : V1.state :=
  match V1.btrfs_create_device 1 "/dev/sda1" st with
  | inr (_, st') => st'
  | inl _ => st
  end.

(** * Proofs *)

(** ** Decimal notation *)

Example format_d_samples :
  format_d 0 = "0" /\ format_d 1 = "1" /\ format_d 2147483647 = "2147483647"
  /\ format_d (-2147483648) = "-2147483648" /\ format_d 1000 = "1000".
Proof. repeat split; vm_compute; reflexivity. Qed.

Example decimal_value_samples :
  decimal_value "120" = Some 120 /\ decimal_value "-7" = Some (-7)
  /\ decimal_value "007" = None /\ decimal_value "-0" = None
  /\ decimal_value "" = None /\ decimal_value "1a" = None.
Proof. repeat split; vm_compute; reflexivity. Qed.

Lemma digit_cases (d : Z) :
  0 <= d <= 9 ->
  d = 0 \/ d = 1 \/ d = 2 \/ d = 3 \/ d = 4 \/ d = 5 \/ d = 6 \/ d = 7 \/ d = 8 \/ d = 9.
Proof. lia. Qed.

Ltac each_digit H :=
  destruct (digit_cases _ H) as [->|[->|[->|[->|[->|[->|[->|[->|[->| ->]]]]]]]]].

Lemma digit_value_char (d : Z) : 0 <= d <= 9 -> digit_value (digit_char d) = Some d.
Proof. intros H. each_digit H; reflexivity. Qed.

Lemma digit_char_not_minus (d : Z) :
  0 <= d <= 9 -> Ascii.eqb (digit_char d) "-"%char = false.
Proof. intros H. each_digit H; reflexivity. Qed.

Lemma digit_char_zero (d : Z) :
  1 <= d <= 9 -> Ascii.eqb (digit_char d) "0"%char = false.
Proof.
  intros H. assert (H' : 0 <= d <= 9) by lia.
  each_digit H'; try reflexivity; lia.
Qed.

Lemma append_cons (c : ascii) (s t : string) :
  (String c s ++ t)%string = String c (s ++ t)%string.
Proof. reflexivity. Qed.

Lemma append_nil (t : string) : (EmptyString ++ t)%string = t.
Proof. reflexivity. Qed.

Lemma append_assoc (s t u : string) :
  ((s ++ t) ++ u)%string = (s ++ (t ++ u))%string.
Proof.
  induction s as [|c s IH]; [reflexivity|].
  rewrite !append_cons, IH. reflexivity.
Qed.

Lemma length_append (s t : string) :
  String.length (s ++ t)%string = (String.length s + String.length t)%nat.
Proof.
  induction s as [|c s IH]; [reflexivity|].
  rewrite append_cons. simpl. rewrite IH. reflexivity.
Qed.

Lemma digits_value_app (s t : string) (acc : Z) :
  digits_value (s ++ t)%string acc
  = match digits_value s acc with
    | Some v => digits_value t v
    | None => None
    end.
Proof.
  revert acc. induction s as [|c s IH]; intros acc; [reflexivity|].
  rewrite append_cons. simpl. destruct (digit_value c); [apply IH | reflexivity].
Qed.

Lemma put_dec_acc (fuel : nat) (n : Z) (acc : string) :
  put_dec fuel n acc = (put_dec fuel n EmptyString ++ acc)%string.
Proof.
  revert n acc. induction fuel as [|fuel IH]; intros n acc; simpl; [reflexivity|].
  destruct (n <? 10); [reflexivity|].
  rewrite (IH _ (String _ acc)), (IH _ (String _ EmptyString)).
  rewrite append_assoc, append_cons, append_nil. reflexivity.
Qed.

(** Enough fuel: one unit per binary digit. *)
Lemma put_dec_value (fuel : nat) (n : Z) :
  0 <= n < 2 ^ Z.of_nat fuel -> fuel <> O ->
  digits_value (put_dec fuel n EmptyString) 0 = Some n.
Proof.
  revert n. induction fuel as [|fuel IH]; intros n Hn Hf; [congruence|].
  simpl put_dec. destruct (Z.ltb_spec n 10) as [Hlt|Hge].
  - cbn [digits_value]. rewrite digit_value_char by lia. f_equal; lia.
  - rewrite put_dec_acc, digits_value_app.
    assert (Hpow : 2 ^ Z.of_nat (S fuel) = 2 * 2 ^ Z.of_nat fuel).
    { rewrite Nat2Z.inj_succ, Z.pow_succ_r by lia. reflexivity. }
    assert (Hq : 1 <= n / 10) by (apply Z.div_le_lower_bound; lia).
    assert (Hq2 : n / 10 < 2 ^ Z.of_nat fuel).
    { apply Z.div_lt_upper_bound; lia. }
    rewrite IH.
    + cbn [digits_value]. rewrite digit_value_char by (pose proof (Z.mod_pos_bound n 10); lia).
      f_equal; pose proof (Z.div_mod n 10); lia.
    + lia.
    + intros ->. simpl in Hq2. lia.
Qed.

Lemma put_dec_head (fuel : nat) (n : Z) (acc : string) :
  1 <= n < 2 ^ Z.of_nat fuel ->
  exists d rest, 1 <= d <= 9 /\ put_dec fuel n acc = String (digit_char d) rest.
Proof.
  revert n acc. induction fuel as [|fuel IH]; intros n acc Hn.
  - simpl in Hn. lia.
  - simpl put_dec. destruct (Z.ltb_spec n 10) as [Hlt|Hge].
    + exists n, acc. split; [lia | reflexivity].
    + apply IH.
      assert (Hpow : 2 ^ Z.of_nat (S fuel) = 2 * 2 ^ Z.of_nat fuel).
      { rewrite Nat2Z.inj_succ, Z.pow_succ_r by lia. reflexivity. }
      split; [apply Z.div_le_lower_bound; lia | apply Z.div_lt_upper_bound; lia].
Qed.

Lemma number_fuel (n : Z) : 0 <= n -> n < 2 ^ Z.of_nat (S (Z.to_nat (Z.log2 n))).
Proof.
  intros Hn. rewrite Nat2Z.inj_succ, Z2Nat.id by apply Z.log2_nonneg.
  destruct (Z.eq_dec n 0) as [->|Hne]; [reflexivity|].
  apply Z.log2_spec. lia.
Qed.

Lemma natural_value_number (n : Z) : 0 <= n -> natural_value (number n) = Some n.
Proof.
  intros Hn. destruct (Z.eq_dec n 0) as [->|Hne]; [reflexivity|].
  unfold number.
  destruct (put_dec_head (S (Z.to_nat (Z.log2 n))) n EmptyString) as (d & rest & Hd & E).
  { split; [lia | apply number_fuel; lia]. }
  unfold natural_value. rewrite E, digit_char_zero by lia. rewrite <- E.
  apply put_dec_value; [split; [lia | apply number_fuel; lia] | congruence].
Qed.

(** What [%d] prints reads back as the number printed. *)
Lemma decimal_value_format_d (v : Z) : decimal_value (format_d v) = Some v.
Proof.
  unfold format_d. destruct (Z.ltb_spec v 0) as [Hneg|Hpos].
  - simpl. rewrite natural_value_number by lia.
    destruct (Z.eqb_spec (- v) 0); [lia|]. f_equal. lia.
  - destruct (Z.eq_dec v 0) as [->|Hne]; [reflexivity|].
    pose proof (natural_value_number v Hpos) as Hnat.
    unfold number in *.
    destruct (put_dec_head (S (Z.to_nat (Z.log2 v))) v EmptyString) as (d & rest & Hd & E).
    { split; [lia | apply number_fuel; lia]. }
    rewrite E in *. unfold decimal_value.
    rewrite digit_char_not_minus by lia. exact Hnat.
Qed.

Lemma sprintf_d_nl_reads_as (v : Z) :
  reads_as (let (n, text) := sprintf_d_nl v in Returned n text) v.
Proof.
  exists (format_d v). split; [|apply decimal_value_format_d].
  unfold sprintf_d_nl. f_equal.
  rewrite length_append. simpl. lia.
Qed.

(** ** Reading a counter through its offset *)

Lemma byte_val_range (b : byte) : 0 <= byte_val b < 256.
Proof.
  unfold byte_val. pose proof (Byte.to_N_bounded b) as H.
  split; [apply N2Z.is_nonneg|]. apply N2Z.inj_le in H. simpl in H. lia.
Qed.

Lemma load_uint_range (m : list byte) (off : nat) (u : Z) :
  load_uint m off = Some u -> 0 <= u <= UINT_MAX.
Proof.
  unfold load_uint, UINT_MAX.
  destruct (m !! off) as [b0|]; [|discriminate].
  destruct (m !! (off + 1)%nat) as [b1|]; [|discriminate].
  destruct (m !! (off + 2)%nat) as [b2|]; [|discriminate].
  destruct (m !! (off + 3)%nat) as [b3|]; [|discriminate].
  intros [= <-].
  pose proof (byte_val_range b0). pose proof (byte_val_range b1).
  pose proof (byte_val_range b2). pose proof (byte_val_range b3). lia.
Qed.

Lemma int_wrap_small (z : Z) : INT_MIN <= z <= INT_MAX -> int_wrap z = z.
Proof.
  unfold int_wrap, INT_MIN, INT_MAX. intros H.
  rewrite Z.mod_small by lia. lia.
Qed.

Lemma int_wrap_high (z : Z) : INT_MAX < z <= UINT_MAX -> int_wrap z = z - 4294967296.
Proof.
  unfold int_wrap, INT_MAX, UINT_MAX. intros H.
  replace (z + 2147483648) with ((z - 2147483648) + 1 * 4294967296) by lia.
  rewrite Z.mod_add by lia. rewrite Z.mod_small by lia. lia.
Qed.

Lemma btrfs_device_show_reads (device : V1.btrfs_device) (off : nat) (u : Z) :
  load_uint device off = Some u ->
  reads_as (V1.btrfs_device_show device off) (int_wrap u).
Proof.
  intros H. unfold V1.btrfs_device_show, load_int. rewrite H. simpl.
  apply sprintf_d_nl_reads_as.
Qed.

Lemma counter_attr_show (offsetof : V1.counter -> nat) (a : V1.btrfs_device_attr) :
  In a (V1.btrfs_device_default_attrs offsetof) ->
  V1.dev_show a = Some V1.btrfs_device_show.
Proof.
  unfold V1.btrfs_device_default_attrs. simpl.
  intros [<-|[<-|[<-|[<-|[<-|[]]]]]]; reflexivity.
Qed.

(** C2, as amended: reading an offset-based counter attribute returns the
    decimal notation of the four bytes found at the attribute's offset in
    the device, read as a signed [int] and printed with [%d], followed by
    one newline, the count returned being the length of that text.  For
    a field whose unsigned value is at most [INT_MAX] this is the decimal
    notation of the unsigned value; above it, 2^32 less. *)
Theorem offset_counter_read_signed (offsetof : V1.counter -> nat)
    (device : V1.btrfs_device) (a : V1.btrfs_device_attr) (u : Z) :
  In a (V1.btrfs_device_default_attrs offsetof) ->
  load_uint device (V1.offset a) = Some u ->
  reads_as (V1.btrfs_device_attr_show device a) (int_wrap u)
  /\ (u <= INT_MAX -> reads_as (V1.btrfs_device_attr_show device a) u)
  /\ (INT_MAX < u -> int_wrap u = u - 4294967296).
Proof.
  intros Hin Hu.
  pose proof (load_uint_range _ _ _ Hu) as Hr.
  assert (Hshow : reads_as (V1.btrfs_device_attr_show device a) (int_wrap u)).
  { unfold V1.btrfs_device_attr_show.
    rewrite (counter_attr_show offsetof a Hin). simpl.
    apply btrfs_device_show_reads, Hu. }
  split; [exact Hshow|]. split.
  - intros Hle. rewrite <- (int_wrap_small u); [exact Hshow|].
    unfold INT_MIN. lia.
  - intros Hgt. apply int_wrap_high. lia.
Qed.

Lemma offset_counter_read_signed_witness :
  reads_as (V1.btrfs_device_attr_show [x00; x2a; x00; x00; x00]%byte
              (V1.btrfs_dev_attr_cnt_read_io_errs (fun _ => 1%nat))) 42.
Proof.
  refine (proj1 (proj2 (offset_counter_read_signed (fun _ => 1%nat)
            [x00; x2a; x00; x00; x00]%byte
            (V1.btrfs_dev_attr_cnt_read_io_errs (fun _ => 1%nat)) 42 _ _)) _).
  - simpl. right. left. reflexivity.
  - reflexivity.
  - unfold INT_MAX. lia.
Defined.

(** C2, as stated, fails: a field holding the largest unsigned value is
    read as "-1", not as "4294967295". *)
Lemma offset_counter_unsigned_max_refuted :
  load_uint [xff; xff; xff; xff]%byte
            (V1.offset (V1.btrfs_dev_attr_cnt_write_io_errs (fun _ => 0%nat)))
  = Some UINT_MAX
  /\ V1.btrfs_device_attr_show [xff; xff; xff; xff]%byte
       (V1.btrfs_dev_attr_cnt_write_io_errs (fun _ => 0%nat))
     = Returned 3 (String "-" (String "1" (String newline EmptyString)))
  /\ ~ reads_as (V1.btrfs_device_attr_show [xff; xff; xff; xff]%byte
                   (V1.btrfs_dev_attr_cnt_write_io_errs (fun _ => 0%nat))) UINT_MAX.
Proof.
  split; [reflexivity|]. split; [reflexivity|].
  intros (body & Hres & Hval).
  change (V1.btrfs_device_attr_show _ _)
    with (Returned 3 (String "-" (String "1" (String newline EmptyString)))) in Hres.
  injection Hres as Hlen Hbody.
  destruct body as [|c1 [|c2 [|c3 body]]]; simpl in Hlen; try lia.
  rewrite !append_cons, append_nil in Hbody. injection Hbody as <- <-.
  vm_compute in Hval. discriminate.
Qed.

(** ** Device names *)

Lemma strpbrk_no_separator (s : string) :
  no_separator s = true -> strpbrk s slash = None.
Proof.
  induction s as [|c s IH]; simpl; [reflexivity|].
  destruct (Ascii.eqb c slash); simpl; [discriminate|].
  intros H. rewrite IH by exact H. reflexivity.
Qed.

Lemma strpbrk_shorter (s tok rest : string) :
  strpbrk s slash = Some (tok, rest) -> (String.length rest < String.length s)%nat.
Proof.
  revert tok. induction s as [|c s IH]; intros tok; simpl; [discriminate|].
  destruct (Ascii.eqb c slash).
  - intros [= _ <-]. lia.
  - destruct (strpbrk s slash) as [[tok' rest']|] eqn:E; [|discriminate].
    intros [= _ <-]. specialize (IH tok' eq_refl). lia.
Qed.

Lemma strpbrk_path (d base : string) :
  exists tok rest,
    strpbrk (d ++ String slash base)%string slash = Some (tok, rest)
    /\ (rest = base
        \/ exists d', rest = (d' ++ String slash base)%string
                      /\ (String.length d' < String.length d)%nat).
Proof.
  induction d as [|c d IH].
  - exists EmptyString, base. rewrite append_nil. simpl. split; [reflexivity | left; reflexivity].
  - rewrite append_cons. simpl. destruct (Ascii.eqb c slash).
    + exists EmptyString, (d ++ String slash base)%string. split; [reflexivity|].
      right. exists d. split; [reflexivity | simpl; lia].
    + destruct IH as (tok & rest & -> & Hrest).
      exists (String c tok), rest. split; [reflexivity|].
      destruct Hrest as [->|(d' & -> & Hlt)]; [left; reflexivity|].
      right. exists d'. split; [reflexivity | simpl; lia].
Qed.

Lemma last_token_base (fuel : nat) (base : string) (prev : option string) :
  no_separator base = true -> (2 <= fuel)%nat ->
  V1.last_token fuel (Some base) prev = Some (Some base).
Proof.
  intros Hb Hf. destruct fuel as [|[|fuel]]; try lia.
  simpl. rewrite strpbrk_no_separator by exact Hb. reflexivity.
Qed.

Lemma last_token_path (fuel : nat) (d base : string) (prev : option string) :
  no_separator base = true -> (String.length d + 3 <= fuel)%nat ->
  V1.last_token fuel (Some (d ++ String slash base)%string) prev = Some (Some base).
Proof.
  revert d prev. induction fuel as [|fuel IH]; intros d prev Hb Hf; [lia|].
  destruct (strpbrk_path d base) as (tok & rest & E & Hrest).
  cbn [V1.last_token strsep]. rewrite E.
  destruct Hrest as [->|(d' & -> & Hlt)].
  - apply last_token_base; [exact Hb | lia].
  - apply IH; [exact Hb | lia].
Qed.

(** The loop always ends within the fuel it is given. *)
Lemma last_token_total (fuel : nat) (s : string) (prev : option string) :
  (String.length s + 2 <= fuel)%nat ->
  exists t, V1.last_token fuel (Some s) prev = Some (Some t).
Proof.
  revert s prev. induction fuel as [|fuel IH]; intros s prev Hf; [lia|].
  cbn [V1.last_token strsep].
  destruct (strpbrk s slash) as [[tok rest]|] eqn:E.
  - apply IH. apply strpbrk_shorter in E. lia.
  - destruct fuel as [|fuel]; [lia|]. exists s. reflexivity.
Qed.

(** ** The object store *)

Section Store.

Context {T : Type}.
Implicit Types (w : world T) (o : object T).

Lemma deref_Some w a o :
  deref w a = Some o <-> objs w !! a = Some o /\ freed o = false.
Proof.
  unfold deref. destruct (objs w !! a) as [o'|]; [|split; [discriminate | intros [[=] _]]].
  destruct (freed o') eqn:E; split.
  - discriminate.
  - intros [[= ->] H]. congruence.
  - intros [= ->]. auto.
  - intros [[= ->] _]. reflexivity.
Qed.

Lemma lookup_store_eq w a o o0 :
  objs w !! a = Some o0 -> objs (store a o w) !! a = Some o.
Proof.
  intros H. unfold store. simpl.
  apply list_lookup_insert_eq. eapply lookup_lt_Some, H.
Qed.

Lemma lookup_store_ne w a b o :
  a <> b -> objs (store a o w) !! b = objs w !! b.
Proof. intros H. unfold store. simpl. apply list_lookup_insert_ne, H. Qed.

Lemma deref_store_eq w a o o0 :
  objs w !! a = Some o0 -> freed o = false -> deref (store a o w) a = Some o.
Proof.
  intros H Hf. apply deref_Some. split; [eapply lookup_store_eq, H | exact Hf].
Qed.

Lemma deref_store_ne w a b o : a <> b -> deref (store a o w) b = deref w b.
Proof. intros H. unfold deref. rewrite lookup_store_ne by exact H. reflexivity. Qed.

Lemma store_store w a o1 o2 : store a o2 (store a o1 w) = store a o2 w.
Proof. unfold store. simpl. rewrite list_insert_insert_eq. reflexivity. Qed.

Lemma alloc_attempt_objs w : objs (snd (alloc_attempt w)) = objs w.
Proof. unfold alloc_attempt. destruct (oom w); reflexivity. Qed.

(** A registration that succeeds leaves the node in the namespace under
    the name it was given. *)
Lemma kobject_init_and_add_ok w w' a (kt : T) par nm :
  kobject_init_and_add a kt par nm w = Some (0, w') ->
  exists o, deref w' a = Some o
            /\ name (kobj o) = Some nm
            /\ state_in_sysfs (kobj o) = true
            /\ state_initialized (kobj o) = true
            /\ ktype (kobj o) = Some kt
            /\ kref (kobj o) = 1
            /\ (forall p, par = Some p -> parent (kobj o) = Some p).
Proof.
  unfold kobject_init_and_add, kobject_init.
  destruct (deref w a) as [o0|] eqn:E0; [|discriminate].
  apply deref_Some in E0 as [Hl0 Hf0].
  set (o1 := with_kobj _ o0). set (w1 := store a o1 w).
  assert (E1 : deref w1 a = Some o1) by (eapply deref_store_eq; eauto).
  unfold kobject_add. rewrite E1.
  pose proof (alloc_attempt_objs w1) as Hobjs.
  destruct (alloc_attempt w1) as [ok w2]. simpl in Hobjs.
  destruct ok; simpl; [|intros [= H]; discriminate H].
  destruct (name_taken w2 _ nm); [intros [= H]; discriminate H|].
  intros [= <-]. eexists. split.
  - eapply deref_store_eq; [|exact Hf0]. rewrite Hobjs.
    eapply lookup_store_eq, Hl0.
  - simpl. repeat split; try reflexivity. intros p ->. reflexivity.
Qed.

End Store.

(** ** Names in the namespace *)

Lemma existsb_false_lookup {A : Type} (f : A -> bool) (l : list A) (i : nat) (x : A) :
  existsb f l = false -> l !! i = Some x -> f x = false.
Proof.
  revert i. induction l as [|y l IH]; intros i Hex Hl; [discriminate|].
  cbn [existsb] in Hex. apply orb_false_iff in Hex as [Hy Hrest].
  destruct i as [|i]; cbn in Hl.
  - injection Hl as <-. exact Hy.
  - eapply IH; eauto.
Qed.

Lemma existsb_insert_false {A : Type} (f : A -> bool) (l : list A) (i : nat) (x : A) :
  existsb f l = false -> f x = false -> existsb f (<[i := x]> l) = false.
Proof.
  revert i. induction l as [|y l IH]; intros i Hl Hx; [reflexivity|].
  cbn [existsb] in Hl. apply orb_false_iff in Hl as [Hy Hrest].
  destruct i as [|i]; cbn; [rewrite Hx | rewrite Hy, IH by assumption]; auto.
Qed.

Lemma name_taken_store {T : Type} (w : world T) (a : nat) (o : object T) (par : ptr)
    (nm : string) :
  name_taken w par nm = false -> entry_at par nm o = false ->
  name_taken (store a o w) par nm = false.
Proof. unfold name_taken, store. cbn [objs]. apply existsb_insert_false. Qed.

Lemma entry_at_detached {T : Type} (par : ptr) (nm : string) (o : object T) :
  state_in_sysfs (kobj o) = false -> entry_at par nm o = false.
Proof. intros H. unfold entry_at. rewrite H, andb_false_r. reflexivity. Qed.

Lemma entry_at_other_name {T : Type} (par : ptr) (nm nm' : string) (o : object T) :
  name (kobj o) = Some nm' -> nm' <> nm -> entry_at par nm o = false.
Proof.
  intros H Hne. unfold entry_at.
  rewrite (bool_decide_eq_false_2 (name (kobj o) = Some nm)) by congruence.
  apply andb_false_r.
Qed.

Lemma entry_at_other_parent {T : Type} (par : ptr) (nm : string) (o : object T) :
  parent (kobj o) <> par -> entry_at par nm o = false.
Proof.
  intros Hne. unfold entry_at.
  rewrite (bool_decide_eq_false_2 (parent (kobj o) = par)) by exact Hne.
  rewrite andb_false_r. reflexivity.
Qed.

Lemma name_taken_snoc {T : Type} (w w' : world T) (o : object T) (par : ptr)
    (nm : string) :
  objs w' = (objs w ++ [o])%list ->
  name_taken w par nm = false -> entry_at par nm o = false ->
  name_taken w' par nm = false.
Proof.
  intros Ho Hw He. unfold name_taken in *. rewrite Ho, existsb_app, Hw. cbn.
  rewrite He. reflexivity.
Qed.

(** A registration succeeds when no allocation fails and the name is
    free. *)
Lemma kobject_init_and_add_free {T : Type} (w : world T) (a : nat) (o : object T)
    (kt : T) (par : ptr) (nm : string) :
  deref w a = Some o -> oom w = [] ->
  name_taken w (match par with Some _ => par | None => kset (kobj o) end) nm = false ->
  exists w', kobject_init_and_add a kt par nm w = Some (0, w') /\ oom w' = [].
Proof.
  intros Hd Hoom Hfree. apply deref_Some in Hd as Hd'. destruct Hd' as [Hl Hf].
  unfold kobject_init_and_add, kobject_init. rewrite Hd.
  set (o1 := with_kobj _ o).
  assert (E1 : deref (store a o1 w) a = Some o1) by (eapply deref_store_eq; eauto).
  unfold kobject_add. rewrite E1.
  unfold alloc_attempt. cbn [store oom]. rewrite Hoom. cbn [negb]. fold (store a o1 w).
  assert (Hfree1 : name_taken (store a o1 w)
                     (match par with Some _ => par | None => kset (kobj o1) end) nm
                   = false).
  { apply (name_taken_store w a o1); [exact Hfree|].
    apply entry_at_detached. reflexivity. }
  rewrite Hfree1. eexists. split; [reflexivity|]. cbn [store oom]. exact Hoom.
Qed.




(** C10: the first design's create-device copies the path into its
    64-byte buffer before anything else and checks nothing: the call
    overruns the buffer exactly when the path with its terminating NUL is
    longer than 64 bytes, whatever the node and the state it is called
    with; within the bound the name derivation always yields a name. *)
Theorem create_device_copy_bound (device_kobj : nat) (dev_name : string)
    (st : V1.state) :
  (V1.btrfs_create_device device_kobj dev_name st = inl BufferOverrun
   <-> (64 < String.length dev_name + 1)%nat)
  /\ (V1.device_entry_name dev_name = inl BufferOverrun
      \/ exists nm, V1.device_entry_name dev_name = inr (Some nm)).
Proof.
  unfold V1.btrfs_create_device, V1.device_entry_name, strcpy.
  destruct (Nat.leb_spec (S (String.length dev_name)) 64) as [Hle|Hgt].
  - destruct (last_token_total (S (S (String.length dev_name))) dev_name None)
      as [t Ht]; [lia|].
    rewrite Ht. split; [|right; exists t; reflexivity].
    split; [|lia]. cbv beta iota.
    repeat match goal with
           | |- context [match ?x with _ => _ end] =>
               match x with
               | context [match _ with _ => _ end] => fail 1
               | _ => destruct x
               end
           | |- context [if ?x then _ else _] => destruct x
           end; discriminate.
  - split; [|left; reflexivity]. split; [lia | reflexivity].
Qed.

Example create_device_long_path :
  V1.btrfs_create_device 1 "/dev/disk/by-id/ata-ST3000DM001-9YN166_Z1F0XXXX-part1-of-btrfs-x"
                         (V1.boot [])
  = inl BufferOverrun.
Proof. reflexivity. Qed.

(** ** Dispatch *)

(** C3: a read dispatched against an attribute whose descriptor has no
    show accessor returns -EIO, whatever the permission bits say, and a
    write against one with no store accessor does the same, in both
    designs and for both kinds of descriptor; a dispatcher calls through
    a NULL pointer in no case (a [NullCall] can only be what an accessor
    itself returned); the placeholder attributes uuid, label, dummy and
    num_devices are readable by their permission bits and their read
    returns -EIO. *)
Theorem missing_accessor_gives_EIO :
  (forall kobj a, V1.kobj_show a = None ->
     V1.btrfs_kobject_attr_show kobj a = Returned (- EIO) "")
  /\ (forall kobj a buf len, V1.kobj_store a = None ->
        V1.btrfs_kobject_attr_store kobj a buf len = Returned (- EIO) "")
  /\ (forall kobj a, V1.dev_show a = None ->
        V1.btrfs_device_attr_show kobj a = Returned (- EIO) "")
  /\ (forall kobj a buf len, V1.dev_store a = None ->
        V1.btrfs_device_attr_store kobj a buf len = Returned (- EIO) "")
  /\ (forall kobj a, V2.kobj_show a = None ->
        V2.btrfs_kobject_attr_show kobj a = Returned (- EIO) "")
  /\ (forall kobj a buf len, V2.kobj_store a = None ->
        V2.btrfs_kobject_attr_store kobj a buf len = Returned (- EIO) "")
  /\ (forall kobj a, V2.dev_show a = None ->
        V2.btrfs_device_attr_show kobj a = Returned (- EIO) "")
  /\ (forall kobj a buf len, V2.dev_store a = None ->
        V2.btrfs_device_attr_store kobj a buf len = Returned (- EIO) "")
  /\ (forall kobj a, V1.btrfs_kobject_attr_show kobj a = NullCall ->
        exists f, V1.kobj_show a = Some f /\ f kobj = NullCall)
  /\ (forall kobj a buf len, V1.btrfs_device_attr_store kobj a buf len = NullCall ->
        exists f, V1.dev_store a = Some f /\ f kobj (V1.offset a) buf len = NullCall)
  /\ (forall kobj a, V2.btrfs_device_attr_show kobj a = NullCall ->
        exists f, V2.dev_show a = Some f /\ f kobj = NullCall)
  /\ (forall kobj a buf len, V2.btrfs_device_attr_store kobj a buf len = NullCall ->
        exists f, V2.dev_store a = Some f /\ f kobj buf len = NullCall)
  /\ (forall kobj a,
        In a [V2.btrfs_attr_uuid; V2.btrfs_attr_label] ->
        readable (V2.dev_attr a) = true
        /\ V2.btrfs_device_attr_show kobj a = Returned (- EIO) "")
  /\ (forall kobj a,
        In a [V2.btrfs_attr_dummy; V2.btrfs_attr_num_devices] ->
        readable (V2.kobj_attr a) = true
        /\ V2.btrfs_kobject_attr_show kobj a = Returned (- EIO) "")
  /\ (forall kobj a buf len,
        In a V2.btrfs_device_default_attrs ->
        V2.btrfs_device_attr_store kobj a buf len = Returned (- EIO) "").
Proof.
  repeat match goal with |- _ /\ _ => split end.
  - intros kobj a H. unfold V1.btrfs_kobject_attr_show. rewrite H. reflexivity.
  - intros kobj a buf len H. unfold V1.btrfs_kobject_attr_store. rewrite H. reflexivity.
  - intros kobj a H. unfold V1.btrfs_device_attr_show. rewrite H. reflexivity.
  - intros kobj a buf len H. unfold V1.btrfs_device_attr_store. rewrite H. reflexivity.
  - intros kobj a H. unfold V2.btrfs_kobject_attr_show. rewrite H. reflexivity.
  - intros kobj a buf len H. unfold V2.btrfs_kobject_attr_store. rewrite H. reflexivity.
  - intros kobj a H. unfold V2.btrfs_device_attr_show. rewrite H. reflexivity.
  - intros kobj a buf len H. unfold V2.btrfs_device_attr_store. rewrite H. reflexivity.
  - intros kobj a. unfold V1.btrfs_kobject_attr_show.
    destruct (V1.kobj_show a) as [f|]; simpl; [eauto | discriminate].
  - intros kobj a buf len. unfold V1.btrfs_device_attr_store.
    destruct (V1.dev_store a) as [f|]; simpl; [eauto | discriminate].
  - intros kobj a. unfold V2.btrfs_device_attr_show.
    destruct (V2.dev_show a) as [f|]; simpl; [eauto | discriminate].
  - intros kobj a buf len. unfold V2.btrfs_device_attr_store.
    destruct (V2.dev_store a) as [f|]; simpl; [eauto | discriminate].
  - intros kobj a [<-|[<-|[]]]; split; reflexivity.
  - intros kobj a [<-|[<-|[]]]; split; reflexivity.
  - intros kobj a buf len H. simpl in H.
    destruct H as [<-|[<-|[<-|[<-|[<-|[<-|[<-|[]]]]]]]]; reflexivity.
Qed.

Lemma missing_accessor_gives_EIO_witness :
  V2.btrfs_device_attr_show (V2.mk_btrfs_fs_info None) V2.btrfs_attr_uuid
  = Returned (- EIO) ""
  /\ V1.btrfs_device_attr_store [] (V1.btrfs_dev_attr_cnt_read_io_errs (fun _ => 0%nat))
       "7" 1
     = Returned (- EIO) "".
Proof.
  pose proof missing_accessor_gives_EIO as (_ & _ & _ & H4 & _ & _ & H7 & _).
  split.
  - apply H7. reflexivity.
  - apply H4. reflexivity.
Defined.

Lemma find_attr_absent {A : Type} (name_of : A -> string) (nm : string)
    (attrs : list A) :
  ~ In nm (map name_of attrs) -> find_attr name_of nm attrs = None.
Proof.
  induction attrs as [|a attrs IH]; simpl; [reflexivity|].
  intros H. destruct (String.eqb_spec (name_of a) nm) as [E|_].
  - exfalso. apply H. left. exact E.
  - apply IH. intros Hin. apply H. right. exact Hin.
Qed.

Lemma find_attr_exact {A : Type} (name_of : A -> string) (nm : string)
    (attrs : list A) (a : A) :
  find_attr name_of nm attrs = Some a -> name_of a = nm /\ In a attrs.
Proof.
  induction attrs as [|b attrs IH]; simpl; [discriminate|].
  destruct (String.eqb_spec (name_of b) nm) as [E|_].
  - intros [= <-]. split; [exact E | left; reflexivity].
  - intros H. destruct (IH H) as [Hn Hin]. split; [exact Hn | right; exact Hin].
Qed.

(** C5: for a name that is not in the attribute set, a read and a write
    fail with NotFound (-ENOENT), on device nodes and on directory nodes,
    whatever the accessors of the set are; the attribute a name resolves
    to carries exactly that name. *)
Theorem absent_name_not_found (nm : string)
    (dattrs : list V2.btrfs_device_attr) (kattrs : list V2.btrfs_kobject_attr)
    (dev : V2.btrfs_fs_info) (kobj : V2.btrfs_kobject) (buf : string) (len : Z) :
  ~ In nm (map (fun a => attr_name (V2.dev_attr a)) dattrs) ->
  ~ In nm (map (fun a => attr_name (V2.kobj_attr a)) kattrs) ->
  V2.device_read dattrs dev nm = Returned (- ENOENT) ""
  /\ V2.device_write dattrs dev nm buf len = Returned (- ENOENT) ""
  /\ V2.kobject_read kattrs kobj nm = Returned (- ENOENT) ""
  /\ V2.kobject_write kattrs kobj nm buf len = Returned (- ENOENT) ""
  /\ (forall nm' a, find_attr (fun a => attr_name (V2.dev_attr a)) nm' dattrs = Some a ->
        attr_name (V2.dev_attr a) = nm')
  /\ (forall nm' a, find_attr (fun a => attr_name (V2.kobj_attr a)) nm' kattrs = Some a ->
        attr_name (V2.kobj_attr a) = nm').
Proof.
  intros Hd Hk.
  unfold V2.device_read, V2.device_write, V2.kobject_read, V2.kobject_write,
    read_attr, write_attr.
  rewrite (find_attr_absent _ _ _ Hd), (find_attr_absent _ _ _ Hk).
  repeat split; intros nm' a H; apply (find_attr_exact _ _ _ _ H).
Qed.

Lemma absent_name_not_found_witness :
  V2.device_read V2.btrfs_device_default_attrs (V2.mk_btrfs_fs_info None) "cnt_write"
  = Returned (- ENOENT) ""
  /\ V2.kobject_write V2.btrfs_health_default_attrs zero_object "dumm" "1" 1
     = Returned (- ENOENT) "".
Proof.
  assert (Hd : ~ In "cnt_write"
                 (map (fun a => attr_name (V2.dev_attr a)) V2.btrfs_device_default_attrs)).
  { simpl. intros H. repeat (destruct H as [H|H]; [discriminate H|]). exact H. }
  assert (Hk : ~ In "dumm"
                 (map (fun a => attr_name (V2.kobj_attr a)) V2.btrfs_health_default_attrs)).
  { simpl. intros H. repeat (destruct H as [H|H]; [discriminate H|]). exact H. }
  pose proof (absent_name_not_found "cnt_write" V2.btrfs_device_default_attrs []
                (V2.mk_btrfs_fs_info None) zero_object "" 0 Hd (fun H => H)) as H1.
  pose proof (absent_name_not_found "dumm" [] V2.btrfs_health_default_attrs
                (V2.mk_btrfs_fs_info None) zero_object "1" 1 (fun H => H) Hk) as H2.
  split; [apply H1 | apply H2].
Defined.

Example device_read_counter :
  V2.device_read V2.btrfs_device_default_attrs
    (V2.mk_btrfs_fs_info (Some (V2.mk_btrfs_device 7 0 0 0 0))) "cnt_write_io_errs"
  = Returned 2 (String "7" (String newline EmptyString)).
Proof. reflexivity. Qed.

(** ** Reference counting *)

Lemma kobject_put_unfold {T : Type} (release : T -> release_fn T) (fuel a : nat)
    (w : world T) :
  kobject_put release (S fuel) (Some a) w
  = match deref w a with
    | Some o =>
        let k := with_kref (int_wrap (kref (kobj o) - 1)) (kobj o) in
        let w1 := store a (with_kobj k o) w in
        if kref k =? 0 then kobject_cleanup release (kobject_put release fuel) a w1
        else Some w1
    | None => None
    end.
Proof. reflexivity. Qed.

(** Dropping a reference that is not the last one only changes the
    count. *)
Lemma kobject_put_not_last {T : Type} (release : T -> release_fn T) (fuel a : nat)
    (w : world T) (o : object T) :
  deref w a = Some o ->
  int_wrap (kref (kobj o) - 1) <> 0 ->
  kobject_put release (S fuel) (Some a) w
  = Some (store a (with_kobj (with_kref (int_wrap (kref (kobj o) - 1)) (kobj o)) o) w).
Proof.
  intros Hd Hne. rewrite kobject_put_unfold, Hd. cbv zeta. cbn [with_kref kref].
  destruct (Z.eqb_spec (int_wrap (kref (kobj o) - 1)) 0); [contradiction | reflexivity].
Qed.

(** The cleanup of a node of a given type: what the release callback is
    called on. *)
Lemma kobject_cleanup_unfold {T : Type} (release : T -> release_fn T)
    (put : ptr -> world T -> option (world T)) (a : nat) (w : world T)
    (o : object T) (t : T) :
  deref w a = Some o ->
  ktype (kobj o) = Some t ->
  exists k,
    kobject_cleanup release put a w
    = release t put a (store a (mk_object k (unregister o) false (S (releases o))) w)
    /\ kref k = kref (kobj o) /\ ktype k = Some t /\ state_in_sysfs k = false
    /\ name k = name (kobj o) /\ state_initialized k = state_initialized (kobj o).
Proof.
  intros Hd Ht. unfold kobject_cleanup. rewrite Hd.
  apply deref_Some in Hd as Hd'. destruct Hd' as [Hl Hf].
  destruct (state_in_sysfs (kobj o)) eqn:Es.
  - unfold kobject_del. rewrite Hd, Ht. cbv beta iota zeta.
    erewrite deref_store_eq; [|exact Hl|exact Hf].
    cbv beta iota. rewrite store_store. cbn [kobj unregister freed releases with_kobj].
    eexists. split; [rewrite Hf; reflexivity|]. cbn. repeat split; auto.
  - rewrite Ht, Hd.
    exists (kobj o). rewrite Hf. repeat split; auto.
Qed.

(** Dropping the last reference of a device node in the second design:
    the node leaves the namespace, the release callback runs and puts
    the node again. *)
Lemma v2_device_last_put (w : world V2.kobj_type) (a : nat)
    (o : object V2.kobj_type) :
  deref w a = Some o ->
  ktype (kobj o) = Some V2.btrfs_ktype_device ->
  kref (kobj o) = 1 ->
  exists w' o',
    kobject_put V2.release PUT_FUEL (Some a) w = Some w'
    /\ objs w' !! a = Some o'
    /\ kref (kobj o') = -1
    /\ freed o' = false
    /\ unregister o' = unregister o
    /\ releases o' = S (releases o)
    /\ state_in_sysfs (kobj o') = false.
Proof.
  intros Hd Ht Hk. apply deref_Some in Hd as Hd'. destruct Hd' as [Hl Hf].
  unfold PUT_FUEL. rewrite kobject_put_unfold, Hd. cbv zeta.
  cbn [with_kref kref]. rewrite Hk. change (int_wrap (1 - 1)) with 0. cbn [Z.eqb].
  set (o1 := with_kobj _ o).
  assert (Hd1 : deref (store a o1 w) a = Some o1) by (eapply deref_store_eq; eauto).
  destruct (kobject_cleanup_unfold V2.release (kobject_put V2.release 2) a _ o1
              V2.btrfs_ktype_device Hd1 Ht) as (k & -> & Hk1 & Ht1 & Hs1 & _).
  rewrite store_store. cbn [V2.release]. unfold V2.btrfs_device_release.
  set (o2 := mk_object k _ _ _).
  assert (Hd2 : deref (store a o2 w) a = Some o2) by (eapply deref_store_eq; eauto).
  rewrite (kobject_put_not_last _ _ _ _ _ Hd2);
    cbn [o2 kobj]; rewrite Hk1; cbn [o1 with_kobj kobj kref];
    [|change (int_wrap (0 - 1)) with (-1); discriminate].
  rewrite store_store. eexists _, _. split; [reflexivity|].
  split; [eapply lookup_store_eq, Hl|].
  cbn. repeat split; auto.
Qed.

(** C9: in the second design the release callback of the device type
    neither frees the node nor signals anything: called on a node whose
    count has reached zero it puts the same node once more, which takes
    the count to -1; so dropping the last reference of a device node
    runs the callback once and leaves a live node with a count of -1. *)
Theorem device_release_puts_again (w : world V2.kobj_type) (a : nat)
    (o : object V2.kobj_type) :
  deref w a = Some o ->
  ktype (kobj o) = Some V2.btrfs_ktype_device ->
  (kref (kobj o) = 0 ->
   V2.btrfs_device_release (kobject_put V2.release 2) a w
   = Some (store a (with_kobj (with_kref (-1) (kobj o)) o) w))
  /\ (kref (kobj o) = 1 ->
      exists w' o',
        kobject_put V2.release PUT_FUEL (Some a) w = Some w'
        /\ objs w' !! a = Some o'
        /\ kref (kobj o') = -1
        /\ freed o' = false
        /\ unregister o' = unregister o
        /\ releases o' = S (releases o)
        /\ state_in_sysfs (kobj o') = false).
Proof.
  intros Hd Ht. split.
  - intros Hk. unfold V2.btrfs_device_release.
    rewrite (kobject_put_not_last _ _ _ _ _ Hd); rewrite Hk; [reflexivity | discriminate].
  - intros Hk. exact (v2_device_last_put w a o Hd Ht Hk).
Qed.

Lemma device_release_puts_again_witness :
  exists w' o',
    kobject_put V2.release PUT_FUEL (Some 0%nat) (V2.mem attached) = Some w'
    /\ objs w' !! 0%nat = Some o'
    /\ kref (kobj o') = -1
    /\ freed o' = false
    /\ unregister o' = 0%nat
    /\ releases o' = 1%nat
    /\ state_in_sysfs (kobj o') = false.
Proof.
  exact (proj2 (device_release_puts_again (V2.mem attached) 0
                  (mk_object (mk_kobject (Some "sda1") (Some 2%nat) None
                                (Some V2.btrfs_ktype_device) 1 true true)
                             0%nat false 0%nat)
                  eq_refl eq_refl) eq_refl).
Defined.

(** ** Attaching a device *)

Lemma namespace_store_same {T : Type} (w : world T) (a : nat) (o o' : object T) :
  objs w !! a = Some o -> entry_of o' = entry_of o ->
  namespace (store a o' w) = namespace w.
Proof.
  intros Hl He. unfold namespace, store. simpl.
  rewrite list_fmap_insert, He. apply list_insert_id.
  rewrite list_lookup_fmap, Hl. reflexivity.
Qed.

(** C4: on a node whose kobject is already initialized, the second
    design's create-device returns 0 and changes nothing but the
    reference count of that node, which goes up by one: the namespace is
    what it was, no allocation is attempted, and every other field of
    the node, every other node and the globals are untouched. *)
Theorem create_device_attached_only_gets (st : V2.state) (super_kobj : nat)
    (label : string) (o : object V2.kobj_type) :
  deref (V2.mem st) super_kobj = Some o ->
  state_initialized (kobj o) = true ->
  let o' := with_kobj (with_kref (int_wrap (kref (kobj o) + 1)) (kobj o)) o in
  let st' := V2.with_mem (store super_kobj o' (V2.mem st)) st in
  V2.btrfs_create_device super_kobj label st = inr (0, st')
  /\ namespace (V2.mem st') = namespace (V2.mem st)
  /\ oom (V2.mem st') = oom (V2.mem st)
  /\ (forall b, b <> super_kobj -> objs (V2.mem st') !! b = objs (V2.mem st) !! b)
  /\ (INT_MIN <= kref (kobj o) < INT_MAX -> kref (kobj o') = kref (kobj o) + 1).
Proof.
  intros Hd Hi o' st'. apply deref_Some in Hd as Hd'. destruct Hd' as [Hl Hf].
  repeat split.
  - unfold V2.btrfs_create_device, kobject_get. rewrite Hd, Hi. reflexivity.
  - apply (namespace_store_same _ _ o); [exact Hl | reflexivity].
  - intros b Hb. apply lookup_store_ne. congruence.
  - intros Hr. cbn. apply int_wrap_small. unfold INT_MAX, INT_MIN in *. lia.
Qed.

Lemma create_device_attached_only_gets_witness :
  exists st',
    V2.btrfs_create_device 0 "sda1" attached = inr (0, st')
    /\ namespace (V2.mem st') = namespace (V2.mem attached)
    /\ (exists o', deref (V2.mem st') 0 = Some o' /\ kref (kobj o') = 2).
Proof.
  destruct (create_device_attached_only_gets attached 0 "sda1"
              (mk_object (mk_kobject (Some "sda1") (Some 2%nat) None
                            (Some V2.btrfs_ktype_device) 1 true true)
                         0%nat false 0%nat)
              eq_refl eq_refl) as (H1 & H2 & _).
  eexists. split; [exact H1|]. split; [exact H2|].
  eexists. split; reflexivity.
Defined.

(** ** Creation failures *)

Example kobject_create_collision :
  match V2.btrfs_kobject_create "health" V2.btrfs_ktype_health None after_init with
  | inr (p, st') =>
      p = None
      /\ namespace (V2.mem st') = (namespace (V2.mem after_init) ++ [None])%list
      /\ (fun o => (freed o, releases o)) <$> objs (V2.mem st') !! 5%nat
         = Some (true, 1%nat)
  | inl _ => False
  end.
Proof. vm_compute. repeat split. Qed.

(** C6 fails on the code: when the second fixed node cannot be created
    (here its allocation fails), init returns -EINVAL and calls destroy
    on the NULL health pointer only; the devices node created before it
    stays registered with its reference.  When the third one cannot be
    created, the unwinding calls destroy on the NULL info pointer and
    then on the health node: that put drops the last reference of a node
    whose type pointer is the address of a dead parameter, so init does
    not get to its return; the devices node is on no unwinding path. *)
Lemma static_init_keeps_devices_on_failure :
  (V2.btrfs_static_init_sysfs (V2.boot [false; false; true])
   = inr (- EINVAL, init_without_health)
   /\ V2.btrfs_devices init_without_health = Some 0%nat
   /\ V2.btrfs_health init_without_health = None
   /\ name_taken (V2.mem init_without_health) None "devices" = true
   /\ (fun o => (kref (kobj o), releases o)) <$> deref (V2.mem init_without_health) 0
      = Some (1, 0%nat))
  /\ V2.btrfs_static_init_sysfs (V2.boot [false; false; false; false; true])
     = inl InvalidPointer.
Proof. vm_compute. repeat split. Qed.

(** ** Teardown *)

Lemma int_wrap_pred_zero (z : Z) : 1 <= z <= INT_MAX -> (int_wrap (z - 1) = 0 <-> z = 1).
Proof.
  intros H. rewrite int_wrap_small by (unfold INT_MIN, INT_MAX in *; lia). lia.
Qed.

(** Dropping a reference in the first design: both release callbacks
    signal the completion, once, when the count reaches zero. *)
Lemma v1_put (w : world V1.kobj_type) (a : nat) (o : object V1.kobj_type)
    (t : V1.kobj_type) :
  deref w a = Some o -> ktype (kobj o) = Some t ->
  exists w' o',
    kobject_put V1.release PUT_FUEL (Some a) w = Some w'
    /\ deref w' a = Some o'
    /\ ktype (kobj o') = Some t
    /\ kref (kobj o') = int_wrap (kref (kobj o) - 1)
    /\ ((int_wrap (kref (kobj o) - 1) = 0
         /\ releases o' = S (releases o) /\ unregister o' = S (unregister o))
        \/ (int_wrap (kref (kobj o) - 1) <> 0
            /\ releases o' = releases o /\ unregister o' = unregister o)).
Proof.
  intros Hd Ht. apply deref_Some in Hd as Hd'. destruct Hd' as [Hl Hf].
  destruct (Z.eq_dec (int_wrap (kref (kobj o) - 1)) 0) as [Hz|Hnz].
  - unfold PUT_FUEL. rewrite kobject_put_unfold, Hd. cbv zeta.
    cbn [with_kref kref]. rewrite Hz. cbn [Z.eqb].
    set (o1 := with_kobj _ o).
    assert (Hd1 : deref (store a o1 w) a = Some o1) by (eapply deref_store_eq; eauto).
    destruct (kobject_cleanup_unfold V1.release (kobject_put V1.release 2) a _ o1 t
                Hd1 Ht) as (k & -> & Hk1 & Ht1 & _).
    rewrite store_store. set (o2 := mk_object k _ _ _).
    assert (Hd2 : deref (store a o2 w) a = Some o2) by (eapply deref_store_eq; eauto).
    assert (E : V1.release t (kobject_put V1.release 2) a (store a o2 w)
                = complete a (store a o2 w)) by (destruct t; reflexivity).
    rewrite E. unfold complete. rewrite Hd2, store_store.
    eexists _, _. split; [reflexivity|].
    split; [eapply deref_store_eq; eauto|].
    cbn. split; [exact Ht1|]. split; [exact Hk1|]. left. auto.
  - unfold PUT_FUEL. rewrite (kobject_put_not_last _ _ _ _ _ Hd Hnz).
    eexists _, _. split; [reflexivity|].
    split; [eapply deref_store_eq; eauto|].
    cbn. split; [exact Ht|]. split; [reflexivity|]. right. auto.
Qed.

(** Dropping the last reference of a node that [btrfs_kobject_create]
    returned: the cleanup finds no release callback to call. *)
Lemma v2_dead_last_put (w : world V2.kobj_type) (a : nat) (o : object V2.kobj_type) :
  deref w a = Some o -> ktype (kobj o) = Some V2.dead_ktype ->
  int_wrap (kref (kobj o) - 1) = 0 ->
  kobject_put V2.release PUT_FUEL (Some a) w = None.
Proof.
  intros Hd Ht Hz. apply deref_Some in Hd as Hd'. destruct Hd' as [Hl Hf].
  unfold PUT_FUEL. rewrite kobject_put_unfold, Hd. cbv zeta.
  cbn [with_kref kref]. rewrite Hz. cbn [Z.eqb].
  set (o1 := with_kobj _ o).
  assert (Hd1 : deref (store a o1 w) a = Some o1) by (eapply deref_store_eq; eauto).
  destruct (kobject_cleanup_unfold V2.release (kobject_put V2.release 2) a _ o1
              V2.dead_ktype Hd1 Ht) as (k & -> & _).
  reflexivity.
Qed.

Lemma in_flight_cons (r : list stmt) (rs : list (list stmt)) :
  in_flight (r :: rs)
  = ((match r with [] => 0 | _ => 1 end) + in_flight rs)%nat.
Proof. unfold in_flight. simpl. destruct r; reflexivity. Qed.

Lemma in_flight_replicate (a n : nat) :
  in_flight (replicate n [KobjectPut (Some a)]) = n.
Proof.
  induction n as [|n IH]; [reflexivity|].
  cbn [replicate]. rewrite in_flight_cons, IH. reflexivity.
Qed.

Lemma readers_replicate (a n : nat) :
  Forall (reader_of a) (replicate n [KobjectPut (Some a)]).
Proof. apply Forall_replicate. right. reflexivity. Qed.

Lemma in_flight_leave (rs : list (list stmt)) (j : nat) (x : stmt) (l : list stmt) :
  rs !! j = Some (x :: l) ->
  in_flight rs = S (in_flight (<[j := []]> rs)).
Proof.
  revert j. induction rs as [|r rs IH]; intros j H; [discriminate|].
  destruct j as [|j]; simpl in H.
  - injection H as ->. simpl. rewrite !in_flight_cons. reflexivity.
  - simpl. rewrite !in_flight_cons. rewrite (IH j H). lia.
Qed.

Lemma readers_leave (a : nat) (rs : list (list stmt)) (j : nat) :
  Forall (reader_of a) rs -> Forall (reader_of a) (<[j := []]> rs).
Proof.
  intros H. apply Forall_insert; [exact H | left; reflexivity].
Qed.

Lemma reader_lookup (a : nat) (rs : list (list stmt)) (j : nat) (r : list stmt) :
  Forall (reader_of a) rs -> rs !! j = Some r -> reader_of a r.
Proof. intros H Hl. eapply Forall_lookup_1; eauto. Qed.

Lemma enter_readers_count {T : Type} (n : nat) (a : nat) (w : world T) (o : object T) :
  deref w a = Some o ->
  INT_MIN <= kref (kobj o) -> kref (kobj o) + Z.of_nat n <= INT_MAX ->
  exists w' o',
    enter_readers n a w = Some w'
    /\ deref w' a = Some o'
    /\ kref (kobj o') = kref (kobj o) + Z.of_nat n
    /\ ktype (kobj o') = ktype (kobj o)
    /\ releases o' = releases o
    /\ unregister o' = unregister o.
Proof.
  revert w o. induction n as [|n IH]; intros w o Hd Hlo Hhi.
  - exists w, o. simpl. repeat split; auto. lia.
  - cbn [enter_readers]. unfold kobject_get. rewrite Hd.
    apply deref_Some in Hd as Hd'. destruct Hd' as [Hl Hf].
    set (o1 := with_kobj _ o).
    assert (Hd1 : deref (store a o1 w) a = Some o1) by (eapply deref_store_eq; eauto).
    assert (Hk1 : kref (kobj o1) = kref (kobj o) + 1).
    { cbn. apply int_wrap_small. lia. }
    destruct (IH _ _ Hd1) as (w' & o' & E & Hd' & Hk & Ht & Hr & Hu); [lia | lia |].
    exists w', o'. split; [exact E|]. split; [exact Hd'|].
    rewrite Hk, Hk1, Ht, Hr, Hu. cbn. repeat split. lia.
Qed.

Lemma wait_for_completion_unfold {T : Type} (a : nat) (w : world T) (o : object T) :
  deref w a = Some o ->
  wait_for_completion a w
  = match unregister o with
    | O => Some None
    | S n => Some (Some (store a (with_unregister n o) w))
    end.
Proof. intros H. unfold wait_for_completion. rewrite H. reflexivity. Qed.

Ltac v1_keep Hth Hd Ht Hrs Hb :=
  eexists; split; [reflexivity|];
  eexists _, _, _; split; [exact Hth|]; split; [exact Hd|]; split; [exact Ht|];
  split; [exact Hrs|]; split; [exact Hb|].

(** One scheduling step of a teardown in the first design. *)
Lemma v1_step (a : nat) (t : V1.kobj_type) (i : nat) (s : system V1.kobj_type) :
  v1_invariant a t s ->
  exists s', step V1.release i s = Some s' /\ v1_invariant a t s'.
Proof.
  intros (o & d & rs & Hth & Hd & Ht & Hrs & Hb & Hcase).
  apply deref_Some in Hd as Hd'. destruct Hd' as [Hl Hf].
  unfold step. rewrite Hth. destruct i as [|j].
  - change ((d :: rs) !! 0%nat) with (Some d).
    destruct Hcase as [(-> & Hk & Hr & Hu) | [(-> & Hk & Hsub) | (-> & HR & Hr & Hu)]].
    + (* the destroying caller puts its reference *)
      cbn [V1.btrfs_kobject_destroy exec_stmt].
      destruct (v1_put _ _ _ _ Hd Ht) as (w' & o' & E & Hd' & Ht' & Hk' & Hc).
      rewrite E. cbn [fmap option_fmap option_map].
      eexists. split; [reflexivity|].
      exists o', [WaitForCompletion a], rs. cbn [threads shared].
      split; [reflexivity|]. split; [exact Hd'|]. split; [exact Ht'|].
      split; [exact Hrs|]. split; [exact Hb|]. right. left.
      split; [reflexivity|].
      rewrite Hk in Hk', Hc.
      rewrite int_wrap_small in Hk', Hc by (unfold INT_MIN, INT_MAX in *; lia).
      split; [lia|].
      destruct Hc as [(Hz & Hr' & Hu')|(Hnz & Hr' & Hu')]; [right | left];
        repeat split; lia.
    + (* the destroying caller waits *)
      cbn [exec_stmt]. rewrite (wait_for_completion_unfold _ _ _ Hd).
      destruct Hsub as [(HR & Hr & Hu)|(HR & Hr & Hu)]; rewrite Hu.
      * v1_keep Hth Hd Ht Hrs Hb. right. left.
        split; [reflexivity|]. split; [exact Hk|]. left. repeat split; assumption.
      * eexists. split; [reflexivity|].
        exists (with_unregister 0 o), [], rs. cbn [threads shared].
        split; [reflexivity|].
        split; [eapply deref_store_eq; eauto|]. split; [exact Ht|].
        split; [exact Hrs|]. split; [exact Hb|]. right. right. cbn.
        repeat split; assumption.
    + (* the destroying caller is back *)
      v1_keep Hth Hd Ht Hrs Hb. right. right. repeat split; assumption.
  - change ((d :: rs) !! S j) with (rs !! j).
    destruct (rs !! j) as [r|] eqn:Hj.
    + destruct (reader_lookup _ _ _ _ Hrs Hj) as [->| ->].
      * v1_keep Hth Hd Ht Hrs Hb. exact Hcase.
      * (* a reader gives its reference back *)
        cbn [exec_stmt].
        destruct (v1_put _ _ _ _ Hd Ht) as (w' & o' & E & Hd' & Ht' & Hk' & Hc).
        rewrite E. cbn [fmap option_fmap option_map].
        pose proof (in_flight_leave _ _ _ _ Hj) as HR.
        eexists. split; [reflexivity|].
        exists o', d, (<[j := []]> rs). cbn [threads shared].
        split; [reflexivity|]. split; [exact Hd'|]. split; [exact Ht'|].
        split; [apply readers_leave, Hrs|]. split; [lia|].
        destruct Hcase as [(-> & Hk & Hr & Hu) | [(-> & Hk & Hsub) | (-> & HR0 & _)]].
        -- left. split; [reflexivity|]. rewrite Hk in Hk', Hc.
           rewrite int_wrap_small in Hk', Hc by (unfold INT_MIN, INT_MAX in *; lia).
           destruct Hc as [(Hz & _)|(_ & Hr' & Hu')]; [lia|].
           repeat split; lia.
        -- right. left. split; [reflexivity|]. rewrite Hk in Hk', Hc.
           rewrite int_wrap_small in Hk', Hc by (unfold INT_MIN, INT_MAX in *; lia).
           destruct Hsub as [(_ & Hr & Hu)|(HR0 & _)]; [|lia].
           split; [lia|].
           destruct Hc as [(Hz & Hr' & Hu')|(Hnz & Hr' & Hu')]; [right | left];
             repeat split; lia.
        -- lia.
    + v1_keep Hth Hd Ht Hrs Hb. exact Hcase.
Qed.

Lemma v1_run (a : nat) (t : V1.kobj_type) (sched : list nat) (s : system V1.kobj_type) :
  v1_invariant a t s ->
  exists s', run_schedule V1.release sched s = Some s' /\ v1_invariant a t s'.
Proof.
  revert s. induction sched as [|i sched IH]; intros s Hs.
  - exists s. split; [reflexivity | exact Hs].
  - destruct (v1_step a t i s Hs) as (s1 & E & Hs1).
    cbn [run_schedule]. rewrite E. apply IH, Hs1.
Qed.

Lemma v1_invariant_ordered (a : nat) (t : V1.kobj_type) (s : system V1.kobj_type) :
  v1_invariant a t s -> teardown_ordered a s.
Proof.
  intros (o & d & rs & Hth & Hd & Ht & Hrs & Hb & Hcase).
  apply deref_Some in Hd as [Hl Hf].
  unfold teardown_ordered, returned. rewrite Hl, Hth. cbn [tail].
  change ((d :: rs) !! 0%nat) with (Some d).
  destruct Hcase as [(-> & Hk & Hr & Hu) | [(-> & Hk & Hsub) | (-> & HR & Hr & Hu)]].
  - cbn [V1.btrfs_kobject_destroy]. repeat split; try lia; discriminate.
  - destruct Hsub as [(HR & Hr & Hu)|(HR & Hr & Hu)];
      repeat split; try lia; try discriminate.
  - repeat split; lia.
Qed.

(** Once no reader is in flight, the destroying caller gets back. *)
Lemma v1_unblocked (a : nat) (t : V1.kobj_type) (s : system V1.kobj_type) :
  v1_invariant a t s -> in_flight (tail (threads s)) = 0%nat ->
  exists s', run_schedule V1.release [0%nat; 0%nat] s = Some s' /\ returned 0 s' = true.
Proof.
  intros (o & d & rs & Hth & Hd & Ht & Hrs & Hb & Hcase) HR.
  rewrite Hth in HR. cbn [tail] in HR.
  apply deref_Some in Hd as Hd'. destruct Hd' as [Hl Hf].
  assert (Hwake : forall w o1 rs1,
            deref w a = Some o1 -> unregister o1 = 1%nat ->
            step V1.release 0 (mk_system w ([WaitForCompletion a] :: rs1))
            = Some (mk_system (store a (with_unregister 0 o1) w) ([] :: rs1))).
  { intros w o1 rs1 Hd1 Hu1. unfold step. cbn [threads shared].
    change (([WaitForCompletion a] :: rs1) !! 0%nat) with (Some [WaitForCompletion a]).
    cbn [exec_stmt]. rewrite (wait_for_completion_unfold _ _ _ Hd1), Hu1.
    reflexivity. }
  assert (Hstay : forall w rs1,
            step V1.release 0 (mk_system w ([] :: rs1)) = Some (mk_system w ([] :: rs1))).
  { intros w rs1. reflexivity. }
  destruct s as [w ths]. cbn [threads shared] in *. subst ths.
  destruct Hcase as [(-> & Hk & Hr & Hu) | [(-> & Hk & Hsub) | (-> & _ & Hr & Hu)]].
  - cbn [run_schedule]. unfold step at 1. cbn [threads shared].
    change ((V1.btrfs_kobject_destroy a :: rs) !! 0%nat)
      with (Some (V1.btrfs_kobject_destroy a)).
    cbn [V1.btrfs_kobject_destroy exec_stmt].
    destruct (v1_put _ _ _ _ Hd Ht) as (w' & o' & E & Hd' & Ht' & Hk' & Hc).
    rewrite E. cbn [fmap option_fmap option_map].
    change (<[0%nat := [WaitForCompletion a]]> (V1.btrfs_kobject_destroy a :: rs))
      with ([WaitForCompletion a] :: rs).
    rewrite Hk, HR in Hc. change (int_wrap (Z.of_nat 0 + 1 - 1)) with 0 in Hc.
    destruct Hc as [(_ & _ & Hu')|(Hnz & _)]; [|congruence].
    rewrite (Hwake w' o' rs Hd') by lia.
    eexists. split; reflexivity.
  - destruct Hsub as [(HR' & _)|(_ & _ & Hu)]; [congruence|].
    cbn [run_schedule]. rewrite (Hwake w o rs Hd Hu), Hstay.
    eexists. split; reflexivity.
  - cbn [run_schedule]. rewrite !Hstay. eexists. split; reflexivity.
Qed.

Lemma in_flight_zero (rs : list (list stmt)) (j : nat) (r : list stmt) :
  in_flight rs = 0%nat -> rs !! j = Some r -> r = [].
Proof.
  revert j. induction rs as [|r0 rs IH]; intros j H Hl; [discriminate|].
  rewrite in_flight_cons in H. destruct j as [|j]; cbn in Hl.
  - injection Hl as <-. destruct r0; [reflexivity | cbn in H; lia].
  - apply (IH j); [lia | exact Hl].
Qed.

Lemma in_flight_pos (rs : list (list stmt)) :
  (0 < in_flight rs)%nat -> exists i x l, rs !! i = Some (x :: l).
Proof.
  induction rs as [|r rs IH]; intros H; [cbn in H; lia|].
  destruct r as [|x l].
  - rewrite in_flight_cons in H. destruct (IH H) as (i & x & l & Hi).
    exists (S i), x, l. exact Hi.
  - exists 0%nat, x, l. reflexivity.
Qed.

Lemma returned_lookup {T : Type} (i : nat) (s : system T) :
  returned i s = true <-> threads s !! i = Some [].
Proof.
  unfold returned. destruct (threads s !! i) as [[|x l]|]; split; congruence.
Qed.

(** One scheduling step of a teardown in the second design: a caller
    that is scheduled puts its reference and is back, unless it holds
    the last reference, in which case the cleanup goes through the dead
    node type and the execution stops there. *)
Lemma v2_step (a : nat) (i : nat) (s : system V2.kobj_type) :
  v2_invariant a s ->
  match step V2.release i s with
  | Some s' =>
      v2_invariant a s'
      /\ length (threads s') = length (threads s)
      /\ (forall j, returned j s' = true
                    <-> returned j s = true \/ (j = i /\ (i < length (threads s))%nat))
  | None =>
      forall j, (j < length (threads s))%nat -> returned j s = true \/ j = i
  end.
Proof.
  intros (o & Hd & Ht & Hr & Hrs & Hk & Hpos & Hb).
  assert (Hsame : v2_invariant a s) by (exists o; repeat split; assumption).
  apply deref_Some in Hd as Hd'. destruct Hd' as [Hl Hf].
  unfold step. destruct (threads s !! i) as [r|] eqn:Hi.
  - destruct (reader_lookup _ _ _ _ Hrs Hi) as [->| ->].
    + split; [exact Hsame|]. split; [reflexivity|].
      intros j. split; [auto|]. intros [H|[-> _]]; [exact H|].
      apply returned_lookup. exact Hi.
    + cbn [exec_stmt]. pose proof (in_flight_leave _ _ _ _ Hi) as HR.
      destruct (Nat.eq_dec (in_flight (threads s)) 1%nat) as [H1|Hn1].
      * rewrite (v2_dead_last_put _ _ _ Hd Ht) by (rewrite Hk, H1; reflexivity).
        cbn [fmap option_fmap option_map].
        intros j Hj. destruct (Nat.eq_dec j i) as [->|Hne]; [right; reflexivity|].
        left. apply returned_lookup.
        destruct (lookup_lt_is_Some_2 _ _ Hj) as [r Hjr].
        rewrite Hjr. f_equal.
        apply (in_flight_zero (<[i := []]> (threads s)) j); [lia|].
        rewrite list_lookup_insert_ne by congruence. exact Hjr.
      * assert (Hnz : int_wrap (kref (kobj o) - 1) <> 0).
        { rewrite Hk, int_wrap_small by (unfold INT_MIN, INT_MAX in *; lia). lia. }
        unfold PUT_FUEL. rewrite (kobject_put_not_last _ _ _ _ _ Hd Hnz).
        cbn [fmap option_fmap option_map]. cbn [threads shared].
        split; [|split].
        -- unfold v2_invariant. cbn [threads shared].
           eexists. split; [eapply deref_store_eq; eauto|].
           cbn [kobj with_kobj with_kref ktype kref releases].
           split; [exact Ht|]. split; [exact Hr|].
           split; [apply readers_leave, Hrs|].
           rewrite Hk, int_wrap_small by (unfold INT_MIN, INT_MAX in *; lia).
           unfold INT_MAX in *. repeat split; lia.
        -- apply length_insert.
        -- intros j. rewrite !returned_lookup. cbn [threads].
           destruct (Nat.eq_dec j i) as [->|Hne].
           ++ rewrite list_lookup_insert_eq by (eapply lookup_lt_Some; eauto).
              split; [intros _; right; split; [reflexivity|eapply lookup_lt_Some; eauto]
                     | reflexivity].
           ++ rewrite list_lookup_insert_ne by congruence.
              split; [auto|]. intros [H|[H _]]; [exact H | contradiction].
  - split; [exact Hsame|]. split; [reflexivity|].
    intros j. split; [auto|]. intros [H|[-> Hlt]]; [exact H|].
    apply lookup_ge_None in Hi. lia.
Qed.

Lemma v2_run (a : nat) (sched : list nat) (s : system V2.kobj_type) :
  v2_invariant a s ->
  match run_schedule V2.release sched s with
  | Some s' =>
      v2_invariant a s'
      /\ length (threads s') = length (threads s)
      /\ (forall j, returned j s' = true
                    <-> returned j s = true \/ (In j sched /\ (j < length (threads s))%nat))
  | None =>
      forall j, (j < length (threads s))%nat -> returned j s = true \/ In j sched
  end.
Proof.
  revert s. induction sched as [|i sched IH]; intros s Hs.
  - cbn [run_schedule]. split; [exact Hs|]. split; [reflexivity|].
    intros j. split; [auto|]. intros [H|[[] _]]. exact H.
  - cbn [run_schedule]. pose proof (v2_step a i s Hs) as Hstep.
    destruct (step V2.release i s) as [s1|].
    + destruct Hstep as (Hs1 & Hlen1 & Hret1).
      specialize (IH s1 Hs1).
      destruct (run_schedule V2.release sched s1) as [s'|].
      * destruct IH as (Hs' & Hlen' & Hret').
        split; [exact Hs'|]. split; [congruence|].
        intros j. rewrite Hret', Hret1, Hlen1. cbn [In].
        split.
        -- intros [[H|[-> Hlt]]|[Hin Hlt]]; auto.
        -- intros [H|[[->|Hin] Hlt]]; auto.
      * intros j Hj. rewrite <- Hlen1 in Hj. destruct (IH j Hj) as [H|Hin].
        -- apply Hret1 in H as [H|[-> _]]; [left; exact H | right; left; reflexivity].
        -- right. right. exact Hin.
    + intros j Hj. destruct (Hstep j Hj) as [H| ->]; [left; exact H | right; left; reflexivity].
Qed.

Lemma v2_invariant_held (a : nat) (s : system V2.kobj_type) :
  v2_invariant a s -> held_by_callers a s.
Proof.
  intros (o & Hd & Ht & Hr & Hrs & Hk & Hpos & Hb).
  apply deref_Some in Hd as [Hl Hf].
  unfold held_by_callers. rewrite Hl. repeat split; assumption.
Qed.

(** At the start of a teardown no caller has returned. *)
Lemma teardown_none_returned {T : Type} (a n j : nat) (w : world T) :
  returned j (mk_system w (teardown [KobjectPut (Some a)] a n)) = false.
Proof.
  unfold returned, teardown. cbn [threads]. destruct j as [|j]; [reflexivity|].
  change ((?d :: ?rs) !! S j) with (rs !! j).
  destruct (replicate n [KobjectPut (Some a)] !! j) as [r|] eqn:E; [|reflexivity].
  apply lookup_replicate in E as [-> _]. reflexivity.
Qed.




(** ** Which entry points wait *)

Lemma v2_run_put_never_blocked (p : ptr) (w : world V2.kobj_type) :
  is_blocked (run V2.release [KobjectPut p] w) = false.
Proof.
  cbn [run exec_stmt].
  destruct (kobject_put V2.release PUT_FUEL p w); reflexivity.
Qed.




(** * Further properties of the code *)

(** ** The counter accessors of the second design *)

Lemma show_counter_reads (field : V2.btrfs_device -> Z) (kobj : V2.btrfs_fs_info)
    (d : V2.btrfs_device) :
  V2.found_device kobj = Some d -> reads_as (V2.show_counter field kobj) (field d).
Proof.
  intros H. unfold V2.show_counter, V2.device_stats. rewrite H.
  apply sprintf_d_nl_reads_as.
Qed.

(** X1: in the second design each counter attribute of a device node
    shows its own counter of the device that [device_stats] finds: the
    text read is the decimal notation of that counter followed by one
    newline, and the count returned is the length of the text.  When
    [device_stats] finds no device the accessors use the NULL result
    unchecked. *)
Theorem device_counters_show_own_counter (kobj : V2.btrfs_fs_info) :
  (forall d, V2.found_device kobj = Some d ->
     reads_as (V2.btrfs_device_attr_show kobj V2.btrfs_attr_cnt_write_io_errs)
              (V2.cnt_write_io_errs d)
     /\ reads_as (V2.btrfs_device_attr_show kobj V2.btrfs_attr_cnt_read_io_errs)
                 (V2.cnt_read_io_errs d)
     /\ reads_as (V2.btrfs_device_attr_show kobj V2.btrfs_attr_cnt_flush_io_errs)
                 (V2.cnt_flush_io_errs d)
     /\ reads_as (V2.btrfs_device_attr_show kobj V2.btrfs_attr_cnt_corruption_errs)
                 (V2.cnt_corruption_errs d)
     /\ reads_as (V2.btrfs_device_attr_show kobj V2.btrfs_attr_cnt_generation_errs)
                 (V2.cnt_generation_errs d))
  /\ (V2.found_device kobj = None ->
      forall a f, In a V2.btrfs_device_default_attrs -> V2.dev_show a = Some f ->
                  V2.btrfs_device_attr_show kobj a = BadAccess).
Proof.
  split.
  - intros d Hd. repeat split; apply show_counter_reads, Hd.
  - intros Hn a f Hin Hf. destruct kobj as [fd]. cbn [V2.found_device] in Hn. subst fd.
    simpl in Hin.
    destruct Hin as [<-|[<-|[<-|[<-|[<-|[<-|[<-|[]]]]]]]]; try discriminate Hf;
      reflexivity.
Qed.

Lemma device_counters_show_own_counter_witness :
  reads_as (V2.btrfs_device_attr_show
              (V2.mk_btrfs_fs_info (Some (V2.mk_btrfs_device 1 2 3 4 5)))
              V2.btrfs_attr_cnt_flush_io_errs) 3.
Proof.
  exact (proj1 (proj2 (proj2 (proj1 (device_counters_show_own_counter
           (V2.mk_btrfs_fs_info (Some (V2.mk_btrfs_device 1 2 3 4 5))))
           (V2.mk_btrfs_device 1 2 3 4 5) eq_refl)))).
Defined.

(** ** The size of what an accessor writes *)

Lemma put_dec_grows (fuel : nat) (n : Z) (acc : string) :
  (String.length acc <= String.length (put_dec fuel n acc))%nat.
Proof.
  revert n acc. induction fuel as [|fuel IH]; intros n acc; cbn [put_dec]; [lia|].
  destruct (n <? 10); [cbn [String.length]; lia|].
  etransitivity; [|apply IH]. cbn [String.length]. lia.
Qed.

Lemma put_dec_length (fuel : nat) (n : Z) (acc : string) (k : nat) :
  0 <= n < 10 ^ Z.of_nat k -> (1 <= k)%nat ->
  (String.length (put_dec fuel n acc) <= k + String.length acc)%nat.
Proof.
  revert n acc k. induction fuel as [|fuel IH]; intros n acc k Hn Hk; cbn [put_dec]; [lia|].
  destruct (Z.ltb_spec n 10) as [Hlt|Hge]; [cbn [String.length]; lia|].
  destruct k as [|[|k]]; [lia | simpl in Hn; lia |].
  assert (Hpow : 10 ^ Z.of_nat (S (S k)) = 10 * 10 ^ Z.of_nat (S k)).
  { rewrite (Nat2Z.inj_succ (S k)), Z.pow_succ_r by lia. reflexivity. }
  etransitivity; [apply (IH _ _ (S k))|].
  - split; [apply Z.div_pos; lia | apply Z.div_lt_upper_bound; lia].
  - lia.
  - cbn [String.length]. lia.
Qed.

Lemma format_d_length (v : Z) :
  INT_MIN <= v <= INT_MAX ->
  (1 <= String.length (format_d v) <= 11)%nat.
Proof.
  unfold INT_MIN, INT_MAX. intros Hv. unfold format_d, number.
  destruct (Z.ltb_spec v 0) as [Hneg|Hpos]; cbn [String.length].
  - pose proof (put_dec_length (S (Z.to_nat (Z.log2 (- v)))) (- v) EmptyString 10) as H.
    cbn [String.length] in H. change (10 ^ Z.of_nat 10) with 10000000000 in H.
    specialize (H ltac:(lia) ltac:(lia)). lia.
  - pose proof (put_dec_length (S (Z.to_nat (Z.log2 v))) v EmptyString 10) as H.
    cbn [String.length] in H. change (10 ^ Z.of_nat 10) with 10000000000 in H.
    specialize (H ltac:(lia) ltac:(lia)).
    assert (Hone : (1 <= String.length (put_dec (S (Z.to_nat (Z.log2 v))) v EmptyString))%nat).
    { cbn [put_dec]. destruct (v <? 10); [cbn [String.length]; lia|].
      etransitivity; [|apply put_dec_grows]. cbn [String.length]. lia. }
    lia.
Qed.

Lemma sprintf_d_nl_bounded (v : Z) :
  INT_MIN <= v <= INT_MAX ->
  2 <= fst (sprintf_d_nl v) <= 12
  /\ fst (sprintf_d_nl v) = Z.of_nat (String.length (snd (sprintf_d_nl v))).
Proof.
  intros Hv. pose proof (format_d_length v Hv) as H.
  unfold sprintf_d_nl. cbn [fst snd]. rewrite length_append. cbn [String.length].
  split; [lia | reflexivity].
Qed.

Lemma int_wrap_range (z : Z) : INT_MIN <= int_wrap z <= INT_MAX.
Proof.
  unfold int_wrap, INT_MIN, INT_MAX.
  pose proof (Z.mod_pos_bound (z + 2147483648) 4294967296). lia.
Qed.

(** X2: what a counter accessor writes is short.  In the first design
    the generic accessor, for any device image and any offset, either
    reads outside the image or returns a count between 2 and 12 that is
    the length of the text written; in the second design every accessor
    wired in the device table does the same for a device whose counters
    are values of an [int]. *)
Theorem counter_show_output_bounded :
  (forall (device : V1.btrfs_device) (off : nat),
      match V1.btrfs_device_show device off with
      | Returned n text => 2 <= n <= 12 /\ n = Z.of_nat (String.length text)
      | BadAccess => load_uint device off = None
      | NullCall => False
      end)
  /\ (forall a f kobj d,
        In a V2.btrfs_device_default_attrs -> V2.dev_show a = Some f ->
        V2.found_device kobj = Some d ->
        INT_MIN <= V2.cnt_write_io_errs d <= INT_MAX ->
        INT_MIN <= V2.cnt_read_io_errs d <= INT_MAX ->
        INT_MIN <= V2.cnt_flush_io_errs d <= INT_MAX ->
        INT_MIN <= V2.cnt_corruption_errs d <= INT_MAX ->
        INT_MIN <= V2.cnt_generation_errs d <= INT_MAX ->
        exists n text,
          f kobj = Returned n text
          /\ 2 <= n <= 12 /\ n = Z.of_nat (String.length text)).
Proof.
  split.
  - intros device off. unfold V1.btrfs_device_show, load_int.
    destruct (load_uint device off) as [u|]; [|reflexivity]. cbn [fmap option_fmap option_map].
    pose proof (sprintf_d_nl_bounded (int_wrap u) (int_wrap_range u)) as H.
    destruct (sprintf_d_nl (int_wrap u)) as [n text]. exact H.
  - intros a f kobj d Hin Hf Hd H1 H2 H3 H4 H5.
    assert (Hshow : forall field, INT_MIN <= field d <= INT_MAX ->
              exists n text, V2.show_counter field kobj = Returned n text
                             /\ 2 <= n <= 12 /\ n = Z.of_nat (String.length text)).
    { intros field Hr. unfold V2.show_counter, V2.device_stats. rewrite Hd.
      pose proof (sprintf_d_nl_bounded (field d) Hr) as H.
      destruct (sprintf_d_nl (field d)) as [n text]. exists n, text.
      split; [reflexivity | exact H]. }
    simpl in Hin.
    destruct Hin as [<-|[<-|[<-|[<-|[<-|[<-|[<-|[]]]]]]]]; try discriminate Hf;
      injection Hf as <-; apply Hshow; assumption.
Qed.

Lemma counter_show_output_bounded_witness :
  exists n text,
    V2.device_generation_err_show
      (V2.mk_btrfs_fs_info (Some (V2.mk_btrfs_device 0 0 0 0 (-2147483648))))
    = Returned n text
    /\ 2 <= n <= 12 /\ n = Z.of_nat (String.length text).
Proof.
  refine (proj2 counter_show_output_bounded V2.btrfs_attr_cnt_generation_errs _
            (V2.mk_btrfs_fs_info (Some (V2.mk_btrfs_device 0 0 0 0 (-2147483648))))
            (V2.mk_btrfs_device 0 0 0 0 (-2147483648)) _ eq_refl eq_refl _ _ _ _ _);
    try (unfold INT_MIN, INT_MAX; cbn; lia).
  simpl. repeat (try (left; reflexivity); right).
Defined.

(** ** Every path has a last component *)

Lemma path_split (s : string) :
  exists dir base, s = device_path dir base /\ no_separator base = true.
Proof.
  induction s as [|c s IH].
  - exists None, EmptyString. split; reflexivity.
  - destruct IH as (dir & base & -> & Hb). destruct dir as [d|].
    + exists (Some (String c d)), base. split; [reflexivity | exact Hb].
    + cbn [device_path]. destruct (Ascii.eqb c slash) eqn:Ec.
      * apply Ascii.eqb_eq in Ec as ->.
        exists (Some EmptyString), base. split; [reflexivity | exact Hb].
      * exists None, (String c base). split; [reflexivity|].
        cbn [no_separator]. rewrite Ec, Hb. reflexivity.
Qed.

(** The name derivation ends on a separator-free suffix of the path. *)
Lemma device_entry_name_total (s : string) :
  (String.length s < 64)%nat ->
  exists dir nm,
    s = device_path dir nm
    /\ no_separator nm = true
    /\ V1.device_entry_name s = inr (Some nm).
Proof.
  intros Hlen. destruct (path_split s) as (dir & base & -> & Hb).
  exists dir, base. split; [reflexivity|]. split; [exact Hb|].
  unfold V1.device_entry_name, strcpy.
  destruct (Nat.leb_spec (S (String.length (device_path dir base))) 64) as [_|H]; [|lia].
  destruct dir as [d|]; unfold device_path in *.
  - rewrite last_token_path; [reflexivity | exact Hb |].
    rewrite length_append. cbn [String.length]. lia.
  - rewrite last_token_base; [reflexivity | exact Hb | lia].
Qed.

(** X3: for every path that fits the 64-byte buffer the name derivation
    of the first design's create-device ends and gives a name: the name
    holds no separator, and the path is that name alone or a prefix, a
    separator and that name.  In particular a path that ends in a
    separator, and the empty path, give the empty name. *)
Theorem device_entry_name_defined (s : string) :
  (String.length s < 64)%nat ->
  exists dir nm,
    s = device_path dir nm
    /\ no_separator nm = true
    /\ V1.device_entry_name s = inr (Some nm).
Proof. exact (device_entry_name_total s). Qed.

Lemma device_entry_name_defined_witness :
  exists dir nm,
    "/dev/mapper/" = device_path dir nm
    /\ no_separator nm = true
    /\ V1.device_entry_name "/dev/mapper/" = inr (Some nm).
Proof.
  apply (device_entry_name_defined "/dev/mapper/"). vm_compute. lia.
Defined.

(** ** What the kobject calls change *)

Lemma insert_snoc {A : Type} (l : list A) (x y : A) :
  <[length l := x]> (l ++ [y])%list = (l ++ [x])%list.
Proof.
  rewrite insert_app_r_alt by lia. rewrite Nat.sub_diag. reflexivity.
Qed.

Lemma lookup_snoc {A : Type} (l : list A) (y : A) :
  (l ++ [y])%list !! length l = Some y.
Proof. apply list_lookup_middle. reflexivity. Qed.

Section Frames.

Context {T : Type}.
Implicit Types (w : world T) (o : object T).

Lemma store_same w a o : objs w !! a = Some o -> store a o w = w.
Proof.
  intros H. destruct w as [l m]. unfold store. cbn in *.
  rewrite list_insert_id by exact H. reflexivity.
Qed.

Lemma objs_store w a o : objs (store a o w) = <[a := o]> (objs w).
Proof. reflexivity. Qed.

Lemma kzalloc_cases w p w1 :
  kzalloc w = (p, w1) ->
  (p = None /\ objs w1 = objs w)
  \/ (p = Some (length (objs w)) /\ objs w1 = (objs w ++ [zero_object])%list).
Proof.
  unfold kzalloc. pose proof (alloc_attempt_objs w) as Hobjs.
  destruct (alloc_attempt w) as [ok w0]. cbn in Hobjs.
  destruct ok; intros [= <- <-]; [right | left]; cbn; rewrite Hobjs; auto.
Qed.

(** What a registration leaves behind, for each of its results. *)
Lemma kobject_init_and_add_cases w w' a (kt : T) par nm ret :
  kobject_init_and_add a kt par nm w = Some (ret, w') ->
  exists o o',
    deref w a = Some o
    /\ objs w' = <[a := o']> (objs w)
    /\ unregister o' = unregister o /\ freed o' = false /\ releases o' = releases o
    /\ kref (kobj o') = 1 /\ ktype (kobj o') = Some kt
    /\ state_initialized (kobj o') = true
    /\ kset (kobj o') = kset (kobj o)
    /\ ((ret = 0 /\ state_in_sysfs (kobj o') = true /\ name (kobj o') = Some nm
         /\ parent (kobj o') = match par with Some _ => par | None => kset (kobj o) end
         /\ (forall b ob, b <> a -> objs w !! b = Some ob ->
               entry_at (parent (kobj o')) nm ob = false))
        \/ ((ret = - ENOMEM \/ ret = - EEXIST) /\ state_in_sysfs (kobj o') = false)).
Proof.
  unfold kobject_init_and_add, kobject_init.
  destruct (deref w a) as [o0|] eqn:E0; [|discriminate].
  apply deref_Some in E0 as E0'. destruct E0' as [Hl0 Hf0].
  set (o1 := with_kobj _ o0). set (w1 := store a o1 w).
  assert (E1 : deref w1 a = Some o1) by (eapply deref_store_eq; eauto).
  unfold kobject_add. rewrite E1.
  pose proof (alloc_attempt_objs w1) as Hobjs.
  destruct (alloc_attempt w1) as [ok w2]. cbn [snd] in Hobjs.
  destruct ok; cbn [negb].
  - set (dir := match par with Some _ => par | None => kset (kobj o1) end).
    destruct (name_taken w2 dir nm) eqn:Etaken.
    + intros [= <- <-]. eexists o0, _. split; [reflexivity|].
      split; [rewrite objs_store, Hobjs; unfold w1; rewrite objs_store;
              apply list_insert_insert_eq|].
      cbn. repeat split; auto.
    + intros [= <- <-]. eexists o0, _. split; [reflexivity|].
      split; [rewrite objs_store, Hobjs; unfold w1; rewrite objs_store;
              apply list_insert_insert_eq|].
      cbn. repeat split; auto. left. repeat split; auto.
      intros b ob Hb Hlb. unfold name_taken in Etaken.
      eapply existsb_false_lookup; [exact Etaken|].
      rewrite Hobjs. unfold w1. rewrite objs_store.
      rewrite list_lookup_insert_ne; [exact Hlb|].
      intro Hab. apply Hb. symmetry. exact Hab.
  - intros [= <- <-]. exists o0, o1. split; [reflexivity|].
    split; [rewrite Hobjs; reflexivity|].
    cbn. repeat split; auto.
Qed.

End Frames.

(** Dropping a reference: the store differs at that node only. *)
Lemma v1_put_store (w : world V1.kobj_type) (a : nat) (o : object V1.kobj_type)
    (t : V1.kobj_type) :
  deref w a = Some o -> ktype (kobj o) = Some t ->
  exists o',
    kobject_put V1.release PUT_FUEL (Some a) w = Some (store a o' w)
    /\ freed o' = false
    /\ kref (kobj o') = int_wrap (kref (kobj o) - 1)
    /\ ((int_wrap (kref (kobj o) - 1) = 0
         /\ releases o' = S (releases o) /\ unregister o' = S (unregister o)
         /\ state_in_sysfs (kobj o') = false)
        \/ (int_wrap (kref (kobj o) - 1) <> 0
            /\ o' = with_kobj (with_kref (int_wrap (kref (kobj o) - 1)) (kobj o)) o)).
Proof.
  intros Hd Ht. apply deref_Some in Hd as Hd'. destruct Hd' as [Hl Hf].
  destruct (Z.eq_dec (int_wrap (kref (kobj o) - 1)) 0) as [Hz|Hnz].
  - unfold PUT_FUEL. rewrite kobject_put_unfold, Hd. cbv zeta.
    cbn [with_kref kref]. rewrite Hz. cbn [Z.eqb].
    set (o1 := with_kobj _ o).
    assert (Hd1 : deref (store a o1 w) a = Some o1) by (eapply deref_store_eq; eauto).
    destruct (kobject_cleanup_unfold V1.release (kobject_put V1.release 2) a _ o1 t
                Hd1 Ht) as (k & -> & Hk1 & Ht1 & Hs1 & _).
    rewrite store_store. set (o2 := mk_object k _ _ _).
    assert (Hd2 : deref (store a o2 w) a = Some o2) by (eapply deref_store_eq; eauto).
    assert (E : V1.release t (kobject_put V1.release 2) a (store a o2 w)
                = complete a (store a o2 w)) by (destruct t; reflexivity).
    rewrite E. unfold complete. rewrite Hd2, store_store.
    eexists. split; [reflexivity|]. cbn. split; [reflexivity|].
    split; [rewrite Hk1; cbn; congruence|]. left. repeat split; auto.
  - unfold PUT_FUEL. rewrite (kobject_put_not_last _ _ _ _ _ Hd Hnz).
    eexists. split; [reflexivity|]. cbn. split; [exact Hf|].
    split; [reflexivity|]. right. split; [exact Hnz | reflexivity].
Qed.

Lemma v2_put_store (w : world V2.kobj_type) (a : nat) (o : object V2.kobj_type)
    (t : V2.kobj_type) :
  deref w a = Some o -> ktype (kobj o) = Some t -> t <> V2.dead_ktype ->
  exists o',
    kobject_put V2.release PUT_FUEL (Some a) w = Some (store a o' w)
    /\ unregister o' = unregister o
    /\ ((int_wrap (kref (kobj o) - 1) = 0 /\ t <> V2.btrfs_ktype_device
         /\ freed o' = true /\ releases o' = S (releases o)
         /\ kref (kobj o') = 0 /\ state_in_sysfs (kobj o') = false)
        \/ (int_wrap (kref (kobj o) - 1) = 0 /\ t = V2.btrfs_ktype_device
            /\ freed o' = false /\ releases o' = S (releases o)
            /\ kref (kobj o') = -1 /\ state_in_sysfs (kobj o') = false)
        \/ (int_wrap (kref (kobj o) - 1) <> 0
            /\ o' = with_kobj (with_kref (int_wrap (kref (kobj o) - 1)) (kobj o)) o)).
Proof.
  intros Hd Ht Hlive. apply deref_Some in Hd as Hd'. destruct Hd' as [Hl Hf].
  destruct (Z.eq_dec (int_wrap (kref (kobj o) - 1)) 0) as [Hz|Hnz].
  - unfold PUT_FUEL. rewrite kobject_put_unfold, Hd. cbv zeta.
    cbn [with_kref kref]. rewrite Hz. cbn [Z.eqb].
    set (o1 := with_kobj _ o).
    assert (Hd1 : deref (store a o1 w) a = Some o1) by (eapply deref_store_eq; eauto).
    destruct (kobject_cleanup_unfold V2.release (kobject_put V2.release 2) a _ o1 t
                Hd1 Ht) as (k & -> & Hk1 & Ht1 & Hs1 & _).
    rewrite store_store. set (o2 := mk_object k _ _ _).
    assert (Hd2 : deref (store a o2 w) a = Some o2) by (eapply deref_store_eq; eauto).
    assert (Hk2 : kref (kobj o2) = 0) by (cbn; rewrite Hk1; reflexivity).
    assert (Hdec : t = V2.btrfs_ktype_device \/ t <> V2.btrfs_ktype_device)
      by (destruct t; (left; reflexivity) || (right; discriminate)).
    destruct Hdec as [->|Hdir].
    + cbn [V2.release]. unfold V2.btrfs_device_release.
      rewrite (kobject_put_not_last _ _ _ _ _ Hd2);
        [|rewrite Hk2; change (int_wrap (0 - 1)) with (-1); discriminate].
      rewrite store_store, Hk2. change (int_wrap (0 - 1)) with (-1).
      eexists. split; [reflexivity|]. cbn. split; [reflexivity|].
      right. left. repeat split; auto.
    + assert (E : V2.release t (kobject_put V2.release 2) a (store a o2 w)
                  = kfree a (store a o2 w)) by (destruct t; try reflexivity; congruence).
      rewrite E. unfold kfree. rewrite Hd2, store_store.
      eexists. split; [reflexivity|]. cbn. split; [reflexivity|].
      left. repeat split; auto.
  - unfold PUT_FUEL. rewrite (kobject_put_not_last _ _ _ _ _ Hd Hnz).
    eexists. split; [reflexivity|]. cbn. split; [reflexivity|].
    right. right. split; [exact Hnz | reflexivity].
Qed.

Lemma kobject_init_and_add_total {T : Type} (w : world T) (a : nat) (o : object T)
    (kt : T) (par : ptr) (nm : string) :
  deref w a = Some o ->
  exists ret w', kobject_init_and_add a kt par nm w = Some (ret, w').
Proof.
  intros Hd. apply deref_Some in Hd as Hd'. destruct Hd' as [Hl Hf].
  unfold kobject_init_and_add, kobject_init. rewrite Hd.
  set (o1 := with_kobj _ o).
  assert (E1 : deref (store a o1 w) a = Some o1) by (eapply deref_store_eq; eauto).
  unfold kobject_add. rewrite E1.
  destruct (alloc_attempt (store a o1 w)) as [ok w2].
  destruct ok; cbn [negb]; [|eauto].
  destruct (name_taken w2 _ nm); eauto.
Qed.

(** ** Creating the fixed nodes *)

(** What the end of a successful [btrfs_kobject_create] does to the node
    it returns. *)
Lemma ktype_out_of_scope_snoc (w : world V2.kobj_type) (l : list (object V2.kobj_type))
    (o : object V2.kobj_type) :
  objs w = (l ++ [o])%list ->
  exists o',
    objs (V2.ktype_out_of_scope (length l) w) = (l ++ [o'])%list
    /\ oom (V2.ktype_out_of_scope (length l) w) = oom w
    /\ ktype (kobj o') = Some V2.dead_ktype
    /\ freed o' = freed o /\ releases o' = releases o /\ unregister o' = unregister o
    /\ kref (kobj o') = kref (kobj o) /\ name (kobj o') = name (kobj o)
    /\ parent (kobj o') = parent (kobj o) /\ kset (kobj o') = kset (kobj o)
    /\ state_in_sysfs (kobj o') = state_in_sysfs (kobj o)
    /\ state_initialized (kobj o') = state_initialized (kobj o).
Proof.
  intros Ho. unfold V2.ktype_out_of_scope. rewrite Ho, lookup_snoc.
  eexists. split; [rewrite objs_store, Ho; apply insert_snoc|].
  repeat split.
Qed.

(** What [btrfs_kobject_create] returns and leaves behind. *)
Lemma kobject_create_spec (nm : string) (kt : V2.kobj_type) (btrfs_parent : ptr)
    (st : V2.state) :
  kt <> V2.btrfs_ktype_device -> kt <> V2.dead_ktype ->
  exists p st',
    V2.btrfs_kobject_create nm kt btrfs_parent st = inr (p, st')
    /\ V2.btrfs_kset st' = V2.btrfs_kset st
    /\ V2.btrfs_devices st' = V2.btrfs_devices st
    /\ V2.btrfs_health st' = V2.btrfs_health st
    /\ V2.btrfs_info st' = V2.btrfs_info st
    /\ match p with
       | Some b =>
           b = length (objs (V2.mem st))
           /\ exists o,
               objs (V2.mem st') = (objs (V2.mem st) ++ [o])%list
               /\ freed o = false /\ releases o = 0%nat
               /\ kref (kobj o) = 1 /\ ktype (kobj o) = Some V2.dead_ktype
               /\ name (kobj o) = Some nm /\ state_in_sysfs (kobj o) = true
               /\ parent (kobj o)
                  = match btrfs_parent with Some _ => None | None => V2.btrfs_kset st end
               /\ (forall b' ob, objs (V2.mem st) !! b' = Some ob ->
                     entry_at (parent (kobj o)) nm ob = false)
       | None =>
           objs (V2.mem st') = objs (V2.mem st)
           \/ exists o,
               objs (V2.mem st') = (objs (V2.mem st) ++ [o])%list
               /\ freed o = true /\ releases o = 1%nat
       end.
Proof.
  intros Hdir Hlive. unfold V2.btrfs_kobject_create.
  destruct (kzalloc (V2.mem st)) as [p w1] eqn:Ek.
  destruct (kzalloc_cases _ _ _ Ek) as [[-> Ho]|[-> Ho]].
  - exists None, (V2.with_mem w1 st). repeat split. left. exact Ho.
  - set (b := length (objs (V2.mem st))) in *.
    assert (Hd1 : deref w1 b = Some zero_object).
    { apply deref_Some. split; [|reflexivity]. rewrite Ho. apply lookup_snoc. }
    rewrite Hd1.
    set (w2 := match btrfs_parent with
               | Some _ => w1
               | None => store b (with_kobj (with_kset (V2.btrfs_kset st)
                                              (kobj zero_object)) zero_object) w1
               end).
    assert (Hw2 : exists z,
               objs w2 = (objs (V2.mem st) ++ [z])%list
               /\ freed z = false /\ releases z = 0%nat
               /\ kset (kobj z)
                  = match btrfs_parent with Some _ => None | None => V2.btrfs_kset st end).
    { unfold w2. destruct btrfs_parent as [q|].
      - exists zero_object. repeat split. exact Ho.
      - eexists. split; [rewrite objs_store, Ho; apply insert_snoc|].
        repeat split. }
    destruct Hw2 as (z & Hz & Hfz & Hrz & Hkz).
    assert (Hd2 : deref w2 b = Some z).
    { apply deref_Some. split; [|exact Hfz]. rewrite Hz. apply lookup_snoc. }
    destruct (kobject_init_and_add_total w2 b z kt None nm Hd2) as (ret & w3 & E3).
    rewrite E3.
    destruct (kobject_init_and_add_cases _ _ _ _ _ _ _ E3)
      as (z' & o3 & Hd2' & Ho3 & Hu3 & Hf3 & Hr3 & Hk3 & Ht3 & Hi3 & Hks3 & Hcase).
    rewrite Hd2 in Hd2'. injection Hd2' as <-.
    rewrite Hz in Ho3. unfold b in Ho3. rewrite insert_snoc in Ho3.
    destruct Hcase as [(-> & Hs3 & Hn3 & Hp3 & Hfree)|(Hret & Hs3)].
    + cbn [Z.eqb negb].
      destruct (ktype_out_of_scope_snoc w3 _ o3 Ho3)
        as (o4 & Ho4 & _ & Ht4 & Hf4 & Hr4 & _ & Hk4 & Hn4 & Hp4 & _ & Hs4 & _).
      exists (Some b), (V2.with_mem (V2.ktype_out_of_scope b w3) st).
      repeat split. exists o4. cbn [V2.with_mem V2.mem].
      split; [exact Ho4|]. split; [congruence|]. split; [congruence|].
      split; [congruence|]. split; [exact Ht4|]. split; [congruence|].
      split; [congruence|]. split; [rewrite Hp4, Hp3, Hkz; reflexivity|].
      intros b' ob Hb'. rewrite Hp4. apply (Hfree b').
      * apply lookup_lt_Some in Hb'. fold b in Hb'. lia.
      * rewrite Hz, lookup_app_l by (eapply lookup_lt_Some; eauto). exact Hb'.
    + assert (Hne : negb (ret =? 0) = true) by (destruct Hret as [-> | ->]; reflexivity).
      rewrite Hne.
      assert (Hd3 : deref w3 b = Some o3).
      { apply deref_Some. split; [|exact Hf3]. rewrite Ho3. apply lookup_snoc. }
      destruct (v2_put_store w3 b o3 kt Hd3 Ht3 Hlive) as (o4 & E4 & _ & Hc4).
      rewrite E4. exists None, (V2.with_mem (store b o4 w3) st).
      repeat split. right. exists o4. cbn [V2.with_mem V2.mem].
      split; [rewrite objs_store, Ho3; apply insert_snoc|].
      rewrite Hk3 in Hc4. change (int_wrap (1 - 1)) with 0 in Hc4.
      destruct Hc4 as [(_ & _ & Hf4 & Hr4 & _)|[(_ & Hdev & _)|(Hnz & _)]];
        [|contradiction|congruence].
      split; [exact Hf4 | lia].
Qed.

(** X4: [btrfs_kobject_create], given a copy of one of the directory
    types, either returns the address of a new node, appended to the
    store, live, holding one reference, and registered under the name
    given (a name that no node had there), or returns NULL, in which
    case the store is as before or holds one more node whose storage was
    given back after one run of the release callback; the globals are
    untouched and no existing node changes.  The node that is returned
    carries, as its node type, the address of the function's own
    parameter, dead from then on.  The registration is made below the
    kset when no parent is given, and at the top of the namespace, not
    below the parent, when one is given. *)
Theorem kobject_create_contract (nm : string) (kt : V2.kobj_type) (btrfs_parent : ptr)
    (st : V2.state) :
  kt <> V2.btrfs_ktype_device -> kt <> V2.dead_ktype ->
  exists p st',
    V2.btrfs_kobject_create nm kt btrfs_parent st = inr (p, st')
    /\ V2.btrfs_kset st' = V2.btrfs_kset st
    /\ V2.btrfs_devices st' = V2.btrfs_devices st
    /\ V2.btrfs_health st' = V2.btrfs_health st
    /\ V2.btrfs_info st' = V2.btrfs_info st
    /\ match p with
       | Some b =>
           b = length (objs (V2.mem st))
           /\ exists o,
               objs (V2.mem st') = (objs (V2.mem st) ++ [o])%list
               /\ freed o = false /\ releases o = 0%nat
               /\ kref (kobj o) = 1 /\ ktype (kobj o) = Some V2.dead_ktype
               /\ name (kobj o) = Some nm /\ state_in_sysfs (kobj o) = true
               /\ parent (kobj o)
                  = match btrfs_parent with Some _ => None | None => V2.btrfs_kset st end
               /\ (forall b' ob, objs (V2.mem st) !! b' = Some ob ->
                     entry_at (parent (kobj o)) nm ob = false)
       | None =>
           objs (V2.mem st') = objs (V2.mem st)
           \/ exists o,
               objs (V2.mem st') = (objs (V2.mem st) ++ [o])%list
               /\ freed o = true /\ releases o = 1%nat
       end.
Proof. exact (kobject_create_spec nm kt btrfs_parent st). Qed.

Lemma kobject_create_contract_witness :
  exists p st',
    V2.btrfs_kobject_create "stats" V2.btrfs_ktype_info (Some 2%nat) after_init
    = inr (p, st')
    /\ V2.btrfs_kset st' = V2.btrfs_kset after_init
    /\ V2.btrfs_devices st' = V2.btrfs_devices after_init
    /\ V2.btrfs_health st' = V2.btrfs_health after_init
    /\ V2.btrfs_info st' = V2.btrfs_info after_init
    /\ match p with
       | Some b =>
           b = length (objs (V2.mem after_init))
           /\ exists o,
               objs (V2.mem st') = (objs (V2.mem after_init) ++ [o])%list
               /\ freed o = false /\ releases o = 0%nat
               /\ kref (kobj o) = 1 /\ ktype (kobj o) = Some V2.dead_ktype
               /\ name (kobj o) = Some "stats" /\ state_in_sysfs (kobj o) = true
               /\ parent (kobj o) = None
               /\ (forall b' ob, objs (V2.mem after_init) !! b' = Some ob ->
                     entry_at (parent (kobj o)) "stats" ob = false)
       | None =>
           objs (V2.mem st') = objs (V2.mem after_init)
           \/ exists o,
               objs (V2.mem st') = (objs (V2.mem after_init) ++ [o])%list
               /\ freed o = true /\ releases o = 1%nat
       end.
Proof.
  apply (kobject_create_contract "stats" V2.btrfs_ktype_info (Some 2%nat) after_init);
    discriminate.
Defined.

(** [btrfs_kobject_create] does return a node when no allocation fails
    and the name is free below the kset. *)
Lemma kobject_create_succeeds (nm : string) (kt : V2.kobj_type) (st : V2.state) :
  oom (V2.mem st) = [] ->
  name_taken (V2.mem st) (V2.btrfs_kset st) nm = false ->
  exists st',
    V2.btrfs_kobject_create nm kt None st = inr (Some (length (objs (V2.mem st))), st')
    /\ oom (V2.mem st') = [].
Proof.
  intros Hoom Hfree. unfold V2.btrfs_kobject_create, kzalloc, alloc_attempt.
  rewrite Hoom. cbn [objs oom].
  set (b := length (objs (V2.mem st))).
  set (w1 := mk_world (objs (V2.mem st) ++ [zero_object])%list (oom (V2.mem st))).
  assert (Hd1 : deref w1 b = Some zero_object).
  { apply deref_Some. split; [apply lookup_snoc | reflexivity]. }
  rewrite Hd1.
  set (z := with_kobj (with_kset (V2.btrfs_kset st) (kobj zero_object)) zero_object).
  assert (Hd2 : deref (store b z w1) b = Some z).
  { eapply deref_store_eq; [apply lookup_snoc | reflexivity]. }
  assert (Hfree2 : name_taken (store b z w1) (V2.btrfs_kset st) nm = false).
  { apply name_taken_store; [|apply entry_at_detached; reflexivity].
    apply (name_taken_snoc (V2.mem st) w1 zero_object); [reflexivity | exact Hfree|].
    apply entry_at_detached. reflexivity. }
  destruct (kobject_init_and_add_free (store b z w1) b z kt None nm Hd2 Hoom Hfree2)
    as (w3 & E3 & Hoom3).
  rewrite E3. cbn [Z.eqb negb]. eexists. split; [reflexivity|].
  cbn [V2.with_mem V2.mem]. unfold V2.ktype_out_of_scope.
  destruct (objs w3 !! b); [exact Hoom3 | exact Hoom3].
Qed.

Lemma destroy_null (st : V2.state) :
  V2.destroy None st = inr (V2.with_mem (V2.mem st) st).
Proof. reflexivity. Qed.

(** Destroy on the only reference of a node that [btrfs_kobject_create]
    returned. *)
Lemma destroy_dead (st : V2.state) (a : nat) (o : object V2.kobj_type) :
  deref (V2.mem st) a = Some o -> ktype (kobj o) = Some V2.dead_ktype ->
  kref (kobj o) = 1 ->
  V2.destroy (Some a) st = inl InvalidPointer.
Proof.
  intros Hd Ht Hk. unfold V2.destroy, V2.btrfs_kobject_destroy. cbn [run exec_stmt].
  rewrite (v2_dead_last_put _ _ _ Hd Ht) by (rewrite Hk; reflexivity).
  reflexivity.
Qed.

Lemma registered_lookup {T : Type} (l : list (object T)) (o : object T)
    (rest : list (object T)) :
  (l ++ o :: rest)%list !! length l = Some o.
Proof. apply list_lookup_middle. reflexivity. Qed.

(** What [btrfs_static_init_sysfs] returns and leaves behind. *)
Lemma static_init_spec (st : V2.state) :
  match V2.btrfs_static_init_sysfs st with
  | inr (ret, st') =>
      V2.btrfs_kset st' = V2.btrfs_kset st
      /\ exists l,
          objs (V2.mem st') = (objs (V2.mem st) ++ l)%list
          /\ ((ret = 0
               /\ exists od oh oi,
                   l = [od; oh; oi]
                   /\ V2.btrfs_devices st' = Some (length (objs (V2.mem st)))
                   /\ V2.btrfs_health st' = Some (S (length (objs (V2.mem st))))
                   /\ V2.btrfs_info st' = Some (S (S (length (objs (V2.mem st)))))
                   /\ registered_as "devices" (V2.btrfs_kset st) od
                   /\ registered_as "health" (V2.btrfs_kset st) oh
                   /\ registered_as "info" (V2.btrfs_kset st) oi
                   /\ ktype (kobj od) = Some V2.dead_ktype
                   /\ ktype (kobj oh) = Some V2.dead_ktype
                   /\ ktype (kobj oi) = Some V2.dead_ktype
                   /\ releases od = 0%nat /\ releases oh = 0%nat /\ releases oi = 0%nat)
              \/ (ret = - EINVAL
                  /\ (V2.btrfs_devices st' = None
                      \/ (V2.btrfs_devices st' = Some (length (objs (V2.mem st)))
                          /\ V2.btrfs_health st' = None
                          /\ exists od l',
                              l = od :: l'
                              /\ registered_as "devices" (V2.btrfs_kset st) od
                              /\ releases od = 0%nat))))
  | inl f => f = InvalidPointer
  end.
Proof.
  unfold V2.btrfs_static_init_sysfs.
  destruct (kobject_create_spec "devices" V2.btrfs_ktype_device_dir None st
              ltac:(discriminate) ltac:(discriminate))
    as (p1 & st1 & E1 & K1 & D1 & H1 & I1 & C1).
  rewrite E1. set (n := length (objs (V2.mem st))) in *.
  destruct p1 as [d|]; cbn [V2.is_null].
  2: { cbn [V2.mem V2.btrfs_kset V2.btrfs_devices]. split; [exact K1|].
       destruct C1 as [C1|(o & C1 & _)].
       - exists []. rewrite app_nil_r. split; [exact C1|]. right.
         split; [reflexivity | left; reflexivity].
       - exists [o]. split; [exact C1|]. right.
         split; [reflexivity | left; reflexivity]. }
  destruct C1 as (-> & od & O1 & Hfd & Hrd & Hkd & Htd & Hnd & Hsd & Hpd & _).
  assert (Rd : registered_as "devices" (V2.btrfs_kset st) od)
    by (repeat split; assumption).
  set (st1' := V2.mk_state (V2.mem st1) (V2.btrfs_kset st1) (Some n)
                           (V2.btrfs_health st1) (V2.btrfs_info st1)).
  destruct (kobject_create_spec "health" V2.btrfs_ktype_health None st1'
              ltac:(discriminate) ltac:(discriminate))
    as (p2 & st2 & E2 & K2 & D2 & H2 & I2 & C2).
  rewrite E2.
  cbn [st1' V2.mem V2.btrfs_kset V2.btrfs_devices V2.btrfs_health V2.btrfs_info] in *.
  assert (Hlen1 : length (objs (V2.mem st1)) = S n).
  { rewrite O1, length_app. cbn. fold n. lia. }
  destruct p2 as [h|]; cbn [V2.is_null].
  2: { rewrite destroy_null.
       assert (exists l, objs (V2.mem st2) = (objs (V2.mem st) ++ od :: l)%list)
         as [l Hl].
       { destruct C2 as [C2|(o & C2 & _)]; rewrite C2, O1.
         - exists []. reflexivity.
         - exists [o]. rewrite <- app_assoc. reflexivity. }
       cbn [V2.with_mem V2.mem V2.btrfs_kset V2.btrfs_devices V2.btrfs_health].
       split; [congruence|]. exists (od :: l). split; [exact Hl|]. right.
       split; [reflexivity|]. right. split; [exact D2|]. split; [reflexivity|].
       exists od, l. split; [reflexivity|]. split; [exact Rd | exact Hrd]. }
  destruct C2 as (-> & oh & O2 & Hfh & Hrh & Hkh & Hth & Hnh & Hsh & Hph & _).
  rewrite K1 in Hph.
  assert (Rh : registered_as "health" (V2.btrfs_kset st) oh)
    by (repeat split; assumption).
  rewrite Hlen1 in *.
  set (st2' := V2.mk_state (V2.mem st2) (V2.btrfs_kset st2) (V2.btrfs_devices st2)
                           (Some (S n)) (V2.btrfs_info st2)).
  destruct (kobject_create_spec "info" V2.btrfs_ktype_info None st2'
              ltac:(discriminate) ltac:(discriminate))
    as (p3 & st3 & E3 & K3 & D3 & H3 & I3 & C3).
  rewrite E3.
  cbn [st2' V2.mem V2.btrfs_kset V2.btrfs_devices V2.btrfs_health V2.btrfs_info] in *.
  assert (O2' : objs (V2.mem st2) = (objs (V2.mem st) ++ [od; oh])%list).
  { rewrite O2, O1, <- app_assoc. reflexivity. }
  assert (Hlen2 : length (objs (V2.mem st2)) = S (S n)).
  { rewrite O2', length_app. cbn. fold n. lia. }
  destruct p3 as [i|]; cbn [V2.is_null].
  2: { rewrite destroy_null.
       cbn [V2.with_mem V2.mem V2.btrfs_kset V2.btrfs_devices V2.btrfs_health
            V2.btrfs_info].
       assert (exists l, objs (V2.mem st3) = (objs (V2.mem st) ++ od :: oh :: l)%list)
         as [l Hl].
       { destruct C3 as [C3|(o & C3 & _)]; rewrite C3, O2'.
         - exists []. reflexivity.
         - exists [o]. rewrite <- app_assoc. reflexivity. }
       assert (Hdh : deref (V2.mem st3) (S n) = Some oh).
       { apply deref_Some. split; [|exact Hfh]. rewrite Hl.
         change (objs (V2.mem st) ++ od :: oh :: l)%list
           with (objs (V2.mem st) ++ [od] ++ oh :: l)%list.
         rewrite app_assoc. apply list_lookup_middle.
         rewrite length_app. cbn. fold n. lia. }
       set (st3' := V2.mk_state (V2.mem st3) (V2.btrfs_kset st3) (V2.btrfs_devices st3)
                                (V2.btrfs_health st3) None).
       change (V2.with_mem (V2.mem st3) st3') with st3'. rewrite H3.
       rewrite (destroy_dead st3' (S n) oh Hdh Hth Hkh). reflexivity. }
  destruct C3 as (-> & oi & O3 & Hfi & Hri & Hki & Hti & Hni & Hsi & Hpi & _).
  rewrite K2, K1 in Hpi.
  assert (Ri : registered_as "info" (V2.btrfs_kset st) oi)
    by (repeat split; assumption).
  cbn [V2.mem V2.btrfs_kset V2.btrfs_devices V2.btrfs_health V2.btrfs_info].
  split; [congruence|]. exists [od; oh; oi].
  split; [rewrite O3, O2', <- app_assoc; reflexivity|]. left.
  split; [reflexivity|]. exists od, oh, oi. rewrite Hlen2, D3, D2.
  repeat split; try assumption; apply Rd || apply Rh || apply Ri.
Qed.

(** [btrfs_static_init_sysfs] does return 0 when no allocation fails and
    the three names are free below the kset. *)
Lemma static_init_succeeds (st : V2.state) :
  oom (V2.mem st) = [] ->
  name_taken (V2.mem st) (V2.btrfs_kset st) "devices" = false ->
  name_taken (V2.mem st) (V2.btrfs_kset st) "health" = false ->
  name_taken (V2.mem st) (V2.btrfs_kset st) "info" = false ->
  exists st', V2.btrfs_static_init_sysfs st = inr (0, st').
Proof.
  intros Hoom Fd Fh Fi. unfold V2.btrfs_static_init_sysfs.
  destruct (kobject_create_succeeds "devices" V2.btrfs_ktype_device_dir st Hoom Fd)
    as (st1 & E1 & Hoom1).
  destruct (kobject_create_spec "devices" V2.btrfs_ktype_device_dir None st
              ltac:(discriminate) ltac:(discriminate))
    as (p1 & st1_ & E1' & K1 & _ & _ & _ & C1).
  rewrite E1 in E1'. injection E1' as <- <-.
  destruct C1 as (_ & od & O1 & _ & _ & _ & _ & Hnd & _).
  rewrite E1. cbn [V2.is_null].
  set (st1' := V2.mk_state (V2.mem st1) (V2.btrfs_kset st1) _
                           (V2.btrfs_health st1) (V2.btrfs_info st1)).
  assert (Free1 : forall nm, nm <> "devices" ->
            name_taken (V2.mem st) (V2.btrfs_kset st) nm = false ->
            name_taken (V2.mem st1') (V2.btrfs_kset st1') nm = false).
  { intros nm Hne H. cbn [st1' V2.mem V2.btrfs_kset]. rewrite K1.
    apply (name_taken_snoc (V2.mem st) (V2.mem st1) od); [exact O1 | exact H|].
    apply (entry_at_other_name _ _ "devices"); [exact Hnd | congruence]. }
  destruct (kobject_create_succeeds "health" V2.btrfs_ktype_health st1' Hoom1
              (Free1 "health" ltac:(discriminate) Fh))
    as (st2 & E2 & Hoom2).
  destruct (kobject_create_spec "health" V2.btrfs_ktype_health None st1'
              ltac:(discriminate) ltac:(discriminate))
    as (p2 & st2_ & E2' & K2 & _ & _ & _ & C2).
  rewrite E2 in E2'. injection E2' as <- <-.
  destruct C2 as (_ & oh & O2 & _ & _ & _ & _ & Hnh & _).
  rewrite E2. cbn [V2.is_null].
  set (st2' := V2.mk_state (V2.mem st2) (V2.btrfs_kset st2) (V2.btrfs_devices st2) _
                           (V2.btrfs_info st2)).
  assert (Free2 : name_taken (V2.mem st2') (V2.btrfs_kset st2') "info" = false).
  { cbn [st2' V2.mem V2.btrfs_kset]. rewrite K2.
    apply (name_taken_snoc (V2.mem st1') (V2.mem st2) oh); [exact O2| |].
    - apply Free1; [discriminate | exact Fi].
    - apply (entry_at_other_name _ _ "health"); [exact Hnh | discriminate]. }
  destruct (kobject_create_succeeds "info" V2.btrfs_ktype_info st2' Hoom2 Free2)
    as (st3 & E3 & _).
  rewrite E3. cbn [V2.is_null]. eexists. reflexivity.
Qed.

(** X5: [btrfs_static_init_sysfs] either returns 0 or -EINVAL, having
    only appended to the store, or stops on an invalid pointer (the
    unwinding after a failed creation of the info node puts the health
    node, whose node type is a dead parameter).  When it returns 0 the
    three nodes were appended in the order devices, health, info, each
    live, holding one reference and registered under its name below the
    kset, each carrying the address of a dead parameter as its node
    type, and the three globals point to them.  When it returns -EINVAL
    either no devices node was created or the devices node is still live
    and registered, with its reference, and the health pointer is NULL.
    It does return 0 when no allocation fails and the three names are
    free below the kset. *)
Theorem static_init_contract (st : V2.state) :
  match V2.btrfs_static_init_sysfs st with
  | inr (ret, st') =>
      V2.btrfs_kset st' = V2.btrfs_kset st
      /\ exists l,
          objs (V2.mem st') = (objs (V2.mem st) ++ l)%list
          /\ ((ret = 0
               /\ exists od oh oi,
                   l = [od; oh; oi]
                   /\ V2.btrfs_devices st' = Some (length (objs (V2.mem st)))
                   /\ V2.btrfs_health st' = Some (S (length (objs (V2.mem st))))
                   /\ V2.btrfs_info st' = Some (S (S (length (objs (V2.mem st)))))
                   /\ registered_as "devices" (V2.btrfs_kset st) od
                   /\ registered_as "health" (V2.btrfs_kset st) oh
                   /\ registered_as "info" (V2.btrfs_kset st) oi
                   /\ ktype (kobj od) = Some V2.dead_ktype
                   /\ ktype (kobj oh) = Some V2.dead_ktype
                   /\ ktype (kobj oi) = Some V2.dead_ktype
                   /\ releases od = 0%nat /\ releases oh = 0%nat /\ releases oi = 0%nat)
              \/ (ret = - EINVAL
                  /\ (V2.btrfs_devices st' = None
                      \/ (V2.btrfs_devices st' = Some (length (objs (V2.mem st)))
                          /\ V2.btrfs_health st' = None
                          /\ exists od l',
                              l = od :: l'
                              /\ registered_as "devices" (V2.btrfs_kset st) od
                              /\ releases od = 0%nat))))
  | inl f => f = InvalidPointer
  end
  /\ (oom (V2.mem st) = [] ->
      name_taken (V2.mem st) (V2.btrfs_kset st) "devices" = false ->
      name_taken (V2.mem st) (V2.btrfs_kset st) "health" = false ->
      name_taken (V2.mem st) (V2.btrfs_kset st) "info" = false ->
      exists st', V2.btrfs_static_init_sysfs st = inr (0, st')).
Proof. split; [exact (static_init_spec st) | exact (static_init_succeeds st)]. Qed.

Lemma static_init_contract_witness :
  exists st', V2.btrfs_static_init_sysfs (V2.boot []) = inr (0, st').
Proof.
  destruct (static_init_contract (V2.boot [])) as [_ H].
  apply H; reflexivity.
Defined.

(** ** Attaching and detaching a device, second design *)

(** X6: on a node that is not initialized yet, the second design's
    create-device returns 0 or -EINVAL and changes that node only.  On 0
    the node holds one reference and is registered under the label below
    the devices node, and no other node was registered there under that
    label before the call; on -EINVAL the node is out of the namespace,
    the release callback has run once and the count is -1. *)
Theorem create_device_fresh_contract (st : V2.state) (super_kobj : nat)
    (label : string) (o : object V2.kobj_type) :
  deref (V2.mem st) super_kobj = Some o ->
  state_initialized (kobj o) = false ->
  exists ret st' o',
    V2.btrfs_create_device super_kobj label st = inr (ret, st')
    /\ objs (V2.mem st') = <[super_kobj := o']> (objs (V2.mem st))
    /\ V2.btrfs_devices st' = V2.btrfs_devices st
    /\ unregister o' = unregister o /\ freed o' = false
    /\ ((ret = 0
         /\ registered_as label
              (match V2.btrfs_devices st with
               | Some d => Some d
               | None => kset (kobj o)
               end) o'
         /\ releases o' = releases o
         /\ (forall b ob, b <> super_kobj -> objs (V2.mem st) !! b = Some ob ->
               entry_at (parent (kobj o')) label ob = false))
        \/ (ret = - EINVAL /\ kref (kobj o') = -1
            /\ state_in_sysfs (kobj o') = false /\ releases o' = S (releases o))).
Proof.
  intros Hd Hi. unfold V2.btrfs_create_device. rewrite Hd, Hi.
  destruct (kobject_init_and_add_total (V2.mem st) super_kobj o V2.btrfs_ktype_device
              (V2.btrfs_devices st) label Hd) as (ret & w1 & E1).
  rewrite E1.
  destruct (kobject_init_and_add_cases _ _ _ _ _ _ _ E1)
    as (o0 & o1 & Hd0 & Ho1 & Hu1 & Hf1 & Hr1 & Hk1 & Ht1 & Hi1 & Hks1 & Hcase).
  rewrite Hd in Hd0. injection Hd0 as <-.
  apply deref_Some in Hd as Hd'. destruct Hd' as [Hl Hf].
  destruct Hcase as [(-> & Hs1 & Hn1 & Hp1 & Hfree)|(Hret & Hs1)].
  - cbn [Z.eqb negb]. eexists 0, _, o1. split; [reflexivity|].
    cbn [V2.with_mem V2.mem V2.btrfs_devices].
    split; [exact Ho1|]. split; [reflexivity|]. split; [exact Hu1|].
    split; [exact Hf1|]. left. split; [reflexivity|].
    split; [|split; [exact Hr1 | exact Hfree]].
    repeat split; try assumption.
    rewrite Hp1. destruct (V2.btrfs_devices st); reflexivity.
  - assert (Hne : negb (ret =? 0) = true) by (destruct Hret as [-> | ->]; reflexivity).
    rewrite Hne.
    assert (Hd1 : deref w1 super_kobj = Some o1).
    { apply deref_Some. split; [|exact Hf1]. rewrite Ho1.
      apply list_lookup_insert_eq. eapply lookup_lt_Some, Hl. }
    destruct (v2_put_store w1 super_kobj o1 V2.btrfs_ktype_device Hd1 Ht1
                ltac:(discriminate))
      as (o2 & E2 & Hu2 & Hc2).
    rewrite E2. rewrite Hk1 in Hc2. change (int_wrap (1 - 1)) with 0 in Hc2.
    destruct Hc2 as [(_ & Hdir & _)|[(_ & _ & Hf2 & Hr2 & Hk2 & Hs2)|(Hnz & _)]];
      [contradiction| |congruence].
    eexists (- EINVAL), _, o2. split; [reflexivity|].
    cbn [V2.with_mem V2.mem V2.btrfs_devices].
    split; [rewrite objs_store, Ho1; apply list_insert_insert_eq|].
    split; [reflexivity|]. split; [congruence|]. split; [exact Hf2|].
    right. repeat split; try assumption. congruence.
Qed.

Lemma create_device_fresh_contract_witness :
  exists ret st' o',
    V2.btrfs_create_device 0 "sdb" after_init = inr (ret, st')
    /\ objs (V2.mem st') = <[0%nat := o']> (objs (V2.mem after_init))
    /\ V2.btrfs_devices st' = V2.btrfs_devices after_init
    /\ unregister o' = 0%nat /\ freed o' = false
    /\ ((ret = 0
         /\ registered_as "sdb" (Some 2%nat) o'
         /\ releases o' = 0%nat
         /\ (forall b ob, b <> 0%nat -> objs (V2.mem after_init) !! b = Some ob ->
               entry_at (parent (kobj o')) "sdb" ob = false))
        \/ (ret = - EINVAL /\ kref (kobj o') = -1
            /\ state_in_sysfs (kobj o') = false /\ releases o' = 1%nat)).
Proof.
  exact (create_device_fresh_contract after_init 0 "sdb" zero_object eq_refl eq_refl).
Defined.

(** X7: on an initialized node of the second design, create-device
    followed by kill-device gives back the store as it was, provided the
    count is not zero and not at its maximum: kill-device undoes what
    create-device did. *)
Theorem create_then_kill_restores (st : V2.state) (super_kobj : nat)
    (label : string) (o : object V2.kobj_type) :
  deref (V2.mem st) super_kobj = Some o ->
  state_initialized (kobj o) = true ->
  INT_MIN <= kref (kobj o) < INT_MAX ->
  kref (kobj o) <> 0 ->
  exists st',
    V2.btrfs_create_device super_kobj label st = inr (0, st')
    /\ run V2.release (V2.btrfs_kill_device super_kobj) (V2.mem st')
       = Finished (V2.mem st).
Proof.
  intros Hd Hi Hr Hnz. apply deref_Some in Hd as Hd'. destruct Hd' as [Hl Hf].
  unfold V2.btrfs_create_device, kobject_get. rewrite Hd, Hi.
  eexists. split; [reflexivity|]. cbn [V2.with_mem V2.mem].
  set (o1 := with_kobj _ o).
  assert (Hd1 : deref (store super_kobj o1 (V2.mem st)) super_kobj = Some o1)
    by (eapply deref_store_eq; eauto).
  assert (Hk1 : kref (kobj o1) = kref (kobj o) + 1).
  { cbn. apply int_wrap_small. unfold INT_MIN, INT_MAX in *. lia. }
  assert (Hback : int_wrap (kref (kobj o1) - 1) = kref (kobj o)).
  { rewrite Hk1. replace (kref (kobj o) + 1 - 1) with (kref (kobj o)) by lia.
    apply int_wrap_small. unfold INT_MIN, INT_MAX in *. lia. }
  unfold V2.btrfs_kill_device. cbn [run exec_stmt]. unfold PUT_FUEL.
  rewrite (kobject_put_not_last _ _ _ _ _ Hd1) by (rewrite Hback; exact Hnz).
  cbn [fmap option_fmap option_map]. rewrite store_store, Hback. f_equal.
  apply store_same. rewrite Hl. f_equal.
  destruct o as [k u f r]. destruct k. reflexivity.
Qed.

Lemma create_then_kill_restores_witness :
  exists st',
    V2.btrfs_create_device 0 "sda1" attached = inr (0, st')
    /\ run V2.release (V2.btrfs_kill_device 0) (V2.mem st') = Finished (V2.mem attached).
Proof.
  refine (create_then_kill_restores attached 0 "sda1"
            (mk_object (mk_kobject (Some "sda1") (Some 2%nat) None
                          (Some V2.btrfs_ktype_device) 1 true true)
                       0%nat false 0%nat)
            eq_refl eq_refl _ _).
  - unfold INT_MIN, INT_MAX. cbn. lia.
  - cbn. discriminate.
Defined.

(** ** Attaching and detaching a device, first design *)

Lemma init_completion_cases {T : Type} (a : nat) (w w1 : world T) :
  init_completion a w = Some w1 ->
  exists o, deref w a = Some o /\ w1 = store a (with_unregister 0 o) w.
Proof.
  unfold init_completion. destruct (deref w a) as [o|]; [|discriminate].
  intros [= <-]. exists o. split; reflexivity.
Qed.

(** X8: in the first design, when create-device has returned 0 and no
    one else holds a reference, kill-device returns without sleeping:
    the node has left the namespace, its release callback has run once
    more, the completion it signalled was consumed, the count is zero,
    and no other node has changed. *)
Theorem v1_create_then_kill_returns (st st' : V1.state) (device_kobj : nat)
    (dev_name : string) :
  V1.btrfs_create_device device_kobj dev_name st = inr (0, st') ->
  exists o w'' o'',
    deref (V1.mem st) device_kobj = Some o
    /\ run V1.release (V1.btrfs_kill_device device_kobj) (V1.mem st') = Finished w''
    /\ objs w'' = <[device_kobj := o'']> (objs (V1.mem st))
    /\ freed o'' = false
    /\ kref (kobj o'') = 0
    /\ state_in_sysfs (kobj o'') = false
    /\ unregister o'' = 0%nat
    /\ releases o'' = S (releases o).
Proof.
  unfold V1.btrfs_create_device.
  destruct (V1.device_entry_name dev_name) as [f|prev]; [discriminate|].
  destruct (init_completion device_kobj (V1.mem st)) as [w1|] eqn:Ei; [|discriminate].
  destruct (init_completion_cases _ _ _ Ei) as (o & Hd & ->).
  apply deref_Some in Hd as Hd'. destruct Hd' as [Hl Hf].
  destruct (kobject_init_and_add device_kobj V1.btrfs_ktype_device
              (Some V1.btrfs_devices) (V1.percent_s prev) _) as [[ret w2]|] eqn:Ea;
    [|discriminate].
  destruct (Z.eqb_spec ret 0) as [->|Hne]; cbn [negb].
  2: { destruct (kobject_put V1.release PUT_FUEL (Some device_kobj) w2); [|discriminate].
       intros H. discriminate H. }
  intros [= <-]. cbn [V1.mem].
  destruct (kobject_init_and_add_cases _ _ _ _ _ _ _ Ea)
    as (o1 & o2 & Hd1 & Ho2 & Hu2 & Hf2 & Hr2 & Hk2 & Ht2 & _).
  erewrite deref_store_eq in Hd1; [|exact Hl|exact Hf]. injection Hd1 as <-.
  rewrite objs_store, list_insert_insert_eq in Ho2.
  assert (Hd2 : deref w2 device_kobj = Some o2).
  { apply deref_Some. split; [|exact Hf2]. rewrite Ho2.
    apply list_lookup_insert_eq. eapply lookup_lt_Some, Hl. }
  destruct (v1_put_store w2 device_kobj o2 V1.btrfs_ktype_device Hd2 Ht2)
    as (o3 & E3 & Hf3 & Hk3 & Hc3).
  rewrite Hk2 in Hk3, Hc3. change (int_wrap (1 - 1)) with 0 in Hk3, Hc3.
  destruct Hc3 as [(_ & Hr3 & Hu3 & Hs3)|(Hnz & _)]; [|congruence].
  assert (Hd3 : deref (store device_kobj o3 w2) device_kobj = Some o3).
  { apply deref_Some in Hd2 as [Hl2 _]. eapply deref_store_eq; eauto. }
  exists o, (store device_kobj (with_unregister 0 o3) (store device_kobj o3 w2)),
         (with_unregister 0 o3).
  split; [exact Hd|]. split.
  - unfold V1.btrfs_kill_device. cbn [run exec_stmt]. rewrite E3.
    cbn [fmap option_fmap option_map].
    rewrite (wait_for_completion_unfold _ _ _ Hd3), Hu3, Hu2. reflexivity.
  - split; [rewrite !objs_store, Ho2, !list_insert_insert_eq; reflexivity|].
    cbn. repeat split; try assumption. rewrite Hr3, Hr2. reflexivity.
Qed.

Lemma v1_create_then_kill_returns_witness :
  exists o w'' o'',
    deref (V1.mem v1_ready) 1 = Some o
    /\ run V1.release (V1.btrfs_kill_device 1)
         (V1.mem (v1_after_create v1_ready)) = Finished w''
    /\ objs w'' = <[1%nat := o'']> (objs (V1.mem v1_ready))
    /\ freed o'' = false
    /\ kref (kobj o'') = 0
    /\ state_in_sysfs (kobj o'') = false
    /\ unregister o'' = 0%nat
    /\ releases o'' = S (releases o).
Proof.
  apply (v1_create_then_kill_returns v1_ready _ 1 "/dev/sda1"). reflexivity.
Defined.

(** ** Init and exit *)

Lemma kset_create_and_add_cases {T : Type} (nm : string) (w w1 : world T) (p : ptr) :
  kset_create_and_add nm w = (p, w1) ->
  (p = None /\ objs w1 = objs w)
  \/ (p = Some (length (objs w))
      /\ exists ks, objs w1 = (objs w ++ [ks])%list
                    /\ registered_as nm None ks
                    /\ ktype (kobj ks) = None /\ releases ks = 0%nat).
Proof.
  unfold kset_create_and_add.
  destruct (kzalloc w) as [q w0] eqn:Ek.
  destruct (kzalloc_cases _ _ _ Ek) as [[-> Ho]|[-> Ho]].
  - intros [= <- <-]. left. split; [reflexivity | exact Ho].
  - destruct (name_taken w0 None nm).
    + intros [= <- <-]. left. split; [reflexivity|]. cbn [objs].
      rewrite Ho. apply take_app_length.
    + intros [= <- <-]. right. split; [reflexivity|]. eexists.
      split; [rewrite objs_store, Ho; apply insert_snoc|].
      repeat split.
Qed.

Lemma kset_unregister_last {T : Type} (w : world T) (k : nat) (ks : object T) :
  deref w k = Some ks -> kref (kobj ks) = 1 ->
  exists ks', kset_unregister (Some k) w = Some (store k ks' w) /\ freed ks' = true.
Proof.
  intros Hd Hk. apply deref_Some in Hd as Hd'. destruct Hd' as [Hl Hf].
  unfold kset_unregister. rewrite Hd. cbv zeta. cbn [with_kref kref]. rewrite Hk.
  change (int_wrap (1 - 1)) with 0. cbn [Z.eqb].
  set (k1 := with_kobj _ ks).
  assert (Hd1 : deref (store k k1 w) k = Some k1) by (eapply deref_store_eq; eauto).
  unfold kobject_del. rewrite Hd1, store_store.
  set (k2 := with_kobj _ k1).
  assert (Hd2 : deref (store k k2 w) k = Some k2) by (eapply deref_store_eq; eauto).
  unfold kfree. rewrite Hd2, store_store.
  eexists. split; reflexivity.
Qed.

(** What the first design's init returns and leaves behind. *)
Lemma v1_init_spec (st : V1.state) (o : object V1.kobj_type) :
  deref (V1.mem st) V1.btrfs_devices = Some o ->
  exists ret st',
    V1.btrfs_init_sysfs st = inr (ret, st')
    /\ ((ret = - ENOMEM /\ V1.btrfs_kset st' = None
         /\ objs (V1.mem st') = objs (V1.mem st))
        \/ (exists ks o',
              V1.btrfs_kset st' = Some (length (objs (V1.mem st)))
              /\ objs (V1.mem st') = <[V1.btrfs_devices := o']> (objs (V1.mem st) ++ [ks])%list
              /\ registered_as "btrfs" None ks
              /\ freed o' = false
              /\ ((ret = 0
                   /\ registered_as "devices" (Some (length (objs (V1.mem st)))) o'
                   /\ ktype (kobj o') = Some V1.btrfs_ktype_device_dir
                   /\ unregister o' = 0%nat /\ releases o' = releases o)
                  \/ (ret = - EINVAL
                      /\ state_in_sysfs (kobj o') = false /\ kref (kobj o') = 0
                      /\ unregister o' = 1%nat /\ releases o' = S (releases o))))).
Proof.
  intros Hd. apply deref_Some in Hd as Hd'. destruct Hd' as [Hl Hf].
  unfold V1.btrfs_init_sysfs.
  destruct (kset_create_and_add "btrfs" (V1.mem st)) as [p w1] eqn:Ek.
  destruct (kset_create_and_add_cases _ _ _ _ Ek) as [[-> Ho]|[-> (ks & Ho & Rks & _)]].
  - eexists (- ENOMEM), _. split; [reflexivity|]. left. repeat split. exact Ho.
  - set (k := length (objs (V1.mem st))) in *.
    unfold V1.btrfs_kobject_init_sysfs. cbn [V1.mem V1.btrfs_kset].
    assert (Hl1 : objs w1 !! V1.btrfs_devices = Some o).
    { rewrite Ho, lookup_app_l by (eapply lookup_lt_Some; eauto). exact Hl. }
    assert (Hd1 : deref w1 V1.btrfs_devices = Some o) by (apply deref_Some; auto).
    rewrite Hd1.
    set (o1 := with_kobj (with_kset (Some k) (kobj o)) o).
    assert (Hdo1 : deref (store V1.btrfs_devices o1 w1) V1.btrfs_devices = Some o1)
      by (eapply deref_store_eq; eauto).
    unfold init_completion. rewrite Hdo1, store_store.
    set (o2 := with_unregister 0 o1).
    assert (Hdo2 : deref (store V1.btrfs_devices o2 w1) V1.btrfs_devices = Some o2)
      by (eapply deref_store_eq; eauto).
    destruct (kobject_init_and_add_total _ _ _ V1.btrfs_ktype_device_dir None "devices"
                Hdo2) as (ret & w3 & E3).
    rewrite E3.
    destruct (kobject_init_and_add_cases _ _ _ _ _ _ _ E3)
      as (o2' & o3 & Hd2' & Ho3 & Hu3 & Hf3 & Hr3 & Hk3 & Ht3 & Hi3 & Hks3 & Hcase).
    rewrite Hdo2 in Hd2'. injection Hd2' as <-.
    rewrite objs_store, list_insert_insert_eq, Ho in Ho3.
    destruct Hcase as [(-> & Hs3 & Hn3 & Hp3 & _)|(Hret & Hs3)].
    + cbn [Z.eqb negb]. eexists 0, _. split; [reflexivity|]. right.
      exists ks, o3. cbn [V1.mem V1.btrfs_kset].
      split; [reflexivity|]. split; [exact Ho3|]. split; [exact Rks|].
      split; [exact Hf3|]. left. split; [reflexivity|].
      split; [|split; [exact Ht3 | split; [exact Hu3 | exact Hr3]]].
      repeat split; assumption.
    + assert (Hne : negb (ret =? 0) = true) by (destruct Hret as [-> | ->]; reflexivity).
      rewrite Hne.
      assert (Hd3 : deref w3 V1.btrfs_devices = Some o3).
      { apply deref_Some. split; [|exact Hf3]. rewrite Ho3.
        apply list_lookup_insert_eq. rewrite length_app. cbn.
        apply lookup_lt_Some in Hl. unfold V1.btrfs_devices in *. lia. }
      destruct (v1_put_store w3 V1.btrfs_devices o3 V1.btrfs_ktype_device_dir Hd3 Ht3)
        as (o4 & E4 & Hf4 & Hk4 & Hc4).
      rewrite E4. rewrite Hk3 in Hk4, Hc4. change (int_wrap (1 - 1)) with 0 in Hk4, Hc4.
      destruct Hc4 as [(_ & Hr4 & Hu4 & Hs4)|(Hnz & _)]; [|congruence].
      eexists (- EINVAL), _. split; [reflexivity|]. right.
      exists ks, o4. cbn [V1.mem V1.btrfs_kset].
      split; [reflexivity|].
      split; [rewrite objs_store, Ho3; apply list_insert_insert_eq|].
      split; [exact Rks|]. split; [exact Hf4|].
      right. split; [reflexivity|]. split; [exact Hs4|]. split; [exact Hk4|].
      split; [rewrite Hu4, Hu3; reflexivity | rewrite Hr4, Hr3; reflexivity].
Qed.

(** X9: the first design's init returns -ENOMEM, 0 or -EINVAL.  On
    -ENOMEM nothing was created.  In the two other cases the btrfs kset
    was appended to the store and is registered, and only the static
    devices node has changed besides: on 0 it holds one reference, is
    registered as devices below the kset and its completion is armed; on
    -EINVAL it is out of the namespace with a count of zero, its release
    callback has run once and left the completion signalled, and the
    kset stays registered. *)
Theorem v1_init_contract (st : V1.state) (o : object V1.kobj_type) :
  deref (V1.mem st) V1.btrfs_devices = Some o ->
  exists ret st',
    V1.btrfs_init_sysfs st = inr (ret, st')
    /\ ((ret = - ENOMEM /\ V1.btrfs_kset st' = None
         /\ objs (V1.mem st') = objs (V1.mem st))
        \/ (exists ks o',
              V1.btrfs_kset st' = Some (length (objs (V1.mem st)))
              /\ objs (V1.mem st') = <[V1.btrfs_devices := o']> (objs (V1.mem st) ++ [ks])%list
              /\ registered_as "btrfs" None ks
              /\ freed o' = false
              /\ ((ret = 0
                   /\ registered_as "devices" (Some (length (objs (V1.mem st)))) o'
                   /\ ktype (kobj o') = Some V1.btrfs_ktype_device_dir
                   /\ unregister o' = 0%nat /\ releases o' = releases o)
                  \/ (ret = - EINVAL
                      /\ state_in_sysfs (kobj o') = false /\ kref (kobj o') = 0
                      /\ unregister o' = 1%nat /\ releases o' = S (releases o))))).
Proof. exact (v1_init_spec st o). Qed.

Lemma v1_init_contract_witness :
  exists ret st',
    V1.btrfs_init_sysfs (V1.boot [false; true]) = inr (ret, st')
    /\ ((ret = - ENOMEM /\ V1.btrfs_kset st' = None
         /\ objs (V1.mem st') = objs (V1.mem (V1.boot [false; true])))
        \/ (exists ks o',
              V1.btrfs_kset st' = Some 1%nat
              /\ objs (V1.mem st')
                 = <[V1.btrfs_devices := o']> (objs (V1.mem (V1.boot [false; true])) ++ [ks])%list
              /\ registered_as "btrfs" None ks
              /\ freed o' = false
              /\ ((ret = 0
                   /\ registered_as "devices" (Some 1%nat) o'
                   /\ ktype (kobj o') = Some V1.btrfs_ktype_device_dir
                   /\ unregister o' = 0%nat /\ releases o' = 0%nat)
                  \/ (ret = - EINVAL
                      /\ state_in_sysfs (kobj o') = false /\ kref (kobj o') = 0
                      /\ unregister o' = 1%nat /\ releases o' = 1%nat)))).
Proof.
  exact (v1_init_contract (V1.boot [false; true]) zero_object eq_refl).
Defined.

Lemma entry_of_freed {T : Type} (o : object T) : freed o = true -> entry_of o = None.
Proof. intros H. unfold entry_of. rewrite H. reflexivity. Qed.

Lemma entry_of_detached {T : Type} (o : object T) :
  state_in_sysfs (kobj o) = false -> entry_of o = None.
Proof. intros H. unfold entry_of. rewrite H, andb_false_r. reflexivity. Qed.

(** X10: in the first design, after an init that returned 0, exit
    returns without sleeping: the devices node has left the namespace
    with a count of zero, its release callback has run once and the
    completion was consumed; the kset was given back; nothing else in
    the store has changed, and neither entry is in the namespace any
    more. *)
Theorem v1_init_then_exit (st st' : V1.state) (o : object V1.kobj_type) :
  deref (V1.mem st) V1.btrfs_devices = Some o ->
  V1.btrfs_init_sysfs st = inr (0, st') ->
  exists st'' ks' o'',
    V1.btrfs_exit_sysfs st' = inr st''
    /\ objs (V1.mem st'') = <[V1.btrfs_devices := o'']> (objs (V1.mem st) ++ [ks'])%list
    /\ freed ks' = true
    /\ freed o'' = false
    /\ state_in_sysfs (kobj o'') = false
    /\ kref (kobj o'') = 0
    /\ unregister o'' = 0%nat
    /\ releases o'' = S (releases o)
    /\ namespace (V1.mem st'')
       = <[V1.btrfs_devices := None]> (namespace (V1.mem st) ++ [None])%list.
Proof.
  intros Hd Hinit. apply deref_Some in Hd as Hd'. destruct Hd' as [Hl Hf].
  destruct (v1_init_spec st o Hd) as (ret & st1 & E & Hcase).
  rewrite E in Hinit. injection Hinit as -> ->.
  destruct Hcase as [(H & _)|(ks & o1 & Hk & Ho & Rks & Hf1 & Hsub)]; [discriminate H|].
  destruct Hsub as [(_ & Ro1 & Ht1 & Hu1 & Hr1)|(H & _)]; [|discriminate H].
  destruct Ro1 as (_ & Hk1 & _). destruct Rks as (Hfks & Hkks & _).
  set (k := length (objs (V1.mem st))) in *.
  assert (Hpos : (0 < k)%nat) by (apply lookup_lt_Some in Hl; exact Hl).
  assert (Hd1 : deref (V1.mem st') V1.btrfs_devices = Some o1).
  { apply deref_Some. split; [|exact Hf1]. rewrite Ho.
    apply list_lookup_insert_eq. rewrite length_app. unfold V1.btrfs_devices. lia. }
  destruct (v1_put_store _ _ _ _ Hd1 Ht1) as (o3 & E3 & Hf3 & Hk3 & Hc3).
  rewrite Hk1 in Hk3, Hc3. change (int_wrap (1 - 1)) with 0 in Hk3, Hc3.
  destruct Hc3 as [(_ & Hr3 & Hu3 & Hs3)|(Hnz & _)]; [|congruence].
  assert (Hd3 : deref (store V1.btrfs_devices o3 (V1.mem st')) V1.btrfs_devices = Some o3).
  { apply deref_Some in Hd1 as [Hl1 _]. eapply deref_store_eq; eauto. }
  set (o4 := with_unregister 0 o3).
  set (w1 := store V1.btrfs_devices o4 (store V1.btrfs_devices o3 (V1.mem st'))).
  assert (Erun : run V1.release (V1.btrfs_kobject_destroy V1.btrfs_devices) (V1.mem st')
                 = Finished w1).
  { unfold V1.btrfs_kobject_destroy. cbn [run exec_stmt]. rewrite E3.
    cbn [fmap option_fmap option_map].
    rewrite (wait_for_completion_unfold _ _ _ Hd3), Hu3, Hu1. reflexivity. }
  assert (Hw1 : objs w1 = <[V1.btrfs_devices := o4]> (objs (V1.mem st) ++ [ks])%list).
  { unfold w1. rewrite !objs_store, Ho, !list_insert_insert_eq. reflexivity. }
  assert (Hdk : deref w1 k = Some ks).
  { apply deref_Some. split; [|exact Hfks]. rewrite Hw1.
    rewrite list_lookup_insert_ne by (unfold V1.btrfs_devices; lia).
    apply lookup_snoc. }
  destruct (kset_unregister_last w1 k ks Hdk Hkks) as (ks' & Eu & Hfks').
  unfold V1.btrfs_exit_sysfs. rewrite Erun. cbn [alone]. rewrite Hk, Eu.
  assert (Hfinal : objs (store k ks' w1)
                   = <[V1.btrfs_devices := o4]> (objs (V1.mem st) ++ [ks'])%list).
  { rewrite objs_store, Hw1.
    rewrite list_insert_insert_ne by (unfold V1.btrfs_devices; lia).
    unfold k. rewrite insert_snoc. reflexivity. }
  eexists _, ks', o4. split; [reflexivity|]. cbn [V1.mem].
  split; [exact Hfinal|]. split; [exact Hfks'|]. split; [exact Hf3|].
  split; [exact Hs3|]. split; [exact Hk3|]. split; [reflexivity|].
  split; [cbn; rewrite Hr3, Hr1; reflexivity|].
  unfold namespace. rewrite Hfinal, list_fmap_insert, fmap_app. cbn [fmap list_fmap].
  rewrite (entry_of_freed ks' Hfks'), (entry_of_detached o4 Hs3). reflexivity.
Qed.

Lemma v1_init_then_exit_witness :
  exists st'' ks' o'',
    V1.btrfs_exit_sysfs v1_after_init = inr st''
    /\ objs (V1.mem st'')
       = <[V1.btrfs_devices := o'']> (objs (V1.mem (V1.boot [])) ++ [ks'])%list
    /\ freed ks' = true
    /\ freed o'' = false
    /\ state_in_sysfs (kobj o'') = false
    /\ kref (kobj o'') = 0
    /\ unregister o'' = 0%nat
    /\ releases o'' = 1%nat
    /\ namespace (V1.mem st'')
       = <[V1.btrfs_devices := None]> (namespace (V1.mem (V1.boot [])) ++ [None])%list.
Proof.
  exact (v1_init_then_exit (V1.boot []) v1_after_init zero_object eq_refl eq_refl).
Defined.

(** X11: in the second design exit cannot follow an init that returned
    0.  Each of the three fixed nodes holds one reference and carries
    the address of a dead parameter as its node type, so destroy on any
    of them, and exit as a whole with its first statement, stops on an
    invalid pointer: the release callback that would give the node back
    is not reached. *)
Theorem v2_init_then_exit (st st' : V2.state) :
  V2.btrfs_init_sysfs st = inr (0, st') ->
  V2.btrfs_exit_sysfs st' = inl InvalidPointer
  /\ V2.destroy (V2.btrfs_devices st') st' = inl InvalidPointer
  /\ V2.destroy (V2.btrfs_health st') st' = inl InvalidPointer
  /\ V2.destroy (V2.btrfs_info st') st' = inl InvalidPointer.
Proof.
  unfold V2.btrfs_init_sysfs.
  destruct (kset_create_and_add "btrfs" (V2.mem st)) as [p w1] eqn:Ek.
  destruct p as [k|]; cbn [V2.is_null]; [|intros H; discriminate H].
  set (st1 := V2.mk_state w1 _ _ _ _). intros E.
  pose proof (static_init_spec st1) as Hspec. rewrite E in Hspec.
  destruct Hspec as (_ & l & O & [(_ & Hok)|(Hret & _)]); [|discriminate Hret].
  destruct Hok as (od & oh & oi & -> & D & Hh & I & Rd & Rh & Ri & Td & Th & Ti & _).
  set (M := objs (V2.mem st1)) in *.
  destruct Rd as (Fd & Kd & _). destruct Rh as (Fh & Kh & _). destruct Ri as (Fi & Ki & _).
  assert (Dd : deref (V2.mem st') (length M) = Some od).
  { apply deref_Some. split; [|exact Fd]. rewrite O. apply registered_lookup. }
  assert (Dh : deref (V2.mem st') (S (length M)) = Some oh).
  { apply deref_Some. split; [|exact Fh]. rewrite O.
    change (M ++ [od; oh; oi])%list with (M ++ [od] ++ oh :: [oi])%list.
    rewrite app_assoc. apply list_lookup_middle. rewrite length_app. cbn. lia. }
  assert (Di : deref (V2.mem st') (S (S (length M))) = Some oi).
  { apply deref_Some. split; [|exact Fi]. rewrite O.
    change (M ++ [od; oh; oi])%list with (M ++ [od; oh] ++ oi :: [])%list.
    rewrite app_assoc. apply list_lookup_middle. rewrite length_app. cbn. lia. }
  assert (Ed : V2.destroy (V2.btrfs_devices st') st' = inl InvalidPointer)
    by (rewrite D; exact (destroy_dead st' _ od Dd Td Kd)).
  split; [unfold V2.btrfs_exit_sysfs; rewrite Ed; reflexivity|].
  split; [exact Ed|].
  split; [rewrite Hh; exact (destroy_dead st' _ oh Dh Th Kh)
         | rewrite I; exact (destroy_dead st' _ oi Di Ti Ki)].
Qed.

Lemma v2_init_then_exit_witness :
  V2.btrfs_init_sysfs engine_boot = inr (0, after_init)
  /\ V2.btrfs_exit_sysfs after_init = inl InvalidPointer.
Proof.
  assert (E : V2.btrfs_init_sysfs engine_boot = inr (0, after_init))
    by (vm_compute; reflexivity).
  split; [exact E|].
  destruct (v2_init_then_exit engine_boot after_init E) as [H _]. exact H.
Defined.

(** ** Attaching a device, first design *)

(** X12: in the first design, create-device on a live node that is not
    initialized yet, with a path that fits the buffer, returns 0 or
    -EINVAL and changes that node only.  On 0 the node holds one
    reference, is registered below the devices node under the last
    component of the path, a name no other node had there, and its
    completion is armed; on -EINVAL the node is out of the namespace
    with a count of zero, and its release callback has run once and left
    the completion signalled. *)
Theorem v1_create_device_contract (st : V1.state) (device_kobj : nat)
    (dev_name : string) (o : object V1.kobj_type) :
  deref (V1.mem st) device_kobj = Some o ->
  state_initialized (kobj o) = false ->
  (String.length dev_name < 64)%nat ->
  exists ret st' o' nm,
    V1.device_entry_name dev_name = inr (Some nm)
    /\ V1.btrfs_create_device device_kobj dev_name st = inr (ret, st')
    /\ objs (V1.mem st') = <[device_kobj := o']> (objs (V1.mem st))
    /\ V1.btrfs_kset st' = V1.btrfs_kset st
    /\ freed o' = false
    /\ ((ret = 0
         /\ registered_as nm (Some V1.btrfs_devices) o'
         /\ unregister o' = 0%nat /\ releases o' = releases o
         /\ (forall b ob, b <> device_kobj -> objs (V1.mem st) !! b = Some ob ->
               entry_at (Some V1.btrfs_devices) nm ob = false))
        \/ (ret = - EINVAL
            /\ state_in_sysfs (kobj o') = false /\ kref (kobj o') = 0
            /\ unregister o' = 1%nat /\ releases o' = S (releases o))).
Proof.
  intros Hd _ Hlen. apply deref_Some in Hd as Hd'. destruct Hd' as [Hl Hf].
  destruct (device_entry_name_total dev_name Hlen) as (dir & nm & _ & _ & En).
  unfold V1.btrfs_create_device. rewrite En. cbn [V1.percent_s].
  unfold init_completion. rewrite Hd.
  set (o1 := with_unregister 0 o).
  assert (Hd1 : deref (store device_kobj o1 (V1.mem st)) device_kobj = Some o1)
    by (eapply deref_store_eq; eauto).
  destruct (kobject_init_and_add_total _ _ _ V1.btrfs_ktype_device
              (Some V1.btrfs_devices) nm Hd1) as (ret & w2 & E2).
  rewrite E2.
  destruct (kobject_init_and_add_cases _ _ _ _ _ _ _ E2)
    as (o1' & o2 & Hd1' & Ho2 & Hu2 & Hf2 & Hr2 & Hk2 & Ht2 & Hi2 & Hks2 & Hcase).
  rewrite Hd1 in Hd1'. injection Hd1' as <-.
  rewrite objs_store, list_insert_insert_eq in Ho2.
  destruct Hcase as [(-> & Hs2 & Hn2 & Hp2 & Hfree)|(Hret & Hs2)].
  - cbn [Z.eqb negb]. eexists 0, _, o2, nm. split; [reflexivity|].
    split; [reflexivity|]. cbn [V1.mem V1.btrfs_kset].
    split; [exact Ho2|]. split; [reflexivity|]. split; [exact Hf2|]. left.
    split; [reflexivity|]. split; [repeat split; assumption|].
    split; [exact Hu2|]. split; [exact Hr2|].
    intros b ob Hb Hlb. rewrite <- Hp2. apply (Hfree b ob Hb).
    rewrite objs_store, list_lookup_insert_ne; [exact Hlb|].
    intro Hab. apply Hb. symmetry. exact Hab.
  - assert (Hne : negb (ret =? 0) = true) by (destruct Hret as [-> | ->]; reflexivity).
    rewrite Hne.
    assert (Hd2 : deref w2 device_kobj = Some o2).
    { apply deref_Some. split; [|exact Hf2]. rewrite Ho2.
      apply list_lookup_insert_eq. eapply lookup_lt_Some, Hl. }
    destruct (v1_put_store w2 device_kobj o2 V1.btrfs_ktype_device Hd2 Ht2)
      as (o3 & E3 & Hf3 & Hk3 & Hc3).
    rewrite E3. rewrite Hk2 in Hk3, Hc3. change (int_wrap (1 - 1)) with 0 in Hk3, Hc3.
    destruct Hc3 as [(_ & Hr3 & Hu3 & Hs3)|(Hnz & _)]; [|congruence].
    eexists (- EINVAL), _, o3, nm. split; [reflexivity|].
    split; [reflexivity|]. cbn [V1.mem V1.btrfs_kset].
    split; [rewrite objs_store, Ho2; apply list_insert_insert_eq|].
    split; [reflexivity|]. split; [exact Hf3|]. right.
    split; [reflexivity|]. split; [exact Hs3|]. split; [exact Hk3|].
    split; [rewrite Hu3, Hu2; reflexivity | rewrite Hr3, Hr2; reflexivity].
Qed.

Lemma v1_create_device_contract_witness :
  exists ret st' o' nm,
    V1.device_entry_name "/dev/sdc" = inr (Some nm)
    /\ V1.btrfs_create_device 1 "/dev/sdc" v1_ready = inr (ret, st')
    /\ objs (V1.mem st') = <[1%nat := o']> (objs (V1.mem v1_ready))
    /\ V1.btrfs_kset st' = V1.btrfs_kset v1_ready
    /\ freed o' = false
    /\ ((ret = 0
         /\ registered_as nm (Some V1.btrfs_devices) o'
         /\ unregister o' = 0%nat /\ releases o' = 0%nat
         /\ (forall b ob, b <> 1%nat -> objs (V1.mem v1_ready) !! b = Some ob ->
               entry_at (Some V1.btrfs_devices) nm ob = false))
        \/ (ret = - EINVAL
            /\ state_in_sysfs (kobj o') = false /\ kref (kobj o') = 0
            /\ unregister o' = 1%nat /\ releases o' = 1%nat)).
Proof.
  refine (v1_create_device_contract v1_ready 1 "/dev/sdc" zero_object eq_refl eq_refl _).
  vm_compute. lia.
Defined.

(** ** The second design's init *)

Lemma kset_create_and_add_free {T : Type} (nm : string) (w : world T) :
  oom w = [] -> name_taken w None nm = false ->
  exists w',
    kset_create_and_add nm w = (Some (length (objs w)), w') /\ oom w' = [].
Proof.
  intros Hoom Hfree. unfold kset_create_and_add, kzalloc, alloc_attempt.
  rewrite Hoom. cbn [objs oom].
  assert (Hfree1 : name_taken (mk_world (objs w ++ [zero_object])%list (oom w)) None nm
                   = false).
  { apply (name_taken_snoc w _ zero_object); [reflexivity | exact Hfree|].
    apply entry_at_detached. reflexivity. }
  rewrite Hfree1. eexists. split; [reflexivity|]. cbn [store oom]. exact Hoom.
Qed.

(** X13: the second design's init either returns -ENOMEM, 0 or -EINVAL,
    or stops on an invalid pointer (in the unwinding of
    [btrfs_static_init_sysfs]).  On -ENOMEM the store holds what it
    held.  On 0 and on -EINVAL the btrfs kset was appended to the store
    and is registered when init returns: a failed init does not give the
    kset back.  Init does return 0 when no allocation fails, the name
    btrfs is free at the top of the namespace and no node claims the
    new kset as its parent. *)
Theorem v2_init_contract (st : V2.state) :
  match V2.btrfs_init_sysfs st with
  | inr (ret, st') =>
      (ret = - ENOMEM /\ V2.btrfs_kset st' = None
       /\ objs (V2.mem st') = objs (V2.mem st))
      \/ ((ret = 0 \/ ret = - EINVAL)
          /\ V2.btrfs_kset st' = Some (length (objs (V2.mem st)))
          /\ exists ks l,
              objs (V2.mem st') = (objs (V2.mem st) ++ ks :: l)%list
              /\ registered_as "btrfs" None ks)
  | inl f => f = InvalidPointer
  end
  /\ (oom (V2.mem st) = [] ->
      name_taken (V2.mem st) None "btrfs" = false ->
      (forall nm, name_taken (V2.mem st) (Some (length (objs (V2.mem st)))) nm = false) ->
      exists st', V2.btrfs_init_sysfs st = inr (0, st')).
Proof.
  split.
  - unfold V2.btrfs_init_sysfs.
    destruct (kset_create_and_add "btrfs" (V2.mem st)) as [p w1] eqn:Ek.
    destruct (kset_create_and_add_cases _ _ _ _ Ek) as [[-> Ho]|[-> (ks & Ho & Rks & _)]];
      cbn [V2.is_null].
    + left. repeat split. exact Ho.
    + set (st1 := V2.mk_state w1 _ _ _ _).
      pose proof (static_init_spec st1) as Hspec.
      destruct (V2.btrfs_static_init_sysfs st1) as [f|[ret st2]]; [exact Hspec|].
      destruct Hspec as (K2 & l & O2 & Hcase). right.
      split; [destruct Hcase as [(-> & _)|(-> & _)]; auto|].
      split; [exact K2|]. exists ks, l. split; [|exact Rks].
      rewrite O2. cbn [st1 V2.mem]. rewrite Ho, <- app_assoc. reflexivity.
  - intros Hoom Hfree Hnew. unfold V2.btrfs_init_sysfs.
    destruct (kset_create_and_add_free "btrfs" (V2.mem st) Hoom Hfree) as (w1 & Ek & Hoom1).
    destruct (kset_create_and_add_cases _ _ _ _ Ek) as [[[=] _]|[_ (ks & Ho & Rks & _)]].
    rewrite Ek. cbn [V2.is_null].
    set (st1 := V2.mk_state w1 _ _ _ _).
    assert (Free : forall nm, name_taken (V2.mem st1) (V2.btrfs_kset st1) nm = false).
    { intros nm. cbn [st1 V2.mem V2.btrfs_kset].
      apply (name_taken_snoc (V2.mem st) w1 ks); [exact Ho | apply Hnew|].
      apply entry_at_other_parent. destruct Rks as (_ & _ & _ & _ & ->). discriminate. }
    exact (static_init_succeeds st1 Hoom1 (Free _) (Free _) (Free _)).
Qed.

Lemma v2_init_contract_witness :
  exists st', V2.btrfs_init_sysfs engine_boot = inr (0, st').
Proof.
  destruct (v2_init_contract engine_boot) as [_ H].
  apply H; [reflexivity | reflexivity | intros nm; reflexivity].
Defined.

(** ** The attribute tables *)

(** X14: the attribute tables are well formed.  Within each table of
    either design the names are pairwise distinct; every attribute is
    declared 0444, is not writable and has no store accessor; so a write
    to any declared attribute returns -EIO, whatever is written. *)
Theorem attribute_tables_well_formed (offsetof : V1.counter -> nat) :
  NoDup (map (fun a => attr_name (V1.dev_attr a)) (V1.btrfs_device_default_attrs offsetof))
  /\ NoDup (map (fun a => attr_name (V2.dev_attr a)) V2.btrfs_device_default_attrs)
  /\ (forall a, In a (V1.btrfs_device_default_attrs offsetof) ->
        mode (V1.dev_attr a) = S_IRUGO /\ writable (V1.dev_attr a) = false
        /\ forall kobj buf len,
             V1.btrfs_device_attr_store kobj a buf len = Returned (- EIO) EmptyString)
  /\ (forall a, In a V2.btrfs_device_default_attrs ->
        mode (V2.dev_attr a) = S_IRUGO /\ writable (V2.dev_attr a) = false
        /\ forall kobj buf len,
             V2.btrfs_device_attr_store kobj a buf len = Returned (- EIO) EmptyString)
  /\ (forall a,
        In a (V2.btrfs_info_default_attrs ++ V2.btrfs_health_default_attrs
              ++ V2.btrfs_devices_default_attrs)%list ->
        mode (V2.kobj_attr a) = S_IRUGO /\ writable (V2.kobj_attr a) = false
        /\ forall kobj buf len,
             V2.btrfs_kobject_attr_store kobj a buf len = Returned (- EIO) EmptyString).
Proof.
  split; [|split; [|split; [|split]]].
  - cbn [map V1.btrfs_device_default_attrs].
    repeat (apply NoDup_cons_2;
            [rewrite ?elem_of_cons, elem_of_nil; cbn; intuition discriminate|]).
    apply NoDup_nil_2.
  - cbn [map V2.btrfs_device_default_attrs].
    repeat (apply NoDup_cons_2;
            [rewrite ?elem_of_cons, elem_of_nil; cbn; intuition discriminate|]).
    apply NoDup_nil_2.
  - intros a H. cbn in H.
    destruct H as [<-|[<-|[<-|[<-|[<-|[]]]]]]; repeat split.
  - intros a H. cbn in H.
    destruct H as [<-|[<-|[<-|[<-|[<-|[<-|[<-|[]]]]]]]]; repeat split.
  - intros a H. cbn in H.
    destruct H as [<-|[<-|[<-|[]]]]; repeat split.
Qed.
